(** * print-file-content.py: a shallow embedding and its properties

    The program walks a directory tree and prints it as a tree with line
    counts, and optionally dumps the text of every file that is not ignored.
    Python [str] values are modelled as [string]; the environment the script
    talks to (the directory tree, the working directory, the table of
    [mimetypes]) is explicit data.

    What the model takes from the environment: the directory tree is finite
    (no link leads back into it), a directory holds each name once,
    [os.getcwd] succeeds, and the command line has already been parsed by
    [argparse].  Exceptions of the file system ([os.listdir], [open],
    decoding) and of standard output ([print] raising, as it does on a
    string the stream cannot encode or on a closed pipe) are part of the
    model, and so is [os.path.islink], which [os.walk] asks before it goes
    into a directory. *)

From Stdlib Require Import Bool Arith BinNat Lia List String Ascii.
From Stdlib Require Import Permutation Sorted DecimalString.
Import ListNotations.
Open Scope string_scope.

Set Implicit Arguments.

(* ------------------------------------------------------------------ *)
(** ** Python string helpers *)

Module Str.

Definition newline : ascii := "010"%char.
Definition cr : ascii := "013"%char.
Definition nl : string := String newline EmptyString.
Definition nul : ascii := "000"%char.

(** ["\0" in s] *)
Fixpoint has_nul (s : string) : bool :=
  match s with
  | EmptyString => false
  | String c t => Ascii.eqb c nul || has_nul t
  end.

(** [s.startswith(p)] *)
Definition startswith (s p : string) : bool := String.prefix p s.

(** [s.endswith(suffix)] *)
Definition endswith (s suffix : string) : bool :=
  (String.length suffix <=? String.length s)%nat
  && String.eqb (substring (String.length s - String.length suffix)
                           (String.length suffix) s) suffix.

(** [s.split(c)]: the pieces between the occurrences of [c]; never empty. *)
Fixpoint split (c : ascii) (s : string) : list string :=
  match s with
  | EmptyString => [EmptyString]
  | String x t =>
      if Ascii.eqb x c then EmptyString :: split c t
      else match split c t with
           | [] => [String x EmptyString]
           | h :: r => String x h :: r
           end
  end.

(** [sep.join(l)] *)
Definition join (sep : string) (l : list string) : string := String.concat sep l.

(** [str(n)] for a non-negative [int]. *)
Definition of_nat (n : nat) : string := NilEmpty.string_of_uint (Nat.to_uint n).

(** Python truthiness of a string. *)
Definition truthy (s : string) : bool :=
  match s with EmptyString => false | _ => true end.

End Str.

(* ------------------------------------------------------------------ *)
(** ** The fragment of [re] the script uses

    [re.match(pattern, s)] compiles [pattern] and matches it at the start of
    [s].  The syntax covered is the one that occurs in [ignore_patterns]:
    literals, escaped punctuation, [.], [^], [$], groups, and the postfix
    [*] and [?].  Anything else does not compile here. *)

Module Re.

Inductive regex : Type :=
| Empty
| Lit (c : ascii)
| AnyChar
| Bos
| Eos
| Seq (r1 r2 : regex)
| Star (r : regex)
| Opt (r : regex).

Definition is_alnum (c : ascii) : bool :=
  let n := nat_of_ascii c in
  ((48 <=? n)%nat && (n <=? 57)%nat) || ((65 <=? n)%nat && (n <=? 90)%nat)
  || ((97 <=? n)%nat && (n <=? 122)%nat).

Definition is_repeat (c : ascii) : bool :=
  Ascii.eqb c "*" || Ascii.eqb c "?" || Ascii.eqb c "+" || Ascii.eqb c "{".

Definition is_unsupported (c : ascii) : bool :=
  is_repeat c || Ascii.eqb c "[" || Ascii.eqb c "|".

(** One atom at the head of [s]: the regex, the rest of the pattern, and
    whether a repeat may follow it ([^] and [$] cannot be repeated). *)
Definition atom (sub : string -> option (regex * string)) (c : ascii) (t : string)
  : option (regex * string * bool) :=
  if Ascii.eqb c "(" then
    match sub t with
    | Some (r, String d t') => if Ascii.eqb d ")" then Some (r, t', true) else None
    | _ => None
    end
  else if Ascii.eqb c "." then Some (AnyChar, t, true)
  else if Ascii.eqb c "^" then Some (Bos, t, false)
  else if Ascii.eqb c "$" then Some (Eos, t, false)
  else if Ascii.eqb c "\" then
    match t with
    | String e t' => if is_alnum e then None else Some (Lit e, t', true)
    | EmptyString => None
    end
  else if is_unsupported c then None
  else Some (Lit c, t, true).

(** An optional postfix [*] or [?]; a second repeat character is refused. *)
Definition quantified (a : regex) (repeatable : bool) (t : string)
  : option (regex * string) :=
  let checked (q : regex) (t2 : string) :=
    match t2 with
    | String d _ => if is_repeat d then None else Some (q, t2)
    | EmptyString => Some (q, t2)
    end in
  match t with
  | String d t2 =>
      if Ascii.eqb d "*" then (if repeatable then checked (Star a) t2 else None)
      else if Ascii.eqb d "?" then (if repeatable then checked (Opt a) t2 else None)
      else if is_repeat d then None
      else Some (a, t)
  | EmptyString => Some (a, t)
  end.

(** A sequence of quantified atoms, up to the end or to a closing
    parenthesis (which is left in the rest). *)
Fixpoint parse_seq (fuel : nat) (s : string) : option (regex * string) :=
  match fuel with
  | O => None
  | S fuel' =>
      match s with
      | EmptyString => Some (Empty, s)
      | String c t =>
          if Ascii.eqb c ")" then Some (Empty, s)
          else
            match atom (parse_seq fuel') c t with
            | None => None
            | Some (a, t1, repeatable) =>
                match quantified a repeatable t1 with
                | None => None
                | Some (q, t2) =>
                    match parse_seq fuel' t2 with
                    | Some (r, t3) => Some (Seq q r, t3)
                    | None => None
                    end
                end
            end
      end
  end.

(** [re.compile(pattern)]; [None] where the pattern is outside the fragment
    (Python raises [re.error] on the malformed ones among them). *)
Definition compile (pattern : string) : option regex :=
  match parse_seq (S (String.length pattern)) pattern with
  | Some (r, EmptyString) => Some r
  | _ => None
  end.

(** Backtracking matcher in continuation-passing style.  [b] tells whether
    the position is the start of the subject, [s] is what is left of it,
    [k] is what must match afterwards. *)
Fixpoint m (r : regex) (b : bool) (s : string) (k : bool -> string -> bool) : bool :=
  match r with
  | Empty => k b s
  | Lit c =>
      match s with
      | String x t => if Ascii.eqb x c then k false t else false
      | EmptyString => false
      end
  | AnyChar =>
      match s with
      | String x t => if Ascii.eqb x Str.newline then false else k false t
      | EmptyString => false
      end
  | Bos => if b then k b s else false
  | Eos =>
      match s with
      | EmptyString => k b s
      | String x EmptyString => if Ascii.eqb x Str.newline then k b s else false
      | _ => false
      end
  | Seq r1 r2 => m r1 b s (fun b' s' => m r2 b' s' k)
  | Opt r1 => m r1 b s k || k b s
  | Star r1 =>
      (fix loop (n : nat) (b : bool) (s : string) {struct n} : bool :=
         m r1 b s
           (fun b' s' =>
              if (String.length s' <? String.length s)%nat
              then match n with O => false | S n' => loop n' b' s' end
              else false)
         || k b s) (String.length s) b s
  end.

Definition matches (r : regex) (s : string) : bool := m r true s (fun _ _ => true).

(** [re.match(pattern, s)] as a truth value.  The script only ever passes
    [ignore_patterns], whose entries all compile ([ignore_patterns_compile]
    below); on a pattern that does not compile the value here is [false]. *)
Definition re_match (pattern s : string) : bool :=
  match compile pattern with
  | Some r => matches r s
  | None => false
  end.

End Re.

(* ------------------------------------------------------------------ *)
(** ** [os.path] on POSIX *)

Module Path.

Definition sep : ascii := "/"%char.

(** [os.path.join(a, b)] *)
Definition join (a b : string) : string :=
  if Str.startswith b "/" then b
  else if negb (Str.truthy a) || Str.endswith a "/" then a ++ b
  else a ++ "/" ++ b.

(** [os.path.basename(p)]: what follows the last slash. *)
Definition basename (p : string) : string := last (Str.split sep p) "".

(** The loop of [normpath] over the components, [acc] being [new_comps]
    in reverse. *)
Fixpoint norm_comps (initial_slashes : nat) (comps acc : list string) : list string :=
  match comps with
  | [] => rev acc
  | comp :: rest =>
      if String.eqb comp "" || String.eqb comp "." then norm_comps initial_slashes rest acc
      else if negb (String.eqb comp "..")
              || ((initial_slashes =? 0)%nat && match acc with [] => true | _ => false end)
              || match acc with top :: _ => String.eqb top ".." | [] => false end
      then norm_comps initial_slashes rest (comp :: acc)
      else match acc with
           | _ :: acc' => norm_comps initial_slashes rest acc'
           | [] => norm_comps initial_slashes rest acc
           end
  end.

(** [os.path.normpath(path)] *)
Definition normpath (path : string) : string :=
  if negb (Str.truthy path) then "."
  else
    let initial_slashes :=
      if Str.startswith path "/" then
        if Str.startswith path "//" && negb (Str.startswith path "///") then 2 else 1
      else 0 in
    let comps := norm_comps initial_slashes (Str.split sep path) [] in
    let p := Str.join "/" comps in
    let p := match initial_slashes with
             | 0 => p
             | 1 => "/" ++ p
             | _ => "//" ++ p
             end in
    if Str.truthy p then p else ".".

(** [os.path.abspath(path)] in a process whose working directory is [cwd]. *)
Definition abspath (cwd path : string) : string :=
  if Str.startswith path "/" then normpath path
  else normpath (join cwd path).

End Path.

(* ------------------------------------------------------------------ *)
(** ** The environment: exceptions, the directory tree, effects *)

Inductive exn_kind : Type :=
| UnicodeDecodeError
| IsADirectoryError
| FileNotFoundError
| PermissionError
| OtherOSError
| UnicodeEncodeError
| ValueError.

(** A raised exception: its class and [str(e)]. *)
Record exn : Type := Exn { kind : exn_kind; message : string }.

(** What [open(path, 'r', encoding='utf-8')] followed by reading the whole
    file gives: the decoded characters as stored, or the exception raised on
    the way. *)
Inductive read_result : Type :=
| Text (raw : string)
| ReadError (e : exn).

(** What the file system has at a path.  [File] is anything for which
    [os.path.isdir] is false (a regular file, a dangling link, nothing at
    all); [Dir] lists its entries in the order the operating system reports
    them; [DirNoList] is a directory whose listing is refused.  Both
    [os.path.isdir] and [os.listdir] follow symbolic links, so a link to a
    directory is a [Dir] as well; which paths are links is a separate piece
    of the environment, [islink] below. *)
#[local] Unset Elimination Schemes.
Inductive node : Type :=
| File (r : read_result)
| Dir (entries : list (string * node))
| DirNoList (e : exn).
#[local] Set Elimination Schemes.

Definition isdir (n : node) : bool :=
  match n with File _ => false | _ => true end.

(** Observable actions, in the order the script performs them. *)
Inductive event : Type :=
| Print (s : string)      (* print(s) *)
| Listdir (p : string)    (* os.listdir(p), or the scan os.walk makes of p *)
| Open (p : string).      (* open(p, 'r', encoding='utf-8') *)

Inductive result (A : Type) : Type :=
| Ret (a : A)
| Raise (e : exn).
Arguments Ret {A} a.
Arguments Raise {A} e.

(** A computation: the actions performed, and how it ended. *)
Definition M (A : Type) : Type := (list event * result A)%type.

Definition ret {A} (a : A) : M A := ([], Ret a).
Definition raise {A} (e : exn) : M A := ([], Raise e).
Definition emit (ev : event) : M unit := ([ev], Ret tt).

(** [print(s)] on a standard output that is described by [refuses]:
    [refuses s] is the exception writing [s] raises ([UnicodeEncodeError]
    for a string the stream cannot encode, an [OSError] for a closed pipe),
    and [None] when [s] is written.  A string that is refused leaves nothing
    on the stream. *)
Definition print (refuses : string -> option exn) (s : string) : M unit :=
  match refuses s with
  | None => emit (Print s)
  | Some e => raise e
  end.

Definition bind {A B} (c : M A) (f : A -> M B) : M B :=
  match c with
  | (tr, Ret a) => let '(tr', r) := f a in ((tr ++ tr')%list, r)
  | (tr, Raise e) => (tr, Raise e)
  end.

(** [try: c  except <handles>: h] *)
Definition try_except {A} (c : M A) (handles : exn -> bool) (h : exn -> M A) : M A :=
  match c with
  | (tr, Raise e) => if handles e then let '(tr', r) := h e in ((tr ++ tr')%list, r)
                     else (tr, Raise e)
  | done => done
  end.

Declare Scope py_scope.
Delimit Scope py_scope with py.
Notation "x <- c ;; k" := (bind c (fun x => k))
  (at level 61, c at next level, right associativity) : py_scope.
Notation "c ;; k" := (bind c (fun _ => k))
  (at level 61, right associativity) : py_scope.
Open Scope py_scope.

Definition trace {A} (c : M A) : list event := fst c.
Definition outcome {A} (c : M A) : result A := snd c.

(** The lines written to standard output. *)
Fixpoint printed (tr : list event) : list string :=
  match tr with
  | [] => []
  | Print s :: tr' => s :: printed tr'
  | _ :: tr' => printed tr'
  end.

(** The bytes written to standard output. *)
Definition stdout (tr : list event) : string :=
  String.concat "" (map (fun s => s ++ Str.nl) (printed tr)).

(* ------------------------------------------------------------------ *)
(** ** Text files: universal newlines and line iteration *)

(** Text mode with the default [newline=None]: a carriage return, alone or
    followed by a line feed, is read as one line feed. *)
Fixpoint translate_newlines (s : string) : string :=
  match s with
  | EmptyString => EmptyString
  | String c t =>
      if Ascii.eqb c Str.cr then
        String Str.newline
          match t with
          | String d t' => if Ascii.eqb d Str.newline then translate_newlines t'
                           else translate_newlines t
          | EmptyString => EmptyString
          end
      else String c (translate_newlines t)
  end.

(** Iterating over a text file: each line runs up to and including its line
    feed; what follows the last line feed, if anything, is a line too. *)
Fixpoint readlines (s : string) : list string :=
  match s with
  | EmptyString => []
  | String c t =>
      if Ascii.eqb c Str.newline then String c EmptyString :: readlines t
      else match readlines t with
           | [] => [String c EmptyString]
           | l :: ls => String c l :: ls
           end
  end.

(** [open] and a full read of what is at [filepath]. *)
Definition open_text (n : node) (filepath : string) : M string :=
  emit (Open filepath) ;;
  match n with
  | File (Text raw) => ret (translate_newlines raw)
  | File (ReadError e) => raise e
  | _ => raise (Exn IsADirectoryError
                  ("[Errno 21] Is a directory: '" ++ filepath ++ "'"))
  end.

(* ------------------------------------------------------------------ *)
(** ** The script *)

(** The ninth literal of the list in the source is followed by no comma:
    Python joins it with the tenth into one pattern. *)
Definition ignore_patterns : list string :=
  [ ".*\.git(ignore)?$";
    ".*\.ipynb$";
    "^LICENSE$";
    "\.env$";
    "__pycache__$";
    ".*\.pyc$";
    ".*\.out$";
    "test-results\.json$";
    ".*\.sum$" ++ "\.terraform\.lock\.hcl$";
    "\.terraform*" ].

Definition blacklist : list string := [ ".git"; "node_modules"; "__pycache__" ].

(** [ignore_patterns or []] *)
Definition or_empty (patterns : option (list string)) : list string :=
  match patterns with Some l => l | None => [] end.

(** [list.sort()] on names: stable, by code point. *)
Fixpoint insert_sorted {A} (key : A -> string) (x : A) (l : list A) : list A :=
  match l with
  | [] => [x]
  | y :: t => if String.leb (key x) (key y) then x :: l else y :: insert_sorted key x t
  end.

Fixpoint sort_by {A} (key : A -> string) (l : list A) : list A :=
  match l with
  | [] => []
  | x :: t => insert_sorted key x (sort_by key t)
  end.

Definition tee : string := "├── ".
Definition corner : string := "└── ".
Definition bar : string := "│   ".
Definition blank : string := "    ".

(** [["├── "] * (n - 1) + ["└── "]]; for [n = 0] the product is empty too. *)
Definition pointers (n : nat) : list string := (repeat tee (n - 1) ++ [corner])%list.

Section Script.

(** What standard output refuses, see [print]. *)
Variable refuses : string -> option exn.
(** [os.path.islink] *)
Variable islink : string -> bool.
(** [os.getcwd()] *)
Variable cwd : string.
(** The first component of [mimetypes.guess_type(path)]. *)
Variable guess_type : string -> option string.
(** What [parser.print_help()] writes. *)
Variable help_text : string.

Definition should_ignore (name path : string) (patterns blacklist : list string) : bool :=
  if existsb (fun pattern => Re.re_match pattern name || Re.re_match pattern path) patterns
  then true
  else
    let abs_path := Path.abspath cwd path in
    existsb (fun bl => String.eqb (Path.basename abs_path) bl
                       || Str.startswith abs_path (Path.abspath cwd bl)) blacklist.

Definition catches_decode_or_isdir (e : exn) : bool :=
  match kind e with
  | UnicodeDecodeError | IsADirectoryError => true
  | _ => false
  end.

(** [here] is what the file system has at [filepath]. *)
Definition count_lines_or_get_type (here : node) (filepath : string) : M (nat + string) :=
  try_except
    (f <- open_text here filepath ;;
     ret (inl (List.length (readlines f))))
    catches_decode_or_isdir
    (fun _ =>
       match guess_type filepath with
       | Some file_type => ret (inr (if Str.truthy file_type then file_type
                                     else "unknown file type"))
       | None => ret (inr "unknown file type")
       end).

(** An entry of a directory together with the run of the renderer on it,
    still waiting for its prefix. *)
Definition item : Type := (string * node * (string -> M nat))%type.
Definition item_name (it : item) : string := fst (fst it).
Definition item_node (it : item) : node := snd (fst it).
Definition item_rec (it : item) : string -> M nat := snd it.

(** The [for pointer, item in zip(pointers, items)] loop. *)
Fixpoint display_loop (folder_path prefix : string) (show_line_counts : bool)
         (zipped : list (string * item)) (total_lines : nat) : M nat :=
  match zipped with
  | [] => ret total_lines
  | (pointer, it) :: rest =>
      let name := item_name it in
      let path := Path.join folder_path name in
      if isdir (item_node it) then
        print refuses (prefix ++ pointer ++ name ++ "/") ;;
        let extension := if String.eqb pointer tee then bar else blank in
        sub <- item_rec it (prefix ++ extension) ;;
        display_loop folder_path prefix show_line_counts rest (total_lines + sub)
      else if show_line_counts then
        line_count <- count_lines_or_get_type (item_node it) path ;;
        match line_count with
        | inl n =>
            print refuses (prefix ++ pointer ++ name ++ " (" ++ Str.of_nat n ++ " lines)") ;;
            display_loop folder_path prefix show_line_counts rest (total_lines + n)
        | inr file_type =>
            print refuses (prefix ++ pointer ++ name ++ " (" ++ file_type ++ ")") ;;
            display_loop folder_path prefix show_line_counts rest total_lines
        end
      else
        print refuses (prefix ++ pointer ++ name) ;;
        display_loop folder_path prefix show_line_counts rest total_lines
  end.

Definition kept (folder_path : string) (ignore_patterns : option (list string))
           (name : string) : bool :=
  negb (should_ignore name (Path.join folder_path name) (or_empty ignore_patterns) blacklist).

(** [here] is what the file system has at [folder_path]. *)
Fixpoint display_tree_structure (here : node) (folder_path : string)
         (ignore_patterns : option (list string)) (prefix : string)
         (show_line_counts : bool) {struct here} : M nat :=
  match here with
  | File _ => ret 0
  | DirNoList e => emit (Listdir folder_path) ;; raise e
  | Dir entries =>
      emit (Listdir folder_path) ;;
      let items : list item :=
        map (fun '(name, n) =>
               (name, n,
                fun prefix' =>
                  display_tree_structure n (Path.join folder_path name)
                    ignore_patterns prefix' show_line_counts)) entries in
      let items := sort_by item_name items in
      let items := filter (fun it => kept folder_path ignore_patterns (item_name it)) items in
      display_loop folder_path prefix show_line_counts
        (combine (pointers (List.length items)) items) 0
  end.

Fixpoint for_each {A} (l : list A) (body : A -> M unit) : M unit :=
  match l with
  | [] => ret tt
  | x :: t => body x ;; for_each t body
  end.

Definition catches_exception (_ : exn) : bool := true.

(** The body of the loop over [files] for a file that is not skipped. *)
Definition dump_file (here : node) (filepath : string) : M unit :=
  try_except
    (content <- open_text here filepath ;;
     print refuses (filepath ++ ":" ++ Str.nl ++ content))
    catches_exception
    (fun e => print refuses ("Error reading " ++ filepath ++ ": " ++ message e)).

(** An entry together with the walk below it. *)
Definition walked : Type := (string * node * M unit)%type.

(** [os.walk] top-down with the defaults [onerror=None] and
    [followlinks=False]: a path that cannot be scanned yields nothing, the
    [OSError] being dropped (a path that holds a NUL names nothing, and the
    scan of it raises a [ValueError], which is not dropped); otherwise the
    entries are split into [dirs] and [files], the loop body runs, and the
    walk goes on into what the body left in [dirs], except for the
    directories that are symbolic links.  The root itself is scanned whether
    it is a link or not. *)
Fixpoint print_file_contents (here : node) (folder_path : string)
         (ignore_patterns : option (list string)) {struct here} : M unit :=
  match here with
  | File _ =>
      emit (Listdir folder_path) ;;
      if Str.has_nul folder_path
      then raise (Exn ValueError "embedded null byte")
      else ret tt
  | DirNoList _ => emit (Listdir folder_path)
  | Dir entries =>
      let root := folder_path in
      emit (Listdir root) ;;
      let scanned : list walked :=
        map (fun '(name, n) =>
               (name, n, print_file_contents n (Path.join root name) ignore_patterns))
            entries in
      let dirs := filter (fun w => isdir (snd (fst w))) scanned in
      let files := filter (fun w => negb (isdir (snd (fst w)))) scanned in
      let dirs := filter (fun w => kept root ignore_patterns (fst (fst w))) dirs in
      for_each files
        (fun w =>
           let filename := fst (fst w) in
           if should_ignore filename (Path.join root filename)
                (or_empty ignore_patterns) blacklist
           then ret tt
           else dump_file (snd (fst w)) (Path.join root filename)) ;;
      let entered :=
        filter (fun w => negb (islink (Path.join root (fst (fst w))))) dirs in
      for_each entered (fun w => snd w)
  end.

(** The parsed command line. *)
Record args : Type := Args {
  folder_path : option string;
  structure : bool;
  structure_all : bool;
  help_only : bool
}.

(** How the process ends: [exit(code)], the end of the script, or an
    exception nobody caught. *)
Inductive status : Type :=
| Exit (code : nat)
| Completed
| Uncaught (e : exn).

Definition finish (c : M unit) : list event * status :=
  match c with
  | (tr, Ret _) => (tr, Completed)
  | (tr, Raise e) => (tr, Uncaught e)
  end.

(** The exit code of the process: that of [exit], 0 at the end of the
    script, 1 after an exception nobody caught. *)
Definition exit_code (s : status) : nat :=
  match s with
  | Exit code => code
  | Completed => 0
  | Uncaught _ => 1
  end.

(** [c] followed by [exit(code)]. *)
Definition exiting (code : nat) (c : M unit) : list event * status :=
  match c with
  | (tr, Ret _) => (tr, Exit code)
  | (tr, Raise e) => (tr, Uncaught e)
  end.

Definition tree_with_total (here : node) (path : string)
           (patterns : option (list string)) : M unit :=
  total_lines <- display_tree_structure here path patterns "" true ;;
  print refuses (Str.nl ++ "Total lines in readable files: " ++ Str.of_nat total_lines).

(** [fs p] is what the file system has at [p]. *)
Definition main (fs : string -> node) (a : args) : list event * status :=
  if help_only a then exiting 0 (print refuses help_text)
  else
    match folder_path a with
    | None | Some EmptyString =>
        exiting 1
          (print refuses "Error: folder_path is required unless --help-only is used." ;;
           print refuses help_text)
    | Some p =>
        if structure a && structure_all a then
          exiting 1
            (print refuses "Error: Cannot use --structure and --structure-all at the same time.")
        else if structure a then
          finish (print refuses ("Directory structure (subject to ignore_patterns):" ++ Str.nl) ;;
                  tree_with_total (fs p) p (Some ignore_patterns))
        else if structure_all a then
          finish (print refuses ("Directory structure (no ignore_patterns applied):" ++ Str.nl) ;;
                  tree_with_total (fs p) p None)
        else
          finish (print refuses ("Directory structure (subject to ignore_patterns):" ++ Str.nl) ;;
                  tree_with_total (fs p) p (Some ignore_patterns) ;;
                  print refuses (Str.nl ++ "File contents:" ++ Str.nl) ;;
                  print_file_contents (fs p) p (Some ignore_patterns))
    end.

End Script.

(* ------------------------------------------------------------------ *)
(** ** Notions the properties are stated with *)

Section Notions.

Variable refuses : string -> option exn.
Variable islink : string -> bool.
Variable cwd : string.
Variable guess_type : string -> option string.

(** The blacklist test of [should_ignore] on its own. *)
Definition blacklisted (path : string) : bool :=
  existsb (fun bl => String.eqb (Path.basename (Path.abspath cwd path)) bl
                     || Str.startswith (Path.abspath cwd path) (Path.abspath cwd bl))
          blacklist.

(** The files of a subtree that are neither filtered out themselves nor
    below a filtered directory, with their paths, directory by directory. *)
Fixpoint shown_files (here : node) (folder_path : string)
         (patterns : option (list string)) : list (string * node) :=
  match here with
  | Dir entries =>
      flat_map (fun '(name, n) =>
                  if kept cwd folder_path patterns name then
                    if isdir n then shown_files n (Path.join folder_path name) patterns
                    else [(Path.join folder_path name, n)]
                  else []) entries
  | _ => []
  end.

(** The integer [count_lines_or_get_type] returns for a file, and 0 where
    it returns a type string (or nothing). *)
Definition int_count (file : string * node) : nat :=
  match outcome (count_lines_or_get_type guess_type (snd file) (fst file)) with
  | Ret (inl n) => n
  | _ => 0
  end.

Definition sum_of_counts (here : node) (folder_path : string)
           (patterns : option (list string)) : nat :=
  list_sum (map int_count (shown_files here folder_path patterns)).

(** Nothing that is shown makes the renderer raise: every shown directory
    can be listed and no shown file fails with an error the line counter
    lets through. *)
Fixpoint all_countable (here : node) (folder_path : string)
         (patterns : option (list string)) : bool :=
  match here with
  | File (ReadError e) => catches_decode_or_isdir e
  | File (Text _) => true
  | DirNoList _ => false
  | Dir entries =>
      forallb (fun '(name, n) =>
                 if kept cwd folder_path patterns name
                 then all_countable n (Path.join folder_path name) patterns
                 else true) entries
  end.

(** The tree without the entries the filter rejects. *)
Fixpoint prune (here : node) (folder_path : string)
         (patterns : option (list string)) : node :=
  match here with
  | Dir entries =>
      Dir (flat_map (fun '(name, n) =>
                       if kept cwd folder_path patterns name
                       then [(name, prune n (Path.join folder_path name) patterns)]
                       else []) entries)
  | _ => here
  end.

(** [reaches patterns top top_path n q]: [n] is found at path [q] by going
    down from [top] through entries the filter keeps. *)
Inductive reaches (patterns : option (list string))
  : node -> string -> node -> string -> Prop :=
| reaches_here : forall n p, reaches patterns n p n p
| reaches_below : forall entries p name c n q,
    In (name, c) entries ->
    kept cwd p patterns name = true ->
    reaches patterns c (Path.join p name) n q ->
    reaches patterns (Dir entries) p n q.

(** The files the dump gets to, in the order of [os.walk]: those of a
    directory first, then directory after directory, a directory that is a
    symbolic link being left alone. *)
Fixpoint walk_files (here : node) (root : string)
         (patterns : option (list string)) : list (string * node) :=
  match here with
  | Dir entries =>
      (flat_map (fun '(name, n) =>
                   if negb (isdir n) && kept cwd root patterns name
                   then [(Path.join root name, n)] else []) entries
       ++
       flat_map (fun '(name, n) =>
                   if isdir n && kept cwd root patterns name
                      && negb (islink (Path.join root name))
                   then walk_files n (Path.join root name) patterns else []) entries)%list
  | _ => []
  end.

(** The line that reports an exception met on a file. *)
Definition error_line (filepath : string) (e : exn) : string :=
  "Error reading " ++ filepath ++ ": " ++ message e.

(** The path of a file and its text, as the dump prints them. *)
Definition content_line (filepath raw : string) : string :=
  filepath ++ ":" ++ Str.nl ++ translate_newlines raw.

(** The one line the dump has for a file: the path and the text, or the
    report of what went wrong, be it with the file or with printing its
    text. *)
Definition dump_line (file : string * node) : string :=
  let filepath := fst file in
  match snd file with
  | File (Text raw) =>
      match refuses (content_line filepath raw) with
      | None => content_line filepath raw
      | Some e => error_line filepath e
      end
  | File (ReadError e) => error_line filepath e
  | _ => error_line filepath
           (Exn IsADirectoryError ("[Errno 21] Is a directory: '" ++ filepath ++ "'"))
  end.

(** What the renderer, asked for line counts, writes after the connector
    for an entry found at [path]: the name and a slash for a directory, the
    name and the count or the type for a file; nothing where counting
    raises. *)
Definition entry_label (path name : string) (n : node) : option string :=
  if isdir n then Some (name ++ "/")
  else match outcome (count_lines_or_get_type guess_type n path) with
       | Ret (inl k) => Some (name ++ " (" ++ Str.of_nat k ++ " lines)")
       | Ret (inr file_type) => Some (name ++ " (" ++ file_type ++ ")")
       | Raise _ => None
       end.

(** Whether standard output takes the line the dump has for a file. *)
Definition line_written (file : string * node) : bool :=
  match refuses (dump_line file) with None => true | Some _ => false end.

(** What [os.walk] needs of its root so that scanning it does not raise. *)
Definition walkable (here : node) (root : string) : bool :=
  isdir here || negb (Str.has_nul root).

(** The body of the loop of the dump on one file after another, without
    the walk around it. *)
Definition dump_files (files : list (string * node)) : M unit :=
  for_each files (fun file => dump_file refuses (snd file) (fst file)).

(** The tree without the directories, below the root, that are symbolic
    links. *)
Fixpoint without_linked_dirs (here : node) (root : string) : node :=
  match here with
  | Dir entries =>
      Dir (flat_map (fun '(name, n) =>
                       if isdir n && islink (Path.join root name)
                       then []
                       else [(name, without_linked_dirs n (Path.join root name))])
                    entries)
  | _ => here
  end.


End Notions.

(** Two views of one unchanged directory tree: the same entries under the
    same names, listed in possibly different orders. *)
Inductive same_tree : node -> node -> Prop :=
| same_file : forall r, same_tree (File r) (File r)
| same_nolist : forall e, same_tree (DirNoList e) (DirNoList e)
| same_dir : forall l1 l2,
    Permutation (map fst l1) (map fst l2) ->
    (forall name a b, In (name, a) l1 -> In (name, b) l2 -> same_tree a b) ->
    same_tree (Dir l1) (Dir l2).

(** From the specification: the number of line-terminated records of a text,
    one per line feed it holds once newlines are translated. *)
Fixpoint terminated_records (text : string) : nat :=
  match text with
  | EmptyString => 0
  | String c t => (if Ascii.eqb c Str.newline then 1 else 0) + terminated_records t
  end.

(** Whether a text ends in the middle of a line. *)
Fixpoint ends_unterminated (text : string) : bool :=
  match text with
  | EmptyString => false
  | String c EmptyString => negb (Ascii.eqb c Str.newline)
  | String _ t => ends_unterminated t
  end.

(** The one pattern the missing comma makes of two. *)
Definition fused_pattern : string := ".*\.sum$" ++ "\.terraform\.lock\.hcl$".

(** Structural induction on trees, with the hypothesis for every entry of a
    directory. *)
Section NodeInd.
Variable P : node -> Prop.
Hypothesis P_file : forall r, P (File r).
Hypothesis P_nolist : forall e, P (DirNoList e).
Hypothesis P_dir : forall entries, Forall (fun en => P (snd en)) entries -> P (Dir entries).

Fixpoint node_ind (n : node) : P n :=
  match n with
  | File r => P_file r
  | DirNoList e => P_nolist e
  | Dir entries =>
      P_dir ((fix all (l : list (string * node)) : Forall (fun en => P (snd en)) l :=
                match l with
                | [] => Forall_nil _
                | en :: l' => Forall_cons en (node_ind (snd en)) (all l')
                end) entries)
  end.
End NodeInd.

(* ------------------------------------------------------------------ *)
(** ** Notions the proofs are organised with *)

(** A regex after which nothing can ever match. *)
Definition never (r : Re.regex) : Prop :=
  forall b s k, Re.m r b s k = false.

(** The order [sort_by] sorts in. *)
Definition key_le {A} (key : A -> string) (x y : A) : Prop :=
  String.leb (key x) (key y) = true.

(** A trace without its listings. *)
Definition quiet (tr : list event) : list event :=
  filter (fun ev => match ev with Listdir _ => false | _ => true end) tr.

(** Two computations that differ in what they list at most. *)
Definition same_io {A} (c d : M A) : Prop :=
  quiet (trace c) = quiet (trace d) /\ outcome c = outcome d.

Section LoopNotions.
Variable refuses : string -> option exn.
Variable islink : string -> bool.
Variable cwd : string.
Variable guess_type : string -> option string.
Variable patterns : option (list string).
Variable show : bool.

(** The entries of a directory as the loop of the renderer sees them. *)
Definition as_item (folder_path : string) (en : string * node) : item :=
  let '(name, n) := en in
  (name, n,
   fun prefix' =>
     display_tree_structure refuses cwd guess_type n (Path.join folder_path name)
       patterns prefix' show).

Definition shown_items (folder_path : string) (entries : list (string * node))
  : list item :=
  filter (fun it => kept cwd folder_path patterns (item_name it))
         (sort_by item_name (map (as_item folder_path) entries)).

(** Two items the loop cannot tell apart. *)
Definition item_agree (it it' : item) : Prop :=
  item_name it = item_name it'
  /\ isdir (item_node it) = isdir (item_node it')
  /\ (isdir (item_node it) = false -> item_node it = item_node it')
  /\ forall prefix, item_rec it prefix = item_rec it' prefix.

Definition pruned_entry (fp : string) (en : string * node) : string * node :=
  (fst en, prune cwd (snd en) (Path.join fp (fst en)) patterns).

(** What an item adds to the total. *)
Definition contribution (fp : string) (it : item) : nat :=
  if isdir (item_node it)
  then sum_of_counts cwd guess_type (item_node it) (Path.join fp (item_name it)) patterns
  else int_count guess_type (Path.join fp (item_name it), item_node it).

(** The entries of a directory as the walk sees them. *)
Definition as_walked (root : string) (en : string * node) : walked :=
  let '(name, n) := en in
  (name, n, print_file_contents refuses islink cwd n (Path.join root name) patterns).

(** The body of the loop over [files]. *)
Definition dump_body (root : string) (w : walked) : M unit :=
  if should_ignore cwd (fst (fst w)) (Path.join root (fst (fst w)))
       (or_empty patterns) blacklist
  then ret tt
  else dump_file refuses (snd (fst w)) (Path.join root (fst (fst w))).

Definition walked_files (root : string) (entries : list (string * node)) : list walked :=
  filter (fun w => negb (isdir (snd (fst w)))) (map (as_walked root) entries).

Definition walked_dirs (root : string) (entries : list (string * node)) : list walked :=
  filter (fun w => kept cwd root patterns (fst (fst w)))
         (filter (fun w => isdir (snd (fst w))) (map (as_walked root) entries)).

(** The directories the walk goes into. *)
Definition entered_dirs (root : string) (entries : list (string * node)) : list walked :=
  filter (fun w => negb (islink (Path.join root (fst (fst w)))))
         (walked_dirs root entries).

End LoopNotions.

(** A directory to try things on, and the same directory listed in another
    order. *)
Definition sample_tree : node :=
  Dir [ ("b.bin", File (ReadError (Exn UnicodeDecodeError "invalid start byte")));
        ("a.txt", File (Text ("x" ++ Str.nl ++ "y" ++ Str.nl)));
        (".git", Dir [("config", File (Text "c"))]);
        ("go.sum", File (Text "h"));
        ("src", Dir [("m.py", File (Text ("p" ++ Str.nl ++ "q")));
                     ("z.pyc", File (Text ""))]) ].

Definition sample_tree_reordered : node :=
  Dir [ ("src", Dir [("z.pyc", File (Text ""));
                     ("m.py", File (Text ("p" ++ Str.nl ++ "q")))]);
        ("go.sum", File (Text "h"));
        ("a.txt", File (Text ("x" ++ Str.nl ++ "y" ++ Str.nl)));
        (".git", Dir [("config", File (Text "c"))]);
        ("b.bin", File (ReadError (Exn UnicodeDecodeError "invalid start byte"))) ].

(** A [mimetypes] table that knows no extension. *)
Definition no_guess : string -> option string := fun _ => None.

(** A standard output that takes every string. *)
Definition never_refuses : string -> option exn := fun _ => None.

(** A standard output that encodes to ASCII, as under [PYTHONIOENCODING=ascii]:
    it refuses a string that holds any other character. *)
Fixpoint is_ascii (s : string) : bool :=
  match s with
  | EmptyString => true
  | String c t => (nat_of_ascii c <? 128)%nat && is_ascii t
  end.

Definition ascii_stdout : string -> option exn :=
  fun s => if is_ascii s then None
           else Some (Exn UnicodeEncodeError "'ascii' codec can't encode character").

(** A directory with a file whose name is not ASCII. *)
Definition accented_tree : node :=
  Dir [ ("caf" ++ String "233"%char ".txt", File (Text "hello")) ].

(** A file system where [root/src] is a symbolic link. *)
Definition src_is_link : string -> bool := fun p => String.eqb p "root/src".

(** A file system without symbolic links. *)
Definition no_links : string -> bool := fun _ => false.

(** Standard output takes every string. *)
Definition writes_all (refuses : string -> option exn) : Prop :=
  forall s, refuses s = None.

(* ------------------------------------------------------------------ *)
(** ** Further notions *)

(** The regex of a literal string, followed by [r]. *)
Fixpoint literal_then (lit : string) (r : Re.regex) : Re.regex :=
  match lit with
  | EmptyString => r
  | String c t => Re.Seq (Re.Lit c) (literal_then t r)
  end.

(** The loop of the matcher on a starred regex, with its fuel. *)
Section StarLoop.
Variable r : Re.regex.
Variable k : bool -> string -> bool.

Fixpoint star_loop (n : nat) (b : bool) (s : string) {struct n} : bool :=
  Re.m r b s
    (fun b' s' =>
       if (String.length s' <? String.length s)%nat
       then match n with O => false | S n' => star_loop n' b' s' end
       else false)
  || k b s.
End StarLoop.

(** No line feed in a string. *)
Fixpoint no_newline (s : string) : bool :=
  match s with
  | EmptyString => true
  | String c t => negb (Ascii.eqb c Str.newline) && no_newline t
  end.

(** No occurrence of a character in a string. *)
Fixpoint lacks (c : ascii) (s : string) : bool :=
  match s with
  | EmptyString => true
  | String x t => negb (Ascii.eqb x c) && lacks c t
  end.

(** A name as [os.listdir] gives them: not empty, no slash, and neither
    [.] nor [..]. *)
Definition entry_name (name : string) : bool :=
  Str.truthy name && lacks Path.sep name
  && negb (String.eqb name ".") && negb (String.eqb name "..").

(** A string that can stand before a name in a path: empty, or ending in
    the separator. *)
Definition opens_component (z : string) : Prop :=
  z = "" \/ exists z0, z = z0 ++ "/".

(** The stored form of a text whose lines end in a line feed, with every
    line feed written as carriage return and line feed. *)
Fixpoint to_crlf (s : string) : string :=
  match s with
  | EmptyString => EmptyString
  | String c t =>
      if Ascii.eqb c Str.newline then String Str.cr (String Str.newline (to_crlf t))
      else String c (to_crlf t)
  end.

(** The same with a lone carriage return for every line feed. *)
Fixpoint to_cr (s : string) : string :=
  match s with
  | EmptyString => EmptyString
  | String c t =>
      if Ascii.eqb c Str.newline then String Str.cr (to_cr t)
      else String c (to_cr t)
  end.

(** The paths opened, in order. *)
Fixpoint opened (tr : list event) : list string :=
  match tr with
  | [] => []
  | Open p :: tr' => p :: opened tr'
  | _ :: tr' => opened tr'
  end.

(** The paths listed, in order. *)
Fixpoint listed (tr : list event) : list string :=
  match tr with
  | [] => []
  | Listdir p :: tr' => p :: listed tr'
  | _ :: tr' => listed tr'
  end.

Section MoreNotions.
Variable cwd : string.

(** The entries of a subtree, files and directories, that the filter keeps
    and that lie below no filtered directory. *)
Fixpoint shown_entries (here : node) (folder_path : string)
         (patterns : option (list string)) : nat :=
  match here with
  | Dir entries =>
      list_sum
        (map (fun '(name, n) =>
                if kept cwd folder_path patterns name
                then S (shown_entries n (Path.join folder_path name) patterns)
                else 0) entries)
  | _ => 0
  end.

(** What the renderer needs of the path it is called on: nothing when it is
    no directory (it returns at once), [all_countable] otherwise. *)
Definition renderable (here : node) (folder_path : string)
           (patterns : option (list string)) : bool :=
  match here with
  | File _ => true
  | _ => all_countable cwd here folder_path patterns
  end.

(** No directory that is shown refuses its listing. *)
Fixpoint all_listable (here : node) (folder_path : string)
         (patterns : option (list string)) : bool :=
  match here with
  | File _ => true
  | DirNoList _ => false
  | Dir entries =>
      forallb (fun '(name, n) =>
                 if kept cwd folder_path patterns name
                 then all_listable n (Path.join folder_path name) patterns
                 else true) entries
  end.


End MoreNotions.

(* ------------------------------------------------------------------ *)
(** ** Patterns *)

Module ReFacts.
Import Re.

Lemma m_dead_continuation (r : regex) :
  forall b s k, (forall b' s', k b' s' = false) -> m r b s k = false.
Proof.
  induction r as [| c | | | | r1 IH1 r2 IH2 | r IH | r IH]; intros b s k Hk; simpl.
  - apply Hk.
  - destruct s as [| x t]; [reflexivity |]. destruct (Ascii.eqb x c); auto.
  - destruct s as [| x t]; [reflexivity |]. destruct (Ascii.eqb x Str.newline); auto.
  - destruct b; auto.
  - destruct s as [| x [| y t]]; auto. destruct (Ascii.eqb x Str.newline); auto.
  - apply IH1. intros b' s'. apply IH2, Hk.
  - generalize (String.length s) at 1. intro n. revert b s.
    induction n as [| n IHn]; intros b s.
    + rewrite Hk, orb_false_r. apply IH. intros b' s'.
      destruct (String.length s' <? String.length s)%nat; reflexivity.
    + rewrite Hk, orb_false_r. apply IH. intros b' s'.
      destruct (String.length s' <? String.length s)%nat; [apply IHn | reflexivity].
  - rewrite Hk, orb_false_r. apply IH, Hk.
Qed.

Lemma never_seq_r (r1 r2 : regex) : never r2 -> never (Seq r1 r2).
Proof.
  intros H b s k. simpl. apply m_dead_continuation. intros b' s'. apply H.
Qed.

(** After [$] only a line feed can be left, so a literal that is not a line
    feed cannot follow. *)
Lemma never_eos_lit (c : ascii) (r : regex) :
  Ascii.eqb Str.newline c = false -> never (Seq Eos (Seq (Lit c) r)).
Proof.
  intros Hc b s k. simpl.
  destruct s as [| x [| y t]]; try reflexivity.
  destruct (Ascii.eqb x Str.newline) eqn:E; [| reflexivity].
  apply Ascii.eqb_eq in E. subst x. rewrite Hc. reflexivity.
Qed.

Lemma fused_pattern_never_matches (s : string) : re_match fused_pattern s = false.
Proof.
  unfold re_match.
  destruct (compile fused_pattern) as [r |] eqn:E; [| reflexivity].
  vm_compute in E. injection E as <-.
  unfold matches.
  do 5 apply never_seq_r.
  apply never_eos_lit. reflexivity.
Qed.

Lemma ignore_patterns_compile :
  forallb (fun p => match compile p with Some _ => true | None => false end)
          ignore_patterns = true.
Proof. vm_compute. reflexivity. Qed.

End ReFacts.

Section FilterFacts.
Variable cwd : string.

Lemma should_ignore_blacklisted name path patterns :
  should_ignore cwd name path patterns blacklist =
  existsb (fun pattern => Re.re_match pattern name || Re.re_match pattern path) patterns
  || blacklisted cwd path.
Proof.
  unfold should_ignore, blacklisted.
  destruct (existsb _ patterns); reflexivity.
Qed.

Lemma should_ignore_no_patterns name path :
  should_ignore cwd name path (or_empty None) blacklist = blacklisted cwd path.
Proof. rewrite should_ignore_blacklisted. reflexivity. Qed.

End FilterFacts.

(** C9: the pattern the missing comma makes of [".*\.sum$"] and
    ["\.terraform\.lock\.hcl$"] is in the list and matches no string at all,
    so a name ending in ".sum" that no other pattern matches and whose path is
    not blacklisted is not ignored. *)
Theorem sum_files_are_not_ignored (cwd name path : string) :
  Str.endswith name ".sum" = true ->
  (forall p, In p ignore_patterns -> p <> fused_pattern ->
             Re.re_match p name = false /\ Re.re_match p path = false) ->
  blacklisted cwd path = false ->
  In fused_pattern ignore_patterns
  /\ (forall s, Re.re_match fused_pattern s = false)
  /\ should_ignore cwd name path ignore_patterns blacklist = false.
Proof.
  intros _ Hother Hbl.
  split; [unfold ignore_patterns, fused_pattern; simpl; tauto |].
  split; [apply ReFacts.fused_pattern_never_matches |].
  rewrite should_ignore_blacklisted, Hbl, orb_false_r.
  apply not_true_is_false. intro Hex.
  apply existsb_exists in Hex. destruct Hex as [p [Hin Hm]].
  destruct (string_dec p fused_pattern) as [-> | Hne].
  - rewrite !ReFacts.fused_pattern_never_matches in Hm. discriminate.
  - destruct (Hother p Hin Hne) as [H1 H2]. rewrite H1, H2 in Hm. discriminate.
Qed.

Lemma sum_files_are_not_ignored_witness :
  should_ignore "/home/u" "go.sum" "proj/go.sum" ignore_patterns blacklist = false.
Proof.
  apply (@sum_files_are_not_ignored "/home/u" "go.sum" "proj/go.sum").
  - reflexivity.
  - intros p Hin Hne. unfold ignore_patterns in Hin. simpl in Hin.
    repeat (destruct Hin as [<- | Hin]; [first [ split; vm_compute; reflexivity | exfalso; apply Hne; reflexivity ] |]).
    destruct Hin.
  - vm_compute. reflexivity.
Defined.

(* ------------------------------------------------------------------ *)
(** ** Computations *)

Section MonadFacts.
Context {A B : Type}.

Lemma trace_bind (c : M A) (f : A -> M B) :
  trace (bind c f) =
  (trace c ++ match outcome c with Ret a => trace (f a) | Raise _ => [] end)%list.
Proof.
  destruct c as [tr [a | e]]; simpl.
  - destruct (f a); reflexivity.
  - rewrite app_nil_r. reflexivity.
Qed.

Lemma outcome_bind (c : M A) (f : A -> M B) :
  outcome (bind c f) =
  match outcome c with Ret a => outcome (f a) | Raise e => Raise e end.
Proof.
  destruct c as [tr [a | e]]; simpl; [destruct (f a) |]; reflexivity.
Qed.

Lemma bind_ret_inv (c : M A) (f : A -> M B) tr b :
  bind c f = (tr, Ret b) ->
  exists tr1 a tr2, c = (tr1, Ret a) /\ f a = (tr2, Ret b) /\ tr = (tr1 ++ tr2)%list.
Proof.
  destruct c as [tr1 [a | e]]; simpl; [| discriminate].
  destruct (f a) as [tr2 r] eqn:E. intros [= <- ->].
  exists tr1, a, tr2. auto.
Qed.
End MonadFacts.

Lemma trace_emit_bind {A} (ev : event) (k : M A) :
  trace (emit ev ;; k) = ev :: trace k.
Proof. destruct k; reflexivity. Qed.

Lemma outcome_emit_bind {A} (ev : event) (k : M A) :
  outcome (emit ev ;; k) = outcome k.
Proof. destruct k; reflexivity. Qed.

(** [print] either writes its string and goes on, or raises and stops. *)
Lemma print_bind {A} (refuses : string -> option exn) (s : string) (k : M A) :
  (print refuses s ;; k)
  = match refuses s with
    | None => (Print s :: trace k, outcome k)
    | Some e => ([], Raise e)
    end.
Proof. unfold print. destruct (refuses s); destruct k; reflexivity. Qed.

Lemma print_alone (refuses : string -> option exn) (s : string) :
  print refuses s
  = match refuses s with
    | None => ([Print s], Ret tt)
    | Some e => ([], Raise e)
    end.
Proof. unfold print. destruct (refuses s); reflexivity. Qed.

Lemma trace_print_bind {A} (refuses : string -> option exn) (s : string) (k : M A) :
  refuses s = None ->
  trace (print refuses s ;; k) = Print s :: trace k.
Proof. intro W. rewrite print_bind, W. reflexivity. Qed.

Lemma outcome_print_bind {A} (refuses : string -> option exn) (s : string) (k : M A) :
  refuses s = None ->
  outcome (print refuses s ;; k) = outcome k.
Proof. intro W. rewrite print_bind, W. reflexivity. Qed.

(** A [print] that was followed by a return has written its string. *)
Lemma print_bind_returned {A} (refuses : string -> option exn) (s : string) (k : M A) (a : A) :
  outcome (print refuses s ;; k) = Ret a ->
  refuses s = None /\ outcome k = Ret a.
Proof.
  rewrite print_bind. destruct (refuses s); [discriminate | auto].
Qed.

Lemma print_bind_trace_in {A} (refuses : string -> option exn) (s : string) (k : M A)
      (ev : event) :
  In ev (trace (print refuses s ;; k)) -> ev = Print s \/ In ev (trace k).
Proof.
  rewrite print_bind. destruct (refuses s); [intros [] |].
  intros [<- | H]; auto.
Qed.

(** From a run that returned after a [print]: its string was written. *)
Ltac written H :=
  let W := fresh "W" in
  apply print_bind_returned in H; destruct H as [W H];
  rewrite ?trace_print_bind by exact W.

Lemma bind_ext {A B} (c : M A) (f g : A -> M B) :
  (forall a, f a = g a) -> bind c f = bind c g.
Proof. intro H. destruct c as [tr [a | e]]; simpl; [rewrite H |]; reflexivity. Qed.

Lemma bind_ret_l {A B} (a : A) (f : A -> M B) : bind (ret a) f = f a.
Proof. unfold bind, ret. destruct (f a); reflexivity. Qed.

Lemma M_eta {A} (c : M A) : c = (trace c, outcome c).
Proof. destruct c; reflexivity. Qed.

Lemma printed_app (t1 t2 : list event) :
  printed (t1 ++ t2) = (printed t1 ++ printed t2)%list.
Proof.
  induction t1 as [| [s | p | p] t1 IH]; simpl; rewrite ?IH; reflexivity.
Qed.

(* ------------------------------------------------------------------ *)
(** ** The line counter *)

Lemma printed_print_bind_in {A} (refuses : string -> option exn) (s : string) (k : M A)
      (line : string) :
  In line (printed (trace (print refuses s ;; k))) ->
  line = s \/ In line (printed (trace k)).
Proof.
  rewrite print_bind. destruct (refuses s); [intros [] |].
  intros [<- | H]; auto.
Qed.

Lemma readlines_nil (s : string) : readlines s = [] -> s = EmptyString.
Proof.
  destruct s as [| c t]; [reflexivity |]. simpl.
  destruct (Ascii.eqb c Str.newline); [discriminate |].
  destruct (readlines t); discriminate.
Qed.

Lemma readlines_length (s : string) :
  List.length (readlines s)
  = terminated_records s + (if ends_unterminated s then 1 else 0).
Proof.
  induction s as [| c t IH]; [reflexivity |].
  simpl readlines. simpl terminated_records.
  destruct (Ascii.eqb c Str.newline) eqn:E.
  - simpl List.length. rewrite IH. simpl ends_unterminated. rewrite E.
    destruct t; simpl; lia.
  - destruct (readlines t) as [| l ls] eqn:R.
    + apply readlines_nil in R. subst t. simpl. rewrite E. reflexivity.
    + simpl List.length in *. rewrite IH. simpl ends_unterminated. rewrite E.
      destruct t; [discriminate R | simpl; lia].
Qed.

Section CounterFacts.
Variable guess_type : string -> option string.

Lemma count_lines_text raw path :
  count_lines_or_get_type guess_type (File (Text raw)) path
  = ([Open path], Ret (inl (List.length (readlines (translate_newlines raw))))).
Proof. reflexivity. Qed.

Lemma count_lines_error e path :
  count_lines_or_get_type guess_type (File (ReadError e)) path
  = if catches_decode_or_isdir e
    then ([Open path],
          Ret (inr match guess_type path with
                   | Some ty => if Str.truthy ty then ty else "unknown file type"
                   | None => "unknown file type"
                   end))
    else ([Open path], Raise e).
Proof.
  unfold count_lines_or_get_type. simpl.
  destruct (catches_decode_or_isdir e); [| reflexivity].
  destruct (guess_type path); reflexivity.
Qed.

Lemma count_lines_trace here path :
  trace (count_lines_or_get_type guess_type here path) = [Open path].
Proof.
  destruct here as [[raw | e] | l | e0]; simpl.
  - reflexivity.
  - rewrite count_lines_error. destruct (catches_decode_or_isdir e); reflexivity.
  - unfold count_lines_or_get_type. simpl. destruct (guess_type path); reflexivity.
  - unfold count_lines_or_get_type. simpl. destruct (guess_type path); reflexivity.
Qed.
End CounterFacts.

(** C2: an open that fails because nothing is at the path, or because access
    is denied, is not among the two exceptions [count_lines_or_get_type]
    handles: the exception reaches the caller. *)
Theorem count_lines_lets_open_errors_through
        (guess_type : string -> option string) (path msg : string) :
  outcome (count_lines_or_get_type guess_type
             (File (ReadError (Exn FileNotFoundError msg))) path)
  = Raise (Exn FileNotFoundError msg)
  /\ outcome (count_lines_or_get_type guess_type
                (File (ReadError (Exn PermissionError msg))) path)
     = Raise (Exn PermissionError msg).
Proof. split; reflexivity. Qed.

(** C6, as stated, fails: a text of one terminated record followed by an
    unterminated line is counted as two lines. *)
Lemma count_lines_counts_unterminated_line :
  let raw := "a" ++ Str.nl ++ "b" in
  outcome (count_lines_or_get_type (fun _ => None) (File (Text raw)) "f.txt")
  = Ret (inl 2)
  /\ terminated_records (translate_newlines raw) = 1
  /\ outcome (count_lines_or_get_type (fun _ => None) (File (Text raw)) "f.txt")
     <> Ret (inl (terminated_records (translate_newlines raw))).
Proof. repeat split; try reflexivity. discriminate. Qed.

(** C6, amended: for a file that decodes, the count is the number of
    terminated lines, plus one when the text ends in the middle of a line. *)
Theorem count_lines_is_records_plus_partial
        (guess_type : string -> option string) (raw path : string) :
  outcome (count_lines_or_get_type guess_type (File (Text raw)) path)
  = Ret (inl (terminated_records (translate_newlines raw)
              + (if ends_unterminated (translate_newlines raw) then 1 else 0))).
Proof.
  rewrite count_lines_text. simpl. rewrite readlines_length. reflexivity.
Qed.

(* ------------------------------------------------------------------ *)
(** ** The entry point *)

(** C8, as stated, fails: with [--help-only] as well, the script prints the
    usage and exits with code 0. *)
Lemma both_flags_with_help_only_exit_0 :
  let a := Args (Some "proj") true true true in
  main never_refuses no_links "/home/u" (fun _ => None) "usage" (fun _ => Dir []) a
  = ([Print "usage"], Exit 0)
  /\ snd (main never_refuses no_links "/home/u" (fun _ => None) "usage" (fun _ => Dir []) a) <> Exit 1.
Proof. split; [reflexivity | discriminate]. Qed.

(** C8, amended: a folder path with both [--structure] and
    [--structure-all], and without [--help-only], ends in an error message
    and exit code 1, and nothing is listed or opened.  The exit code is 1
    and nothing is listed or opened whatever standard output does; the
    message is there, and the script ends in [exit(1)], when standard
    output takes it. *)
Theorem both_flags_exit_1
        (refuses : string -> option exn) (islink : string -> bool)
        (cwd : string) (guess_type : string -> option string) (help_text : string)
        (fs : string -> node) (a : args) (p : string) :
  folder_path a = Some p ->
  structure a = true ->
  structure_all a = true ->
  help_only a = false ->
  let run := main refuses islink cwd guess_type help_text fs a in
  (writes_all refuses ->
   snd run = Exit 1
   /\ (exists msg rest, fst run = Print msg :: rest /\ Str.startswith msg "Error:" = true))
  /\ exit_code (snd run) = 1
  /\ (forall ev, In ev (fst run) -> exists s, ev = Print s).
Proof.
  intros Hp Hs Hsa Hh. unfold main. rewrite Hh, Hp, Hs, Hsa.
  destruct p as [| c p']; cbn [andb].
  - rewrite print_bind, print_alone. split; [| split].
    + intro W. rewrite !W. cbn. split; [reflexivity |].
      eexists. eexists. split; reflexivity.
    + destruct (refuses _); [reflexivity |]. destruct (refuses _); reflexivity.
    + destruct (refuses _); [intros ev [] |].
      destruct (refuses _); cbn.
      * intros ev [<- | []]; eexists; reflexivity.
      * intros ev [<- | [<- | []]]; eexists; reflexivity.
  - rewrite print_alone. split; [| split].
    + intro W. rewrite W. cbn. split; [reflexivity |].
      eexists. eexists. split; reflexivity.
    + destruct (refuses _); reflexivity.
    + destruct (refuses _); cbn; [intros ev [] |].
      intros ev [<- | []]; eexists; reflexivity.
Qed.

Lemma both_flags_exit_1_witness :
  snd (main never_refuses no_links "/home/u" (fun _ => None) "usage" (fun _ => Dir [])
         (Args (Some "proj") true true false)) = Exit 1.
Proof.
  apply (proj1 (@both_flags_exit_1 never_refuses no_links "/home/u" (fun _ => None) "usage"
                  (fun _ => Dir []) (Args (Some "proj") true true false) "proj"
                  eq_refl eq_refl eq_refl eq_refl)).
  intro s. reflexivity.
Defined.

(* ------------------------------------------------------------------ *)
(** ** Sorting by name *)

Lemma ascii_compare_refl (a : ascii) : Ascii.compare a a = Eq.
Proof. unfold Ascii.compare. apply N.compare_refl. Qed.

Lemma ascii_compare_lt_trans (a b c : ascii) :
  Ascii.compare a b = Lt -> Ascii.compare b c = Lt -> Ascii.compare a c = Lt.
Proof.
  unfold Ascii.compare. rewrite !N.compare_lt_iff. apply N.lt_trans.
Qed.

Lemma string_compare_lt_trans (s1 : string) :
  forall s2 s3, String.compare s1 s2 = Lt -> String.compare s2 s3 = Lt ->
                String.compare s1 s3 = Lt.
Proof.
  induction s1 as [| a s1 IH]; intros [| b s2] [| c s3]; simpl; try congruence.
  destruct (Ascii.compare a b) eqn:Eab; try discriminate;
    destruct (Ascii.compare b c) eqn:Ebc; try discriminate; intros H1 H2.
  - apply Ascii.compare_eq_iff in Eab, Ebc. subst.
    rewrite ascii_compare_refl. eapply IH; eassumption.
  - apply Ascii.compare_eq_iff in Eab. subst. rewrite Ebc. reflexivity.
  - apply Ascii.compare_eq_iff in Ebc. subst. rewrite Eab. reflexivity.
  - rewrite (ascii_compare_lt_trans _ _ _ Eab Ebc). reflexivity.
Qed.

Lemma string_compare_refl (s : string) : String.compare s s = Eq.
Proof.
  induction s as [| a s IH]; simpl; [reflexivity |].
  rewrite ascii_compare_refl. exact IH.
Qed.

Lemma leb_trans (s1 s2 s3 : string) :
  String.leb s1 s2 = true -> String.leb s2 s3 = true -> String.leb s1 s3 = true.
Proof.
  unfold String.leb.
  destruct (String.compare s1 s2) eqn:E12; try discriminate;
    destruct (String.compare s2 s3) eqn:E23; try discriminate; intros _ _.
  - apply String.compare_eq_iff in E12, E23. subst.
    rewrite string_compare_refl. reflexivity.
  - apply String.compare_eq_iff in E12. subst. rewrite E23. reflexivity.
  - apply String.compare_eq_iff in E23. subst. rewrite E12. reflexivity.
  - rewrite (string_compare_lt_trans _ _ _ E12 E23). reflexivity.
Qed.

Lemma leb_false_le (s1 s2 : string) :
  String.leb s1 s2 = false -> String.leb s2 s1 = true.
Proof.
  intro H. destruct (String.leb_total s1 s2) as [H' | H']; congruence.
Qed.

Section SortFacts.
Context {A : Type}.
Variable key : A -> string.

Lemma insert_sorted_perm x l : Permutation (insert_sorted key x l) (x :: l).
Proof.
  induction l as [| y t IH]; simpl; [reflexivity |].
  destruct (String.leb (key x) (key y)); [reflexivity |].
  rewrite IH. apply perm_swap.
Qed.

Lemma sort_by_perm l : Permutation (sort_by key l) l.
Proof.
  induction l as [| x t IH]; simpl; [reflexivity |].
  rewrite insert_sorted_perm. constructor. exact IH.
Qed.

Lemma sort_by_in x l : In x (sort_by key l) <-> In x l.
Proof.
  split; apply Permutation_in; [| symmetry]; apply sort_by_perm.
Qed.

Lemma insert_sorted_below x l :
  Forall ((key_le key) x) l -> insert_sorted key x l = x :: l.
Proof.
  destruct l as [| y t]; [reflexivity |]. intro H. inversion H as [| ? ? Hy _]; subst.
  simpl. unfold key_le in Hy. rewrite Hy. reflexivity.
Qed.

Lemma insert_sorted_sorted x l :
  StronglySorted (key_le key) l -> StronglySorted (key_le key) (insert_sorted key x l).
Proof.
  induction 1 as [| y t Hs IH Hall]; simpl.
  - repeat constructor.
  - destruct (String.leb (key x) (key y)) eqn:E.
    + constructor; [constructor; assumption |].
      constructor; [exact E |].
      eapply Forall_impl; [| exact Hall]. intros z Hz. unfold key_le in *.
      eapply leb_trans; eassumption.
    + constructor; [exact IH |].
      apply Forall_forall. intros z Hz.
      apply (Permutation_in _ (insert_sorted_perm x t)) in Hz.
      destruct Hz as [<- | Hz]; [apply leb_false_le; exact E |].
      rewrite Forall_forall in Hall. apply Hall, Hz.
Qed.

Lemma sort_by_sorted l : StronglySorted (key_le key) (sort_by key l).
Proof.
  induction l; simpl; [constructor | apply insert_sorted_sorted; assumption].
Qed.

Lemma filter_insert_sorted (f : A -> bool) x l :
  StronglySorted (key_le key) l ->
  filter f (insert_sorted key x l)
  = if f x then insert_sorted key x (filter f l) else filter f l.
Proof.
  induction 1 as [| y t Hs IH Hall]; simpl.
  - destruct (f x); reflexivity.
  - destruct (String.leb (key x) (key y)) eqn:E; simpl.
    + destruct (f x) eqn:Fx; [| reflexivity].
      symmetry. apply insert_sorted_below.
      assert (Hx : Forall ((key_le key) x) (y :: t)).
      { constructor; [exact E |].
        eapply Forall_impl; [| exact Hall]. intros z Hz. unfold key_le in *.
        eapply leb_trans; eassumption. }
      change (Forall ((key_le key) x) (filter f (y :: t))).
      apply Forall_forall. intros z Hz. apply filter_In in Hz.
      rewrite Forall_forall in Hx. apply Hx. tauto.
    + rewrite IH. destruct (f y) eqn:Fy, (f x) eqn:Fx; simpl; rewrite ?E; reflexivity.
Qed.

Lemma sort_by_filter (f : A -> bool) l :
  sort_by key (filter f l) = filter f (sort_by key l).
Proof.
  induction l as [| x t IH]; simpl; [reflexivity |].
  rewrite filter_insert_sorted by apply sort_by_sorted.
  destruct (f x); simpl; rewrite IH; reflexivity.
Qed.

End SortFacts.

Lemma sort_by_map {A B} (key : B -> string) (g : A -> B) (l : list A) :
  sort_by key (map g l) = map g (sort_by (fun a => key (g a)) l).
Proof.
  induction l as [| x t IH]; simpl; [reflexivity |].
  rewrite IH. generalize (sort_by (fun a => key (g a)) t). intro s.
  induction s as [| y s IHs]; simpl; [reflexivity |].
  destruct (String.leb (key (g x)) (key (g y))); simpl; [reflexivity |].
  rewrite IHs. reflexivity.
Qed.

(** On plain names the result depends on the names only, not on their order. *)
Lemma insert_sorted_comm (x y : string) (l : list string) :
  insert_sorted (fun s => s) x (insert_sorted (fun s => s) y l)
  = insert_sorted (fun s => s) y (insert_sorted (fun s => s) x l).
Proof.
  induction l as [| z t IH]; simpl.
  - destruct (String.leb x y) eqn:Exy, (String.leb y x) eqn:Eyx; try reflexivity.
    + rewrite (String.leb_antisym _ _ Exy Eyx). reflexivity.
    + apply leb_false_le in Exy. congruence.
  - destruct (String.leb y z) eqn:Eyz, (String.leb x z) eqn:Exz; simpl;
      rewrite ?Eyz, ?Exz.
    + destruct (String.leb x y) eqn:Exy, (String.leb y x) eqn:Eyx; try reflexivity.
      * rewrite (String.leb_antisym _ _ Exy Eyx). reflexivity.
      * apply leb_false_le in Exy. congruence.
    + destruct (String.leb x y) eqn:Exy.
      * rewrite (leb_trans _ _ _ Exy Eyz) in Exz. discriminate.
      * reflexivity.
    + destruct (String.leb y x) eqn:Eyx.
      * rewrite (leb_trans _ _ _ Eyx Exz) in Eyz. discriminate.
      * reflexivity.
    + rewrite IH. reflexivity.
Qed.

Lemma sort_names_perm (l1 l2 : list string) :
  Permutation l1 l2 -> sort_by (fun s => s) l1 = sort_by (fun s => s) l2.
Proof.
  induction 1; simpl.
  - reflexivity.
  - rewrite IHPermutation. reflexivity.
  - apply insert_sorted_comm.
  - congruence.
Qed.

Lemma map_key_sort_by {A} (key : A -> string) (l : list A) :
  map key (sort_by key l) = sort_by (fun s => s) (map key l).
Proof.
  rewrite sort_by_map. reflexivity.
Qed.

(* ------------------------------------------------------------------ *)
(** ** Lists related element by element *)

Section Forall2Facts.
Context {A B : Type}.
Variable R : A -> B -> Prop.

Lemma Forall2_insert_sorted (ka : A -> string) (kb : B -> string) x y l l' :
  (forall a b, R a b -> ka a = kb b) ->
  R x y -> Forall2 R l l' ->
  Forall2 R (insert_sorted ka x l) (insert_sorted kb y l').
Proof.
  intros Hk Hxy H. induction H as [| a b l l' Hab H IH]; simpl.
  - repeat constructor. exact Hxy.
  - rewrite (Hk _ _ Hxy), (Hk _ _ Hab).
    destruct (String.leb (kb y) (kb b)); repeat constructor; assumption.
Qed.

Lemma Forall2_sort_by (ka : A -> string) (kb : B -> string) l l' :
  (forall a b, R a b -> ka a = kb b) ->
  Forall2 R l l' -> Forall2 R (sort_by ka l) (sort_by kb l').
Proof.
  intros Hk H. induction H; simpl; [constructor |].
  apply Forall2_insert_sorted; assumption.
Qed.

Lemma Forall2_filter (f : A -> bool) (g : B -> bool) l l' :
  (forall a b, R a b -> f a = g b) ->
  Forall2 R l l' -> Forall2 R (filter f l) (filter g l').
Proof.
  intros Hf H. induction H as [| a b l l' Hab H IH]; simpl; [constructor |].
  rewrite (Hf _ _ Hab). destruct (g b); [constructor |]; assumption.
Qed.

Lemma Forall2_same_keys (ka : A -> string) (kb : B -> string) l l' :
  map ka l = map kb l' ->
  (forall a b, In a l -> In b l' -> ka a = kb b -> R a b) ->
  Forall2 R l l'.
Proof.
  revert l'. induction l as [| a l IH]; intros [| b l'] Hm HR; try discriminate.
  - constructor.
  - simpl in Hm. injection Hm as Hab Hm.
    constructor.
    + apply HR; simpl; auto.
    + apply IH; [exact Hm |]. intros; apply HR; simpl; auto.
Qed.
End Forall2Facts.

Lemma Forall2_map_same {A B C} (R : B -> C -> Prop) (f : A -> B) (g : A -> C) l :
  Forall (fun a => R (f a) (g a)) l -> Forall2 R (map f l) (map g l).
Proof. induction 1; simpl; constructor; assumption. Qed.

(* ------------------------------------------------------------------ *)
(** ** The tree renderer *)

Section DisplayFacts.
Variable refuses : string -> option exn.
Variable cwd : string.
Variable guess_type : string -> option string.
Variable patterns : option (list string).
Variable show : bool.

Lemma display_dir entries fp prefix :
  display_tree_structure refuses cwd guess_type (Dir entries) fp patterns prefix show
  = (emit (Listdir fp) ;;
     display_loop refuses guess_type fp prefix show
       (combine (pointers (List.length (shown_items refuses cwd guess_type patterns show fp entries)))
                (shown_items refuses cwd guess_type patterns show fp entries)) 0).
Proof. reflexivity. Qed.

Lemma display_file r fp prefix :
  display_tree_structure refuses cwd guess_type (File r) fp patterns prefix show = ret 0.
Proof. reflexivity. Qed.

Lemma display_nolist e fp prefix :
  display_tree_structure refuses cwd guess_type (DirNoList e) fp patterns prefix show
  = ([Listdir fp], Raise e).
Proof. reflexivity. Qed.

Lemma as_item_name fp en : item_name (as_item refuses cwd guess_type patterns show fp en) = fst en.
Proof. destruct en; reflexivity. Qed.

Lemma as_item_node fp en : item_node (as_item refuses cwd guess_type patterns show fp en) = snd en.
Proof. destruct en; reflexivity. Qed.

Lemma as_item_rec fp en prefix :
  item_rec (as_item refuses cwd guess_type patterns show fp en) prefix
  = display_tree_structure refuses cwd guess_type (snd en) (Path.join fp (fst en))
      patterns prefix show.
Proof. destruct en; reflexivity. Qed.

Lemma shown_items_in fp entries it :
  In it (shown_items refuses cwd guess_type patterns show fp entries) <->
  exists en, In en entries /\ it = as_item refuses cwd guess_type patterns show fp en
             /\ kept cwd fp patterns (fst en) = true.
Proof.
  unfold shown_items. rewrite filter_In, sort_by_in, in_map_iff. split.
  - intros [[en [<- Hin]] Hk]. exists en. rewrite as_item_name in Hk. auto.
  - intros [en [Hin [-> Hk]]]. split; [eauto |]. rewrite as_item_name. exact Hk.
Qed.

Lemma display_loop_cons fp prefix pointer it rest total :
  display_loop refuses guess_type fp prefix show ((pointer, it) :: rest) total
  = if isdir (item_node it) then
      print refuses (prefix ++ pointer ++ item_name it ++ "/") ;;
      sub <- item_rec it (prefix ++ (if String.eqb pointer tee then bar else blank)) ;;
      display_loop refuses guess_type fp prefix show rest (total + sub)
    else if show then
      line_count <- count_lines_or_get_type guess_type (item_node it)
                      (Path.join fp (item_name it)) ;;
      match line_count with
      | inl n =>
          print refuses (prefix ++ pointer ++ item_name it ++ " (" ++ Str.of_nat n ++ " lines)") ;;
          display_loop refuses guess_type fp prefix show rest (total + n)
      | inr file_type =>
          print refuses (prefix ++ pointer ++ item_name it ++ " (" ++ file_type ++ ")") ;;
          display_loop refuses guess_type fp prefix show rest total
      end
    else
      print refuses (prefix ++ pointer ++ item_name it) ;;
      display_loop refuses guess_type fp prefix show rest total.
Proof. reflexivity. Qed.

Lemma display_loop_agree fp prefix items items' :
  Forall2 item_agree items items' ->
  forall ptrs total,
    display_loop refuses guess_type fp prefix show (combine ptrs items) total
    = display_loop refuses guess_type fp prefix show (combine ptrs items') total.
Proof.
  induction 1 as [| it it' items items' [Hn [Hd [Hf Hr]]] H IH]; intros ptrs total.
  - destruct ptrs; reflexivity.
  - destruct ptrs as [| pointer ptrs]; [reflexivity |].
    cbn [combine]. rewrite !display_loop_cons, <- Hd, <- Hn.
    destruct (isdir (item_node it)) eqn:D.
    + apply bind_ext. intros _. rewrite <- Hr. apply bind_ext. intro sub. apply IH.
    + rewrite <- (Hf eq_refl).
      destruct show.
      * apply bind_ext. intros [n | ty]; apply bind_ext; intros _; apply IH.
      * apply bind_ext. intros _. apply IH.
Qed.

Lemma display_agree fp prefix entries entries' :
  Forall2 item_agree (shown_items refuses cwd guess_type patterns show fp entries) (shown_items refuses cwd guess_type patterns show fp entries') ->
  display_tree_structure refuses cwd guess_type (Dir entries) fp patterns prefix show
  = display_tree_structure refuses cwd guess_type (Dir entries') fp patterns prefix show.
Proof.
  intro H. rewrite !display_dir.
  rewrite (Forall2_length H).
  rewrite (display_loop_agree fp prefix H). reflexivity.
Qed.

(** *** Filtered entries leave no mark *)

Lemma prune_isdir n fp : isdir (prune cwd n fp patterns) = isdir n.
Proof. destruct n; reflexivity. Qed.

Lemma prune_file n fp : isdir n = false -> prune cwd n fp patterns = n.
Proof. destruct n; [reflexivity | discriminate | reflexivity]. Qed.

Lemma prune_dir entries fp :
  prune cwd (Dir entries) fp patterns
  = Dir (map (pruned_entry cwd patterns fp)
             (filter (fun en => kept cwd fp patterns (fst en)) entries)).
Proof.
  simpl. f_equal. induction entries as [| [name n] t IH]; simpl; [reflexivity |].
  destruct (kept cwd fp patterns name); simpl; rewrite IH; reflexivity.
Qed.

Lemma shown_items_pruned fp entries :
  shown_items refuses cwd guess_type patterns show fp (map (pruned_entry cwd patterns fp)
                      (filter (fun en => kept cwd fp patterns (fst en)) entries))
  = filter (fun it => kept cwd fp patterns (item_name it))
      (sort_by item_name (map (fun en => as_item refuses cwd guess_type patterns show fp (pruned_entry cwd patterns fp en)) entries)).
Proof.
  unfold shown_items.
  rewrite map_map.
  assert (E : map (fun en => as_item refuses cwd guess_type patterns show fp (pruned_entry cwd patterns fp en))
                  (filter (fun en => kept cwd fp patterns (fst en)) entries)
              = filter (fun it => kept cwd fp patterns (item_name it))
                  (map (fun en => as_item refuses cwd guess_type patterns show fp (pruned_entry cwd patterns fp en)) entries)).
  { induction entries as [| en t IH]; [reflexivity |].
    cbn [map filter]. rewrite as_item_name.
    change (fst (pruned_entry cwd patterns fp en)) with (fst en).
    destruct (kept cwd fp patterns (fst en)); cbn [map]; rewrite IH; reflexivity. }
  rewrite E, sort_by_filter.
  generalize (sort_by item_name
                (map (fun en => as_item refuses cwd guess_type patterns show fp (pruned_entry cwd patterns fp en)) entries)).
  intro l. induction l as [| x l IH]; simpl; [reflexivity |].
  destruct (kept cwd fp patterns (item_name x)) eqn:K; simpl; rewrite ?K, IH; reflexivity.
Qed.

Lemma display_prune here :
  forall fp prefix,
    display_tree_structure refuses cwd guess_type here fp patterns prefix show
    = display_tree_structure refuses cwd guess_type (prune cwd here fp patterns) fp
        patterns prefix show.
Proof.
  induction here as [r | e | entries IH] using node_ind; intros fp prefix;
    [reflexivity | reflexivity |].
  rewrite prune_dir. apply display_agree.
  rewrite shown_items_pruned. unfold shown_items.
  apply Forall2_filter; [intros a b [Hn _]; rewrite Hn; reflexivity |].
  apply Forall2_sort_by; [intros a b [Hn _]; exact Hn |].
  apply Forall2_map_same.
  eapply Forall_impl; [| exact IH]. intros en Hen.
  unfold item_agree. rewrite !as_item_name, !as_item_node. simpl.
  repeat split.
  - symmetry. apply prune_isdir.
  - intro Hd. symmetry. apply prune_file, Hd.
  - intro pre. rewrite !as_item_rec. simpl. apply Hen.
Qed.

(** *** What the renderer touches *)

Lemma display_loop_trace_in fp prefix ev :
  forall zipped total,
    In ev (trace (display_loop refuses guess_type fp prefix show zipped total)) ->
    exists pointer it,
      In (pointer, it) zipped
      /\ ((exists s, ev = Print s)
          \/ (isdir (item_node it) = false
              /\ ev = Open (Path.join fp (item_name it)))
          \/ (isdir (item_node it) = true
              /\ exists pre, In ev (trace (item_rec it pre)))).
Proof.
  induction zipped as [| [pointer it] rest IH]; intros total Hin; [destruct Hin |].
  assert (Hrest : forall t, In ev (trace (display_loop refuses guess_type fp prefix show rest t)) ->
                            exists pointer0 it0, In (pointer0, it0) ((pointer, it) :: rest)
      /\ ((exists s, ev = Print s)
          \/ (isdir (item_node it0) = false
              /\ ev = Open (Path.join fp (item_name it0)))
          \/ (isdir (item_node it0) = true
              /\ exists pre, In ev (trace (item_rec it0 pre))))).
  { intros t Ht. destruct (IH t Ht) as [p0 [i0 [Hi Hc]]].
    exists p0, i0. split; [right; exact Hi | exact Hc]. }
  assert (Hhere : forall s, ev = Print s ->
                            exists pointer0 it0, In (pointer0, it0) ((pointer, it) :: rest)
      /\ ((exists s, ev = Print s)
          \/ (isdir (item_node it0) = false
              /\ ev = Open (Path.join fp (item_name it0)))
          \/ (isdir (item_node it0) = true
              /\ exists pre, In ev (trace (item_rec it0 pre))))).
  { intros s ->. exists pointer, it. split; [left; reflexivity | left; eauto]. }
  rewrite display_loop_cons in Hin. destruct (isdir (item_node it)) eqn:D.
  - apply print_bind_trace_in in Hin.
    destruct Hin as [Hin | Hin]; [eapply Hhere; exact Hin |].
    rewrite trace_bind in Hin. apply in_app_or in Hin. destruct Hin as [Hin | Hin].
    + exists pointer, it. split; [left; reflexivity |]. right. right. eauto.
    + destruct (outcome (item_rec it _)); [eauto | destruct Hin].
  - destruct show.
    + rewrite trace_bind, count_lines_trace in Hin.
      destruct Hin as [<- | Hin]; [exists pointer, it; split; [left; reflexivity | auto] |].
      destruct (outcome (count_lines_or_get_type _ _ _)) as [[n | ty] | e];
        [| | destruct Hin].
      * apply print_bind_trace_in in Hin.
        destruct Hin as [Hin | Hin]; [eapply Hhere; exact Hin | eauto].
      * apply print_bind_trace_in in Hin.
        destruct Hin as [Hin | Hin]; [eapply Hhere; exact Hin | eauto].
    + apply print_bind_trace_in in Hin.
      destruct Hin as [Hin | Hin]; [eapply Hhere; exact Hin | eauto].
Qed.

Lemma display_reaches here :
  forall fp prefix q,
    In (Listdir q) (trace (display_tree_structure refuses cwd guess_type here fp patterns prefix show))
    \/ In (Open q) (trace (display_tree_structure refuses cwd guess_type here fp patterns prefix show)) ->
    exists n, reaches cwd patterns here fp n q.
Proof.
  induction here as [r | e | entries IH] using node_ind; intros fp prefix q Hin.
  - rewrite display_file in Hin. simpl in Hin. tauto.
  - rewrite display_nolist in Hin. simpl in Hin.
    destruct Hin as [[[= <-] | []] | [[=] | []]]. eexists. constructor.
  - rewrite display_dir, trace_emit_bind in Hin.
    assert (Hcase : q = fp \/ exists ev, (ev = Listdir q \/ ev = Open q) /\
              In ev (trace (display_loop refuses guess_type fp prefix show
                (combine (pointers (List.length (shown_items refuses cwd guess_type patterns show fp entries)))
                   (shown_items refuses cwd guess_type patterns show fp entries)) 0))).
    { destruct Hin as [[[= <-] | Hin] | [[=] | Hin]]; eauto. }
    clear Hin. destruct Hcase as [-> | [ev [Hev Hin]]]; [eexists; constructor |].
    apply display_loop_trace_in in Hin.
    destruct Hin as [pointer [it [Hz Hc]]].
    apply in_combine_r in Hz. apply shown_items_in in Hz.
    destruct Hz as [[name n] [Hen [-> Hk]]]. simpl in Hk.
    destruct Hc as [[s ->] | [[Hd ->] | [Hd [pre Hp]]]].
    + destruct Hev; discriminate.
    + destruct Hev as [[=] | [= <-]]. exists n.
      eapply reaches_below; [exact Hen | exact Hk | constructor].
    + rewrite Forall_forall in IH. specialize (IH _ Hen). simpl in IH, Hp.
      destruct (IH (Path.join fp name) pre q) as [n' Hn'].
      { destruct Hev as [-> | ->]; auto. }
      exists n'. eapply reaches_below; eassumption.
Qed.

End DisplayFacts.

Lemma filter_perm {A} (f : A -> bool) (l l' : list A) :
  Permutation l l' -> Permutation (filter f l) (filter f l').
Proof.
  induction 1 as [| x l l' H IH | x y l | l l' l'' H1 IH1 H2 IH2]; simpl.
  - constructor.
  - destruct (f x); [constructor |]; exact IH.
  - destruct (f x), (f y); try reflexivity. apply perm_swap.
  - etransitivity; eassumption.
Qed.

Lemma map_snd_combine {A B} (l1 : list A) (l2 : list B) :
  List.length l2 <= List.length l1 -> map snd (combine l1 l2) = l2.
Proof.
  revert l2. induction l1 as [| a l1 IH]; intros [| b l2] H; simpl in *;
    try reflexivity; try lia.
  rewrite IH by lia. reflexivity.
Qed.

Lemma pointers_length (n : nat) : n <= List.length (pointers n).
Proof.
  unfold pointers. rewrite length_app, repeat_length. simpl. lia.
Qed.

(* ------------------------------------------------------------------ *)
(** ** The total of the renderer *)

Section TotalFacts.
Variable refuses : string -> option exn.
Variable cwd : string.
Variable guess_type : string -> option string.
Variable patterns : option (list string).

Lemma display_loop_total fp prefix :
  forall zipped total0 total,
    outcome (display_loop refuses guess_type fp prefix true zipped total0) = Ret total ->
    (forall pointer it, In (pointer, it) zipped -> isdir (item_node it) = true ->
       forall pre k, outcome (item_rec it pre) = Ret k ->
         k = sum_of_counts cwd guess_type (item_node it)
               (Path.join fp (item_name it)) patterns) ->
    total = total0 + list_sum (map (contribution cwd guess_type patterns fp) (map snd zipped)).
Proof.
  induction zipped as [| [pointer it] rest IH]; intros total0 total Hrun Hsub.
  - simpl in *. injection Hrun as <-. lia.
  - rewrite display_loop_cons in Hrun.
    assert (Hrest : forall t, outcome (display_loop refuses guess_type fp prefix true rest t)
                              = Ret total ->
                              total = t + list_sum (map (contribution cwd guess_type patterns fp) (map snd rest))).
    { intros t Ht. apply IH; [exact Ht |]. intros p0 i0 Hi.
      apply (Hsub p0 i0). right. exact Hi. }
    cbn [map snd list_sum fold_right]. fold (list_sum (map (contribution cwd guess_type patterns fp) (map snd rest))).
    unfold contribution at 1.
    destruct (isdir (item_node it)) eqn:D.
    + apply print_bind_returned in Hrun. destruct Hrun as [_ Hrun].
      rewrite outcome_bind in Hrun.
      destruct (outcome (item_rec it _)) as [k | e] eqn:E; [| discriminate].
      rewrite <- (Hsub pointer it (or_introl eq_refl) D _ _ E).
      rewrite (Hrest _ Hrun). lia.
    + rewrite outcome_bind in Hrun. unfold int_count. cbn [fst snd].
      destruct (outcome (count_lines_or_get_type guess_type (item_node it)
                           (Path.join fp (item_name it)))) as [[n | ty] | e];
        [| | discriminate]; apply print_bind_returned in Hrun;
        destruct Hrun as [_ Hrun]; rewrite (Hrest _ Hrun); lia.
Qed.

Lemma sum_of_counts_dir fp entries :
  sum_of_counts cwd guess_type (Dir entries) fp patterns
  = list_sum (map (contribution cwd guess_type patterns fp) (shown_items refuses cwd guess_type patterns true fp entries)).
Proof.
  unfold shown_items.
  rewrite (Permutation_list_sum
             (Permutation_map _ (filter_perm _ (sort_by_perm item_name _)))).
  unfold sum_of_counts. simpl shown_files.
  induction entries as [| [name n] t IH]; [reflexivity |].
  cbn [flat_map map filter]. rewrite as_item_name. cbn [fst].
  destruct (kept cwd fp patterns name).
  - cbn [map list_sum fold_right].
    fold (list_sum (map (contribution cwd guess_type patterns fp)
                      (filter (fun it => kept cwd fp patterns (item_name it))
                              (map (as_item refuses cwd guess_type patterns true fp) t)))).
    rewrite <- IH, map_app, list_sum_app. f_equal.
    unfold contribution. cbn [as_item item_node item_name fst snd].
    destruct (isdir n); [reflexivity |]. simpl. lia.
  - exact IH.
Qed.

Lemma display_total here :
  forall fp prefix total,
    outcome (display_tree_structure refuses cwd guess_type here fp patterns prefix true)
    = Ret total ->
    total = sum_of_counts cwd guess_type here fp patterns.
Proof.
  induction here as [r | e | entries IH] using node_ind; intros fp prefix total Hrun.
  - simpl in Hrun. injection Hrun as <-. reflexivity.
  - discriminate Hrun.
  - rewrite display_dir, outcome_emit_bind in Hrun.
    apply (@display_loop_total fp prefix) in Hrun.
    + rewrite map_snd_combine in Hrun by apply pointers_length.
      rewrite sum_of_counts_dir. exact Hrun.
    + intros pointer it Hin Hd pre k Hk.
      apply in_combine_r, shown_items_in in Hin.
      destruct Hin as [[name n] [Hen [-> _]]].
      rewrite Forall_forall in IH. apply (IH _ Hen _ pre). exact Hk.
Qed.

(** *** When the renderer returns *)

Hypothesis writes : writes_all refuses.

Lemma display_loop_returns fp prefix :
  forall zipped total0,
    (forall pointer it, In (pointer, it) zipped ->
       if isdir (item_node it)
       then forall pre, exists k, outcome (item_rec it pre) = Ret k
       else exists r, outcome (count_lines_or_get_type guess_type (item_node it)
                                 (Path.join fp (item_name it))) = Ret r) ->
    exists total, outcome (display_loop refuses guess_type fp prefix true zipped total0) = Ret total.
Proof.
  induction zipped as [| [pointer it] rest IH]; intros total0 Hall.
  - eexists. reflexivity.
  - rewrite display_loop_cons.
    assert (Hrest : forall t, exists total,
               outcome (display_loop refuses guess_type fp prefix true rest t) = Ret total).
    { intro t. apply IH. intros p0 i0 Hi. apply (Hall p0 i0). right. exact Hi. }
    specialize (Hall pointer it (or_introl eq_refl)).
    destruct (isdir (item_node it)).
    + rewrite outcome_print_bind, outcome_bind by apply writes.
      destruct (Hall (prefix ++ (if String.eqb pointer tee then bar else blank)))
        as [k ->]. apply Hrest.
    + rewrite outcome_bind. destruct Hall as [[n | ty] ->];
        rewrite outcome_print_bind by apply writes; apply Hrest.
Qed.

Lemma display_returns here :
  forall fp prefix,
    all_countable cwd here fp patterns = true ->
    exists total,
      outcome (display_tree_structure refuses cwd guess_type here fp patterns prefix true)
      = Ret total.
Proof.
  induction here as [r | e | entries IH] using node_ind; intros fp prefix Hok.
  - eexists. reflexivity.
  - discriminate Hok.
  - rewrite display_dir, outcome_emit_bind. apply display_loop_returns.
    intros pointer it Hin.
    apply in_combine_r, shown_items_in in Hin.
    destruct Hin as [[name n] [Hen [-> Hk]]]. cbn [fst] in Hk.
    simpl in Hok. rewrite forallb_forall in Hok.
    specialize (Hok _ Hen). cbn beta iota in Hok. rewrite Hk in Hok.
    cbn [as_item item_node item_name item_rec fst snd].
    destruct n as [[raw | e] | sub | e] eqn:N; cbn [isdir].
    + eexists. rewrite count_lines_text. reflexivity.
    + simpl in Hok. rewrite count_lines_error, Hok. eexists. reflexivity.
    + intro pre. rewrite Forall_forall in IH. apply (IH _ Hen). exact Hok.
    + discriminate Hok.
Qed.

End TotalFacts.

(* ------------------------------------------------------------------ *)
(** ** The order of a listing does not show *)

Lemma same_tree_isdir a b : same_tree a b -> isdir a = isdir b.
Proof. destruct 1; reflexivity. Qed.

Lemma same_tree_file a b : same_tree a b -> isdir a = false -> a = b.
Proof. destruct 1; [reflexivity | discriminate | discriminate]. Qed.

Lemma display_same_tree refuses cwd guess_type a b :
  same_tree a b ->
  forall fp patterns prefix show,
    display_tree_structure refuses cwd guess_type a fp patterns prefix show
    = display_tree_structure refuses cwd guess_type b fp patterns prefix show.
Proof.
  induction 1 as [r | e | l1 l2 Hperm Hsame IH]; intros fp patterns prefix show;
    [reflexivity | reflexivity |].
  apply display_agree. unfold shown_items.
  apply Forall2_filter; [intros x y [Hn _]; rewrite Hn; reflexivity |].
  apply Forall2_same_keys with (ka := item_name) (kb := item_name).
  - rewrite !map_key_sort_by, !map_map.
    assert (E : forall l, map (fun x => item_name (as_item refuses cwd guess_type patterns show fp x)) l
                          = map fst l).
    { intro l. apply map_ext. intro en. apply as_item_name. }
    rewrite !E. apply sort_names_perm, Hperm.
  - intros x y Hx Hy Hxy.
    apply sort_by_in, in_map_iff in Hx. apply sort_by_in, in_map_iff in Hy.
    destruct Hx as [[name n1] [<- H1]]. destruct Hy as [[name' n2] [<- H2]].
    cbn [as_item item_name fst] in Hxy. subst name'.
    unfold item_agree. cbn [as_item item_name item_node item_rec fst snd].
    repeat split.
    + apply same_tree_isdir. eapply Hsame; eassumption.
    + apply same_tree_file. eapply Hsame; eassumption.
    + intro pre. eapply IH; eassumption.
Qed.

(* ------------------------------------------------------------------ *)
(** ** The content dumper *)

Lemma bind_assoc {A B C} (c : M A) (f : A -> M B) (g : B -> M C) :
  bind (bind c f) g = bind c (fun a => bind (f a) g).
Proof.
  destruct c as [tr [a | e]]; simpl; [| reflexivity].
  destruct (f a) as [tr' [b | e]]; simpl; [| reflexivity].
  destruct (g b). rewrite app_assoc. reflexivity.
Qed.

Lemma for_each_cons {A} (x : A) (l : list A) (body : A -> M unit) :
  for_each (x :: l) body = (body x ;; for_each l body).
Proof. reflexivity. Qed.

Lemma for_each_app {A} (l1 l2 : list A) (body : A -> M unit) :
  for_each (l1 ++ l2) body = (for_each l1 body ;; for_each l2 body).
Proof.
  induction l1 as [| x l1 IH]; cbn [app].
  - change (for_each [] body) with (@ret unit tt). rewrite bind_ret_l. reflexivity.
  - rewrite !for_each_cons, bind_assoc. apply bind_ext. intros _. exact IH.
Qed.

Lemma for_each_trace_in {A} (l : list A) (body : A -> M unit) (ev : event) :
  In ev (trace (for_each l body)) -> exists x, In x l /\ In ev (trace (body x)).
Proof.
  induction l as [| x l IH]; [intros [] |].
  rewrite for_each_cons, trace_bind. intro H. apply in_app_or in H.
  destruct H as [H | H]; [exists x; split; [left; reflexivity | exact H] |].
  destruct (outcome (body x)); [| destruct H].
  destruct (IH H) as [y [Hy Hev]]. exists y. split; [right; exact Hy | exact Hev].
Qed.

(** *** One file *)

(** The body of the loop on a file opens it and then either leaves its one
    line or, when standard output refuses that line too, ends in what
    [print] raised in the handler. *)
Lemma dump_file_runs (refuses : string -> option exn) (here : node) (filepath : string) :
  dump_file refuses here filepath
  = match refuses (dump_line refuses (filepath, here)) with
    | None => ([Open filepath; Print (dump_line refuses (filepath, here))], Ret tt)
    | Some e => ([Open filepath], Raise e)
    end.
Proof.
  unfold dump_file, dump_line, open_text, content_line, error_line, print, emit.
  cbn [fst snd].
  destruct here as [[raw | e] | l | e]; cbn;
    repeat match goal with
           | |- context [refuses ?s] => destruct (refuses s) eqn:?; cbn
           end;
    congruence.
Qed.

Lemma dump_file_trace_in (refuses : string -> option exn) (here : node)
      (filepath : string) (ev : event) :
  In ev (trace (dump_file refuses here filepath)) ->
  ev = Open filepath \/ exists s, ev = Print s.
Proof.
  rewrite dump_file_runs. destruct (refuses _); cbn [trace fst].
  - intros [<- | []]. left. reflexivity.
  - intros [<- | [<- | []]]; [left; reflexivity | right; eexists; reflexivity].
Qed.

(** *** One file after another *)

Section DumpFilesFacts.
Variable refuses : string -> option exn.

Lemma dump_files_cons file files :
  dump_files refuses (file :: files)
  = (dump_file refuses (snd file) (fst file) ;; dump_files refuses files).
Proof. reflexivity. Qed.

Lemma dump_files_app files files' :
  dump_files refuses (files ++ files')
  = (dump_files refuses files ;; dump_files refuses files').
Proof. apply for_each_app. Qed.

Lemma dump_line_of file : dump_line refuses (fst file, snd file) = dump_line refuses file.
Proof. destruct file; reflexivity. Qed.

(** While standard output takes the lines, every file is opened and gets
    its line. *)
Lemma dump_files_written files :
  forallb (line_written refuses) files = true ->
  dump_files refuses files
  = (flat_map (fun file => [Open (fst file); Print (dump_line refuses file)]) files,
     Ret tt).
Proof.
  induction files as [| file files IH]; [reflexivity |].
  cbn [forallb]. rewrite andb_true_iff. intros [Hw Hrest].
  rewrite dump_files_cons, dump_file_runs, dump_line_of, (IH Hrest).
  unfold line_written in Hw. destruct (refuses (dump_line refuses file)); [discriminate |].
  reflexivity.
Qed.

(** The first line standard output refuses ends the loop, after the file
    was opened. *)
Lemma dump_files_refused before file after e :
  forallb (line_written refuses) before = true ->
  refuses (dump_line refuses file) = Some e ->
  dump_files refuses (before ++ file :: after)
  = ((flat_map (fun file => [Open (fst file); Print (dump_line refuses file)]) before
      ++ [Open (fst file)])%list,
     Raise e).
Proof.
  intros Hb He.
  rewrite dump_files_app, (@dump_files_written _ Hb), dump_files_cons, dump_file_runs,
    dump_line_of, He.
  reflexivity.
Qed.

(** A list splits at the first element a test rejects. *)
Lemma forallb_split {A} (f : A -> bool) (l : list A) :
  forallb f l = false ->
  exists before x after,
    l = (before ++ x :: after)%list /\ forallb f before = true /\ f x = false.
Proof.
  induction l as [| x l IH]; [discriminate |].
  cbn [forallb]. destruct (f x) eqn:Fx; cbn [andb].
  - intro H. destruct (IH H) as [before [y [after [-> [Hb Hy]]]]].
    exists (x :: before), y, after. cbn [forallb app]. rewrite Fx, Hb. auto.
  - intros _. exists [], x, l. auto.
Qed.

Lemma dump_files_returns files :
  outcome (dump_files refuses files) = Ret tt
  <-> forallb (line_written refuses) files = true.
Proof.
  split.
  - intro H. destruct (forallb (line_written refuses) files) eqn:F; [reflexivity |].
    destruct (forallb_split _ _ F) as [before [file [after [-> [Hb Hf]]]]].
    unfold line_written in Hf.
    destruct (refuses (dump_line refuses file)) as [e |] eqn:E; [| discriminate].
    rewrite (@dump_files_refused _ _ after _ Hb E) in H. discriminate H.
  - intro H. rewrite (@dump_files_written _ H). reflexivity.
Qed.

Lemma dump_files_raises files e :
  outcome (dump_files refuses files) = Raise e ->
  exists file, In file files /\ refuses (dump_line refuses file) = Some e.
Proof.
  intro H. destruct (forallb (line_written refuses) files) eqn:F.
  - rewrite (@dump_files_written _ F) in H. discriminate H.
  - destruct (forallb_split _ _ F) as [before [file [after [-> [Hb Hf]]]]].
    unfold line_written in Hf.
    destruct (refuses (dump_line refuses file)) as [e' |] eqn:E; [| discriminate].
    rewrite (@dump_files_refused _ _ after _ Hb E) in H. injection H as <-.
    exists file. split; [apply in_elt | exact E].
Qed.

End DumpFilesFacts.

(** *** Computations up to their listings *)

Lemma quiet_app (t1 t2 : list event) : quiet (t1 ++ t2) = (quiet t1 ++ quiet t2)%list.
Proof. apply filter_app. Qed.

Lemma same_io_refl {A} (c : M A) : same_io c c.
Proof. split; reflexivity. Qed.

Lemma same_io_bind {A B} (c c' : M A) (k k' : M B) :
  same_io c c' -> same_io k k' -> same_io (c ;; k) (c' ;; k').
Proof.
  intros [Ht Ho] [Ht' Ho']. unfold same_io.
  rewrite !trace_bind, !outcome_bind, !quiet_app, Ht, <- Ho.
  destruct (outcome c); [rewrite Ht', Ho' |]; split; reflexivity.
Qed.

Lemma same_io_listed {A} (p : string) (k : M A) : same_io (emit (Listdir p) ;; k) k.
Proof.
  unfold same_io. rewrite trace_emit_bind, outcome_emit_bind. split; reflexivity.
Qed.

Lemma same_io_trans {A} (c d e : M A) : same_io c d -> same_io d e -> same_io c e.
Proof. intros [H1 H2] [H3 H4]. split; congruence. Qed.



(** *** The walk *)

Section DumpFacts.
Variable refuses : string -> option exn.
Variable islink : string -> bool.
Variable cwd : string.
Variable patterns : option (list string).

Lemma print_file_contents_dir entries root :
  print_file_contents refuses islink cwd (Dir entries) root patterns
  = (emit (Listdir root) ;;
     for_each (walked_files refuses islink cwd patterns root entries)
              (dump_body refuses cwd patterns root) ;;
     for_each (entered_dirs refuses islink cwd patterns root entries) (fun w => snd w)).
Proof. reflexivity. Qed.

Lemma print_file_contents_file r root :
  print_file_contents refuses islink cwd (File r) root patterns
  = ([Listdir root],
     if Str.has_nul root then Raise (Exn ValueError "embedded null byte") else Ret tt).
Proof. cbn [print_file_contents]. destruct (Str.has_nul root); reflexivity. Qed.

Lemma dump_body_runs root w :
  dump_body refuses cwd patterns root w
  = if kept cwd root patterns (fst (fst w))
    then dump_file refuses (snd (fst w)) (Path.join root (fst (fst w)))
    else ret tt.
Proof.
  unfold dump_body, kept. destruct (should_ignore cwd _ _ _ _); reflexivity.
Qed.

(** The loop over [files] is the loop over the files that are kept. *)
Lemma files_loop root entries :
  for_each (walked_files refuses islink cwd patterns root entries)
           (dump_body refuses cwd patterns root)
  = dump_files refuses
      (flat_map (fun '(name, n) =>
                   if negb (isdir n) && kept cwd root patterns name
                   then [(Path.join root name, n)] else []) entries).
Proof.
  unfold walked_files, dump_files.
  induction entries as [| [name n] t IH]; [reflexivity |].
  cbn [map filter flat_map as_walked fst snd].
  destruct (isdir n); cbn [negb andb app]; [exact IH |].
  rewrite for_each_cons, dump_body_runs. cbn [fst snd].
  destruct (kept cwd root patterns name).
  - cbn [app]. rewrite for_each_cons, IH. reflexivity.
  - cbn [app]. rewrite bind_ret_l. exact IH.
Qed.

(** Up to the listings, the dump is the loop body on the files of the walk,
    one after another. *)
Lemma print_file_contents_walk here :
  forall root,
    walkable here root = true ->
    same_io (print_file_contents refuses islink cwd here root patterns)
            (dump_files refuses (walk_files islink cwd here root patterns)).
Proof.
  induction here as [r | e | entries IH] using node_ind; intros root Hw.
  - rewrite print_file_contents_file. unfold walkable in Hw. cbn [isdir orb] in Hw.
    destruct (Str.has_nul root); [discriminate |]. split; reflexivity.
  - split; reflexivity.
  - clear Hw. rewrite print_file_contents_dir. cbn [walk_files].
    eapply same_io_trans; [apply same_io_listed |].
    rewrite dump_files_app, files_loop.
    apply same_io_bind; [apply same_io_refl |].
    unfold entered_dirs, walked_dirs.
    induction entries as [| [name n] t IHt]; [apply same_io_refl |].
    inversion IH as [| ? ? Hn Ht]; subst.
    cbn [map filter flat_map as_walked fst snd].
    destruct (isdir n) eqn:D; cbn [andb filter fst snd]; [| apply IHt, Ht].
    destruct (kept cwd root patterns name); cbn [andb filter fst snd]; [| apply IHt, Ht].
    destruct (islink (Path.join root name)); cbn [negb filter fst snd]; [apply IHt, Ht |].
    rewrite for_each_cons, dump_files_app. cbn [snd].
    apply same_io_bind; [| apply IHt, Ht].
    apply Hn. unfold walkable. cbn [snd]. rewrite D. reflexivity.
Qed.

(** A root that cannot be a path ends the walk at once. *)
Lemma print_file_contents_unwalkable here root :
  walkable here root = false ->
  print_file_contents refuses islink cwd here root patterns
  = ([Listdir root], Raise (Exn ValueError "embedded null byte")).
Proof.
  unfold walkable. destruct here as [r | l | e]; cbn [isdir orb]; try discriminate.
  rewrite negb_false_iff. intro H. rewrite print_file_contents_file, H. reflexivity.
Qed.

(** What the walk does in a directory is done for one of its files, or
    below one of its directories that is kept and is no symbolic link. *)
Lemma print_file_contents_trace_in entries root ev :
  In ev (trace (print_file_contents refuses islink cwd (Dir entries) root patterns)) ->
  ev = Listdir root
  \/ (exists name n,
         In (name, n) entries /\ isdir n = false /\ kept cwd root patterns name = true
         /\ In ev (trace (dump_file refuses n (Path.join root name))))
  \/ (exists name n,
         In (name, n) entries /\ isdir n = true /\ kept cwd root patterns name = true
         /\ islink (Path.join root name) = false
         /\ In ev (trace (print_file_contents refuses islink cwd n (Path.join root name)
                            patterns))).
Proof.
  rewrite print_file_contents_dir, trace_emit_bind, trace_bind.
  intros [<- | Hin]; [left; reflexivity |]. right.
  apply in_app_or in Hin. destruct Hin as [Hin | Hin].
  - left. apply for_each_trace_in in Hin. destruct Hin as [w [Hw Hin]].
    unfold walked_files in Hw. rewrite filter_In, in_map_iff in Hw.
    destruct Hw as [[[name n] [<- Hen]] D]. cbn [as_walked fst snd] in D, Hin.
    rewrite dump_body_runs in Hin. cbn [fst snd] in Hin.
    destruct (kept cwd root patterns name) eqn:K; [| destruct Hin].
    exists name, n. rewrite negb_true_iff in D. auto.
  - right. destruct (outcome (for_each (walked_files _ _ _ _ _ _) _)); [| destruct Hin].
    apply for_each_trace_in in Hin. destruct Hin as [w [Hw Hin]].
    unfold entered_dirs, walked_dirs in Hw. rewrite !filter_In, in_map_iff in Hw.
    destruct Hw as [[[[[name n] [<- Hen]] D] K] L]. cbn [as_walked fst snd] in D, K, L, Hin.
    exists name, n. rewrite negb_true_iff in L. auto.
Qed.

(** *** Filtered entries leave no mark *)

Lemma print_file_contents_prune here :
  forall root,
    print_file_contents refuses islink cwd here root patterns
    = print_file_contents refuses islink cwd (prune cwd here root patterns) root patterns.
Proof.
  induction here as [r | e | entries IH] using node_ind; intro root;
    [reflexivity | reflexivity |].
  rewrite prune_dir, !print_file_contents_dir. f_equal.
  assert (Hfiles :
            for_each (walked_files refuses islink cwd patterns root entries)
                     (dump_body refuses cwd patterns root)
            = for_each (walked_files refuses islink cwd patterns root
                          (map (pruned_entry cwd patterns root)
                               (filter (fun en => kept cwd root patterns (fst en)) entries)))
                       (dump_body refuses cwd patterns root)).
  { unfold walked_files. clear IH.
    induction entries as [| [name n] t IHt]; [reflexivity |].
    cbn [map filter as_walked fst snd].
    destruct (kept cwd root patterns name) eqn:K.
    - cbn [map filter as_walked pruned_entry fst snd]. rewrite prune_isdir.
      destruct (isdir n) eqn:D; cbn [negb]; [exact IHt |].
      rewrite !for_each_cons, IHt. f_equal.
      unfold dump_body. cbn [fst snd]. rewrite (prune_file _ _ _ _ D). reflexivity.
    - destruct (isdir n); cbn [negb]; [exact IHt |].
      rewrite for_each_cons, dump_body_runs. cbn [fst snd]. rewrite K.
      rewrite bind_ret_l. exact IHt. }
  assert (Hdirs :
            for_each (entered_dirs refuses islink cwd patterns root entries) (fun w => snd w)
            = for_each (entered_dirs refuses islink cwd patterns root
                          (map (pruned_entry cwd patterns root)
                               (filter (fun en => kept cwd root patterns (fst en)) entries)))
                       (fun w => snd w)).
  { unfold entered_dirs, walked_dirs. clear Hfiles.
    induction entries as [| [name n] t IHt]; [reflexivity |].
    inversion IH as [| ? ? Hn Ht]; subst.
    cbn [map filter as_walked fst snd].
    destruct (kept cwd root patterns name) eqn:K.
    - cbn [map filter as_walked pruned_entry fst snd]. rewrite prune_isdir.
      destruct (isdir n); cbn [filter fst snd]; rewrite ?K; [| exact (IHt Ht)].
      cbn [filter fst snd].
      destruct (islink (Path.join root name)); cbn [negb]; [exact (IHt Ht) |].
      rewrite !for_each_cons, (IHt Ht). cbn [snd]. f_equal. apply Hn.
    - destruct (isdir n); cbn [filter fst snd]; rewrite ?K; exact (IHt Ht). }
  rewrite Hfiles, Hdirs. reflexivity.
Qed.

(** *** What the dump touches *)

Lemma print_file_contents_reaches here :
  forall root q,
    In (Listdir q) (trace (print_file_contents refuses islink cwd here root patterns))
    \/ In (Open q) (trace (print_file_contents refuses islink cwd here root patterns)) ->
    exists n, reaches cwd patterns here root n q.
Proof.
  induction here as [r | e | entries IH] using node_ind; intros root q Hin.
  - rewrite print_file_contents_file in Hin.
    destruct Hin as [[[= <-] | []] | [[=] | []]]. eexists. constructor.
  - destruct Hin as [[[= <-] | []] | [[=] | []]]. eexists. constructor.
  - rewrite print_file_contents_dir, trace_emit_bind, trace_bind in Hin.
    assert (Hcase : q = root \/ exists ev, (ev = Listdir q \/ ev = Open q) /\
              (In ev (trace (for_each (walked_files refuses islink cwd patterns root entries)
                                      (dump_body refuses cwd patterns root)))
               \/ In ev (trace (for_each (entered_dirs refuses islink cwd patterns root entries)
                                         (fun w => snd w))))).
    { destruct Hin as [[[= <-] | Hin] | [[=] | Hin]]; [left; reflexivity | |];
        apply in_app_or in Hin; right;
        [exists (Listdir q) | exists (Open q)]; (split; [auto |]);
        (destruct Hin as [Hin | Hin]; [left; exact Hin |]);
        (destruct (outcome (for_each (walked_files _ _ _ _ _ _) _)); [right; exact Hin | destruct Hin]). }
    clear Hin. destruct Hcase as [-> | [ev [Hev [Hin | Hin]]]]; [eexists; constructor | |].
    + apply for_each_trace_in in Hin. destruct Hin as [w [Hw Hin]].
      unfold walked_files in Hw. rewrite filter_In, in_map_iff in Hw.
      destruct Hw as [[[name n] [<- Hen]] _].
      rewrite dump_body_runs in Hin. cbn [as_walked fst snd] in Hin.
      destruct (kept cwd root patterns name) eqn:K; [| destruct Hin].
      apply dump_file_trace_in in Hin. destruct Hin as [-> | [s ->]].
      * destruct Hev as [[=] | [= <-]]. exists n.
        eapply reaches_below; [exact Hen | exact K | constructor].
      * destruct Hev; discriminate.
    + apply for_each_trace_in in Hin. destruct Hin as [w [Hw Hin]].
      unfold entered_dirs, walked_dirs in Hw. rewrite !filter_In, in_map_iff in Hw.
      destruct Hw as [[[[[name n] [<- Hen]] _] K] _]. cbn [as_walked fst snd] in K, Hin.
      rewrite Forall_forall in IH.
      destruct (IH _ Hen (Path.join root name) q) as [n' Hn'].
      { destruct Hev as [-> | ->]; auto. }
      exists n'. eapply reaches_below; eassumption.
Qed.

End DumpFacts.

(** *** What the dump prints and opens *)

Lemma opened_app (t1 t2 : list event) :
  opened (t1 ++ t2) = (opened t1 ++ opened t2)%list.
Proof.
  induction t1 as [| [s | p | p] t1 IH]; simpl; rewrite ?IH; reflexivity.
Qed.

Section WalkFacts.
Variable refuses : string -> option exn.
Variable islink : string -> bool.
Variable cwd : string.
Variable patterns : option (list string).






Lemma outcome_walk here root :
  outcome (print_file_contents refuses islink cwd here root patterns)
  = if walkable here root
    then outcome (dump_files refuses (walk_files islink cwd here root patterns))
    else Raise (Exn ValueError "embedded null byte").
Proof.
  destruct (walkable here root) eqn:W.
  - apply (print_file_contents_walk refuses islink cwd patterns here root W).
  - rewrite (print_file_contents_unwalkable _ _ _ _ _ _ W). reflexivity.
Qed.



Lemma all_written (files : list (string * node)) :
  (forall file, In file files -> refuses (dump_line refuses file) = None) ->
  forallb (line_written refuses) files = true.
Proof.
  intro H. rewrite forallb_forall. intros file Hin. unfold line_written.
  rewrite (H file Hin). reflexivity.
Qed.

Lemma written_all (files : list (string * node)) :
  forallb (line_written refuses) files = true ->
  forall file, In file files -> refuses (dump_line refuses file) = None.
Proof.
  rewrite forallb_forall. intros H file Hin. specialize (H file Hin).
  unfold line_written in H. destruct (refuses (dump_line refuses file)); [discriminate | reflexivity].
Qed.

(** A standard output that takes the reports of errors takes the line of
    every file: the text is replaced by a report when it is refused. *)
Lemma reports_written (file : string * node) :
  (forall path e, refuses (error_line path e) = None) ->
  refuses (dump_line refuses file) = None.
Proof.
  intro H. unfold dump_line. destruct (snd file) as [[raw | e] | l | e]; try apply H.
  destruct (refuses (content_line (fst file) raw)) eqn:E; [apply H | exact E].
Qed.

End WalkFacts.

(* ------------------------------------------------------------------ *)
(** ** The properties *)

(** C1: with line counts shown, the integer [display_tree_structure]
    returns is the sum, over the files of the subtree that the filter keeps
    (and that lie below no filtered directory), of the integer
    [count_lines_or_get_type] gives for them, a type string counting for 0;
    it does return whenever every kept directory can be listed and no kept
    file fails to open, standard output taking what is printed; on a path
    that is not a directory it returns 0 and does nothing, and on an empty
    directory it returns 0 and prints nothing. *)
Theorem display_total_is_sum_of_counts
        (refuses : string -> option exn)
        (cwd : string) (guess_type : string -> option string)
        (patterns : option (list string)) (here : node) (fp prefix : string) :
  let run := display_tree_structure refuses cwd guess_type here fp patterns prefix true in
  (forall total, outcome run = Ret total ->
                 total = sum_of_counts cwd guess_type here fp patterns)
  /\ (writes_all refuses ->
      all_countable cwd here fp patterns = true ->
      outcome run = Ret (sum_of_counts cwd guess_type here fp patterns))
  /\ (forall r, display_tree_structure refuses cwd guess_type (File r) fp patterns prefix true
                = ([], Ret 0))
  /\ (display_tree_structure refuses cwd guess_type (Dir []) fp patterns prefix true
      = ([Listdir fp], Ret 0)
      /\ sum_of_counts cwd guess_type (Dir []) fp patterns = 0).
Proof.
  cbv zeta. split; [| split; [| split]].
  - intros total H. eapply display_total, H.
  - intros W Hok.
    destruct (@display_returns refuses cwd guess_type patterns W here fp prefix Hok)
      as [total H].
    rewrite H. f_equal. eapply display_total, H.
  - reflexivity.
  - split; reflexivity.
Qed.

Lemma display_total_is_sum_of_counts_witness :
  outcome (display_tree_structure never_refuses "/home/u" no_guess sample_tree "root"
             (Some ignore_patterns) "" true) = Ret 5
  /\ sum_of_counts "/home/u" no_guess sample_tree "root" (Some ignore_patterns) = 5.
Proof.
  assert (H : outcome (display_tree_structure never_refuses "/home/u" no_guess sample_tree "root"
                         (Some ignore_patterns) "" true) = Ret 5)
    by (vm_compute; reflexivity).
  split; [exact H |].
  symmetry.
  apply (proj1 (display_total_is_sum_of_counts never_refuses "/home/u" no_guess
                  (Some ignore_patterns) sample_tree "root" "") 5 H).
Defined.

(** C3: an entry the filter rejects (its name or path matches an ignore
    pattern, or its absolute path has a blacklisted name or prefix) leaves no
    mark: the renderer and the dumper do exactly what they do on the tree
    without such entries, and every directory they list and every file they
    open is reached from the root through kept entries only. *)
Theorem filtered_entries_never_appear
        (refuses : string -> option exn) (islink : string -> bool)
        (cwd : string) (guess_type : string -> option string)
        (patterns : option (list string)) (here : node)
        (fp prefix : string) (show : bool) :
  let shown := display_tree_structure refuses cwd guess_type here fp patterns prefix show in
  let dumped := print_file_contents refuses islink cwd here fp patterns in
  shown = display_tree_structure refuses cwd guess_type (prune cwd here fp patterns) fp
            patterns prefix show
  /\ dumped = print_file_contents refuses islink cwd (prune cwd here fp patterns) fp patterns
  /\ (forall q, In (Listdir q) (trace shown) \/ In (Open q) (trace shown) ->
                exists n, reaches cwd patterns here fp n q)
  /\ (forall q, In (Listdir q) (trace dumped) \/ In (Open q) (trace dumped) ->
                exists n, reaches cwd patterns here fp n q)
  /\ (forall name path,
         should_ignore cwd name path (or_empty patterns) blacklist
         = existsb (fun pattern => Re.re_match pattern name || Re.re_match pattern path)
                   (or_empty patterns)
           || blacklisted cwd path).
Proof.
  cbv zeta. split; [| split; [| split; [| split]]].
  - apply display_prune.
  - apply print_file_contents_prune.
  - apply display_reaches.
  - apply print_file_contents_reaches.
  - intros. apply should_ignore_blacklisted.
Qed.

Lemma filtered_entries_never_appear_witness :
  exists n, reaches "/home/u" (Some ignore_patterns) sample_tree "root" n "root/src/m.py".
Proof.
  apply (proj1 (proj2 (proj2 (filtered_entries_never_appear never_refuses no_links
                                "/home/u" no_guess
                                (Some ignore_patterns) sample_tree "root" "" true)))).
  right. vm_compute. tauto.
Defined.

(** C7: the renderer sorts what the listing gives it, so two listings of
    the same directory tree, whatever order the entries come in, give the same
    actions, the same bytes on standard output and the same outcome. *)
Theorem display_is_deterministic
        (refuses : string -> option exn)
        (cwd : string) (guess_type : string -> option string)
        (a b : node) (fp : string) (patterns : option (list string))
        (prefix : string) (show : bool) :
  same_tree a b ->
  let first := display_tree_structure refuses cwd guess_type a fp patterns prefix show in
  let second := display_tree_structure refuses cwd guess_type b fp patterns prefix show in
  first = second
  /\ stdout (trace first) = stdout (trace second)
  /\ outcome first = outcome second.
Proof.
  intros H. cbv zeta.
  rewrite (display_same_tree refuses cwd guess_type H fp patterns prefix show).
  repeat split.
Qed.

Lemma sample_trees_same : same_tree sample_tree sample_tree_reordered.
Proof.
  unfold sample_tree, sample_tree_reordered.
  apply same_dir.
  - simpl.
    apply Permutation_sym.
    apply (perm_trans (l' := ["go.sum"; "a.txt"; ".git"; "b.bin"; "src"])).
    { change (Permutation (["src"] ++ ["go.sum"; "a.txt"; ".git"; "b.bin"])
                          (["go.sum"; "a.txt"; ".git"; "b.bin"] ++ ["src"])).
      apply Permutation_app_comm. }
    apply (perm_trans (l' := ["a.txt"; ".git"; "b.bin"; "go.sum"; "src"])).
    { change (Permutation ((["go.sum"] ++ ["a.txt"; ".git"; "b.bin"]) ++ ["src"])
                          ((["a.txt"; ".git"; "b.bin"] ++ ["go.sum"]) ++ ["src"])).
      apply Permutation_app_tail, Permutation_app_comm. }
    apply (perm_trans (l' := ["b.bin"; "a.txt"; ".git"; "go.sum"; "src"])).
    { change (Permutation ((["a.txt"; ".git"] ++ ["b.bin"]) ++ ["go.sum"; "src"])
                          ((["b.bin"] ++ ["a.txt"; ".git"]) ++ ["go.sum"; "src"])).
      apply Permutation_app_tail, Permutation_app_comm. }
    reflexivity.
  - intros name x y Hx Hy. simpl in Hx, Hy.
    repeat (destruct Hx as [Hx | Hx]; [injection Hx as <- <- |]); try destruct Hx;
      repeat (destruct Hy as [Hy | Hy]; [try discriminate Hy; injection Hy as <- |]);
      try destruct Hy; try apply same_file.
    + apply same_dir; [reflexivity |].
      intros nm u v Hu Hv. simpl in Hu, Hv.
      destruct Hu as [[= <- <-] | []]. destruct Hv as [[= <-] | []]. apply same_file.
    + apply same_dir; [apply perm_swap |].
      intros nm u v Hu Hv. simpl in Hu, Hv.
      repeat (destruct Hu as [Hu | Hu]; [injection Hu as <- <- |]); try destruct Hu;
        repeat (destruct Hv as [Hv | Hv]; [try discriminate Hv; injection Hv as <- |]);
        try destruct Hv; apply same_file.
Qed.

Lemma display_is_deterministic_witness :
  stdout (trace (display_tree_structure never_refuses "/home/u" no_guess sample_tree "root"
                   (Some ignore_patterns) "" true))
  = stdout (trace (display_tree_structure never_refuses "/home/u" no_guess sample_tree_reordered "root"
                     (Some ignore_patterns) "" true)).
Proof.
  apply (proj1 (proj2 (@display_is_deterministic never_refuses "/home/u" no_guess sample_tree
                         sample_tree_reordered "root" (Some ignore_patterns) "" true
                         sample_trees_same))).
Defined.




(** C10, as stated, fails: the handler of the dump prints its report
    outside of any [try], so what that [print] raises leaves
    [print_file_contents].  On a standard output that encodes to ASCII, a
    file whose name is not ASCII has its text refused (which is caught) and
    then its report refused as well.  And a root path that holds a NUL makes
    the scan of [os.walk] raise a [ValueError], which [os.walk] does not
    drop. *)
Lemma dump_raises_in_its_handler :
  outcome (print_file_contents ascii_stdout no_links "/home/u" accented_tree "proj"
             (Some ignore_patterns))
  = Raise (Exn UnicodeEncodeError "'ascii' codec can't encode character")
  /\ outcome (print_file_contents never_refuses no_links "/home/u"
                (File (ReadError (Exn FileNotFoundError "")))
                ("a" ++ String Str.nul "b") (Some ignore_patterns))
     = Raise (Exn ValueError "embedded null byte").
Proof. split; vm_compute; reflexivity. Qed.

(** C10, amended: with the script's own patterns, the dump ends normally
    exactly when its root can be scanned and standard output takes the line
    of every file of the walk, a line being the text of the file or, where
    opening, reading or printing the text raises, the report of the handler.
    So an exception leaves the dump only from the [print] of the handler (or
    from the scan of a root path that holds a NUL), and none does when the
    root path holds no NUL and standard output takes the reports.  The
    renderer is different: a directory that cannot be listed, or a file that
    cannot be opened, makes it raise. *)
Theorem dump_raises_only_in_its_handler
        (refuses : string -> option exn) (islink : string -> bool)
        (cwd : string) (here : node) (root : string) :
  let dumped := print_file_contents refuses islink cwd here root (Some ignore_patterns) in
  let files := walk_files islink cwd here root (Some ignore_patterns) in
  (outcome dumped = Ret tt
   <-> walkable here root = true
       /\ forall file, In file files -> refuses (dump_line refuses file) = None)
  /\ (forall e, outcome dumped = Raise e ->
                (walkable here root = false /\ e = Exn ValueError "embedded null byte")
                \/ exists file, In file files /\ refuses (dump_line refuses file) = Some e)
  /\ ((forall path e, refuses ("Error reading " ++ path ++ ": " ++ message e) = None) ->
      Str.has_nul root = false ->
      outcome dumped = Ret tt)
  /\ (forall guess_type e prefix show,
         outcome (display_tree_structure refuses cwd guess_type (DirNoList e) root
                    (Some ignore_patterns) prefix show) = Raise e)
  /\ (forall msg,
         outcome (display_tree_structure refuses "/home/u" no_guess
                    (Dir [("notes.txt", File (ReadError (Exn PermissionError msg)))])
                    "root" (Some ignore_patterns) "" true)
         = Raise (Exn PermissionError msg)).
Proof.
  cbv zeta.
  assert (Hiff : outcome (print_file_contents refuses islink cwd here root (Some ignore_patterns))
                 = Ret tt
                 <-> walkable here root = true
                     /\ forall file,
                          In file (walk_files islink cwd here root (Some ignore_patterns)) ->
                          refuses (dump_line refuses file) = None).
  { rewrite outcome_walk. destruct (walkable here root).
    - rewrite dump_files_returns. split.
      + intro H. split; [reflexivity | apply written_all, H].
      + intros [_ H]. apply all_written, H.
    - split; [discriminate | intros [H _]; discriminate H]. }
  split; [exact Hiff |]. split; [| split; [| split]].
  - intros e. rewrite outcome_walk. destruct (walkable here root).
    + intro H. right. apply dump_files_raises, H.
    + intros [= <-]. left. split; reflexivity.
  - intros Hreports Hnul. apply Hiff. split.
    + unfold walkable. rewrite Hnul, orb_true_r. reflexivity.
    + intros file _. apply reports_written. exact Hreports.
  - reflexivity.
  - intro msg. vm_compute. reflexivity.
Qed.

Lemma dump_raises_only_in_its_handler_witness :
  outcome (print_file_contents never_refuses src_is_link "/home/u" sample_tree "root"
             (Some ignore_patterns)) = Ret tt.
Proof.
  apply (proj1 (proj2 (proj2 (dump_raises_only_in_its_handler never_refuses src_is_link
                                "/home/u" sample_tree "root")))
           (fun _ _ => eq_refl) eq_refl).
Defined.

(* ------------------------------------------------------------------ *)
(** ** What the patterns of the script match *)

Lemma m_star (r : Re.regex) (b : bool) (s : string) (k : bool -> string -> bool) :
  Re.m (Re.Star r) b s k = star_loop r k (String.length s) b s.
Proof. destruct s; reflexivity. Qed.

Lemma m_seq (r1 r2 : Re.regex) (b : bool) (s : string) (k : bool -> string -> bool) :
  Re.m (Re.Seq r1 r2) b s k = Re.m r1 b s (fun b' s' => Re.m r2 b' s' k).
Proof. reflexivity. Qed.

Lemma star_loop_unfold r k n b s :
  star_loop r k n b s
  = Re.m r b s
      (fun b' s' =>
         if (String.length s' <? String.length s)%nat
         then match n with O => false | S n' => star_loop r k n' b' s' end
         else false)
    || k b s.
Proof. destruct n; reflexivity. Qed.

Lemma m_literal_then (lit : string) (r : Re.regex) :
  forall b s k,
    Re.m (literal_then lit r) b s k = true <->
    exists rest, s = lit ++ rest
                 /\ Re.m r (if Str.truthy lit then false else b) rest k = true.
Proof.
  induction lit as [| c lit IH]; intros b s k; simpl.
  - split; [intro H; exists s; auto | intros [rest [-> H]]; exact H].
  - destruct s as [| x s].
    + split; [discriminate | intros [rest [[=] _]]].
    + destruct (Ascii.eqb x c) eqn:E.
      * apply Ascii.eqb_eq in E. subst x. rewrite IH. split.
        -- intros [rest [-> H]]. exists rest. split; [reflexivity |].
           destruct (Str.truthy lit); exact H.
        -- intros [rest [[= ->] H]]. exists rest. split; [reflexivity |].
           destruct (Str.truthy lit); exact H.
      * split; [discriminate |]. intros [rest [[= -> _] _]].
        rewrite Ascii.eqb_refl in E. discriminate.
Qed.

Lemma m_eos_end (b : bool) (s : string) :
  Re.m (Re.Seq Re.Eos Re.Empty) b s (fun _ _ => true) = true
  <-> s = "" \/ s = Str.nl.
Proof.
  simpl. destruct s as [| x [| y t]].
  - tauto.
  - destruct (Ascii.eqb x Str.newline) eqn:E.
    + apply Ascii.eqb_eq in E. subst. unfold Str.nl. tauto.
    + split; [discriminate |]. intros [[=] | [= ->]].
      rewrite Ascii.eqb_refl in E. discriminate.
  - split; [discriminate |]. intros [[=] | [=]].
Qed.

Lemma matches_literal_eos (lit s : string) (b : bool) :
  Re.m (literal_then lit (Re.Seq Re.Eos Re.Empty)) b s (fun _ _ => true) = true
  <-> s = lit \/ s = lit ++ Str.nl.
Proof.
  rewrite m_literal_then. split.
  - intros [rest [-> H]]. apply m_eos_end in H. destruct H as [-> | ->]; [left | right].
    + clear. induction lit; simpl; congruence.
    + reflexivity.
  - intros [-> | ->].
    + exists "". split; [clear; induction lit; simpl; congruence | apply m_eos_end; auto].
    + exists Str.nl. split; [reflexivity | apply m_eos_end; auto].
Qed.

(** X1: four patterns of the list carry no wildcard, and [re.match] ties
    them to the start of the subject: each matches a string only when the
    string is the literal itself (or the literal and one final line feed), so
    they reject an entry by its name and never through a longer path. *)
Theorem literal_patterns_match_the_whole_name (s : string) :
  (Re.re_match "^LICENSE$" s = true <-> s = "LICENSE" \/ s = "LICENSE" ++ Str.nl)
  /\ (Re.re_match "\.env$" s = true <-> s = ".env" \/ s = ".env" ++ Str.nl)
  /\ (Re.re_match "__pycache__$" s = true
      <-> s = "__pycache__" \/ s = "__pycache__" ++ Str.nl)
  /\ (Re.re_match "test-results\.json$" s = true
      <-> s = "test-results.json" \/ s = "test-results.json" ++ Str.nl).
Proof.
  repeat split; intro H.
  - unfold Re.re_match, Re.matches in H.
    change (Re.m (literal_then "LICENSE" (Re.Seq Re.Eos Re.Empty)) true s
                 (fun _ _ => true) = true) in H.
    apply matches_literal_eos in H. exact H.
  - unfold Re.re_match, Re.matches.
    change (Re.m (literal_then "LICENSE" (Re.Seq Re.Eos Re.Empty)) true s
                 (fun _ _ => true) = true).
    apply matches_literal_eos. exact H.
  - apply (matches_literal_eos ".env" s true). exact H.
  - apply (matches_literal_eos ".env" s true) in H. exact H.
  - apply (matches_literal_eos "__pycache__" s true). exact H.
  - apply (matches_literal_eos "__pycache__" s true) in H. exact H.
  - apply (matches_literal_eos "test-results.json" s true). exact H.
  - apply (matches_literal_eos "test-results.json" s true) in H. exact H.
Qed.

Lemma literal_patterns_match_the_whole_name_witness :
  Re.re_match "\.env$" ".env" = true.
Proof.
  apply (proj2 (proj1 (proj2 (literal_patterns_match_the_whole_name ".env")))).
  left. reflexivity.
Defined.

Lemma star_any_skips (k : bool -> string -> bool) (t : string) :
  k false t = true ->
  forall stem n b,
    no_newline stem = true ->
    (stem = "" -> k b t = true) ->
    String.length (stem ++ t) <= n ->
    star_loop Re.AnyChar k n b (stem ++ t) = true.
Proof.
  intros Hk. induction stem as [| c stem IH]; intros n b Hnl Hempty Hlen.
  - cbn [append]. rewrite star_loop_unfold, (Hempty eq_refl). apply orb_true_r.
  - rewrite star_loop_unfold. simpl in Hnl. apply andb_prop in Hnl.
    destruct Hnl as [Hc Hnl]. apply negb_true_iff in Hc.
    cbn [append Re.m]. rewrite Hc.
    assert (L : (String.length (stem ++ t) <? String.length (String c (stem ++ t)))%nat = true)
      by (apply Nat.ltb_lt; simpl; lia).
    rewrite L. destruct n as [| n]; [simpl in Hlen; lia |].
    rewrite IH; [reflexivity | exact Hnl | | simpl in Hlen; lia].
    intros _. exact Hk.
Qed.

Lemma matches_any_then_suffix (stem suffix : string) (b : bool) :
  no_newline stem = true ->
  Re.m (Re.Seq (Re.Star Re.AnyChar) (literal_then suffix (Re.Seq Re.Eos Re.Empty)))
       b (stem ++ suffix) (fun _ _ => true) = true.
Proof.
  intro Hnl. rewrite m_seq, m_star.
  apply star_any_skips; [| exact Hnl | | lia].
  - apply matches_literal_eos. left. reflexivity.
  - intros _. apply matches_literal_eos. left. reflexivity.
Qed.

Lemma matches_git_optional (stem : string) (b : bool) :
  no_newline stem = true ->
  Re.re_match ".*\.git(ignore)?$" (stem ++ ".git") = true
  /\ Re.re_match ".*\.git(ignore)?$" (stem ++ ".gitignore") = true.
Proof.
  intro Hnl. unfold Re.re_match, Re.matches.
  change (Re.compile ".*\.git(ignore)?$")
    with (Some (Re.Seq (Re.Star Re.AnyChar)
                  (literal_then ".git"
                     (Re.Seq (Re.Opt (literal_then "ignore" Re.Empty))
                             (Re.Seq Re.Eos Re.Empty))))).
  split.
  - rewrite m_seq, m_star.
    apply star_any_skips; [| exact Hnl | | lia]; try intros _;
      apply m_literal_then; exists ""; split; reflexivity.
  - rewrite m_seq, m_star.
    apply star_any_skips; [| exact Hnl | | lia]; try intros _;
      apply m_literal_then; exists "ignore"; split; reflexivity.
Qed.

Lemma existsb_ignore_patterns (name path p : string) :
  In p ignore_patterns ->
  Re.re_match p name = true ->
  forall cwd, should_ignore cwd name path ignore_patterns blacklist = true.
Proof.
  intros Hin Hm cwd. rewrite should_ignore_blacklisted.
  apply orb_true_iff. left. apply existsb_exists. exists p.
  split; [exact Hin |]. rewrite Hm. reflexivity.
Qed.

(** X2: whatever the folder and the working directory, the script's
    patterns reject every entry whose name ends in .git, .gitignore, .ipynb,
    .pyc or .out (and holds no line feed). *)
Theorem names_with_ignored_suffix_are_rejected (cwd stem suffix path : string) :
  no_newline stem = true ->
  In suffix [".git"; ".gitignore"; ".ipynb"; ".pyc"; ".out"] ->
  should_ignore cwd (stem ++ suffix) path ignore_patterns blacklist = true.
Proof.
  intros Hnl Hin. simpl in Hin.
  destruct Hin as [<- | [<- | [<- | [<- | [<- | []]]]]].
  - apply existsb_ignore_patterns with (p := ".*\.git(ignore)?$");
      [simpl; tauto | apply (matches_git_optional stem true Hnl)].
  - apply existsb_ignore_patterns with (p := ".*\.git(ignore)?$");
      [simpl; tauto | apply (matches_git_optional stem true Hnl)].
  - apply existsb_ignore_patterns with (p := ".*\.ipynb$"); [simpl; tauto |].
    apply (matches_any_then_suffix stem ".ipynb" true Hnl).
  - apply existsb_ignore_patterns with (p := ".*\.pyc$"); [simpl; tauto |].
    apply (matches_any_then_suffix stem ".pyc" true Hnl).
  - apply existsb_ignore_patterns with (p := ".*\.out$"); [simpl; tauto |].
    apply (matches_any_then_suffix stem ".out" true Hnl).
Qed.

Lemma names_with_ignored_suffix_are_rejected_witness :
  should_ignore "/home/u" "module.cpython-312.pyc" "pkg/module.cpython-312.pyc"
    ignore_patterns blacklist = true.
Proof.
  apply (@names_with_ignored_suffix_are_rejected "/home/u" "module.cpython-312" ".pyc"
           "pkg/module.cpython-312.pyc").
  - reflexivity.
  - simpl. tauto.
Defined.

Lemma matches_terraform (s : string) :
  Re.re_match "\.terraform*" s = true <-> exists rest, s = ".terrafor" ++ rest.
Proof.
  unfold Re.re_match, Re.matches.
  change (Re.compile "\.terraform*")
    with (Some (literal_then ".terrafor"
                  (Re.Seq (Re.Star (Re.Lit "m")) Re.Empty))).
  rewrite m_literal_then. split.
  - intros [rest [-> _]]. exists rest. reflexivity.
  - intros [rest ->]. exists rest. split; [reflexivity |].
    cbn [Str.truthy]. rewrite m_seq, m_star, star_loop_unfold. apply orb_true_r.
Qed.

Lemma terrafor_prefix (s : string) :
  Str.startswith s ".terrafor" = true <-> exists rest, s = ".terrafor" ++ rest.
Proof.
  unfold Str.startswith. split.
  - intro H. apply prefix_correct in H. simpl String.length in H.
    exists (substring 9 (String.length s - 9) s).
    destruct s as [| c0 [| c1 [| c2 [| c3 [| c4 [| c5 [| c6 [| c7 [| c8 s]]]]]]]]];
      try discriminate H.
    simpl in H. injection H as -> -> -> -> -> -> -> -> ->.
    simpl. rewrite Nat.sub_0_r. f_equal. f_equal. f_equal. f_equal. f_equal.
    f_equal. f_equal. f_equal. f_equal.
    clear. induction s as [| c s IH]; simpl; [reflexivity | rewrite <- IH at 1].
    reflexivity.
  - intros [rest ->]. destruct rest; reflexivity.
Qed.

Lemma terrafor_prefix_ignored (cwd name path : string) :
  Str.startswith name ".terrafor" = true \/ Str.startswith path ".terrafor" = true ->
  should_ignore cwd name path ignore_patterns blacklist = true.
Proof.
  intros H. rewrite should_ignore_blacklisted. apply orb_true_iff. left.
  apply existsb_exists. exists "\.terraform*". split; [simpl; tauto |].
  apply orb_true_iff.
  destruct H as [H | H]; [left | right]; apply matches_terraform, terrafor_prefix, H.
Qed.

(** X3: the last pattern, [\.terraform*], is open at its end: it matches
    exactly the strings that begin with ".terrafor", so an entry is rejected
    as soon as its name or its path begins so. *)
Theorem terraform_pattern_is_a_prefix_test (cwd name path : string) :
  (forall s, Re.re_match "\.terraform*" s = true <-> Str.startswith s ".terrafor" = true)
  /\ (Str.startswith name ".terrafor" = true \/ Str.startswith path ".terrafor" = true ->
      should_ignore cwd name path ignore_patterns blacklist = true).
Proof.
  split.
  - intro s. rewrite matches_terraform, terrafor_prefix. reflexivity.
  - apply terrafor_prefix_ignored.
Qed.

Lemma terraform_pattern_is_a_prefix_test_witness :
  should_ignore "/home/u" ".terraformrc" "proj/.terraformrc" ignore_patterns blacklist
  = true.
Proof.
  apply (proj2 (terraform_pattern_is_a_prefix_test "/home/u" ".terraformrc"
                  "proj/.terraformrc")).
  left. reflexivity.
Defined.

(* ------------------------------------------------------------------ *)
(** ** Names and paths *)

Lemma append_assoc (a b c : string) : (a ++ b) ++ c = a ++ (b ++ c).
Proof. induction a as [| x a IH]; simpl; [reflexivity | rewrite IH; reflexivity]. Qed.

Lemma append_nil_r (a : string) : a ++ "" = a.
Proof. induction a as [| x a IH]; simpl; [reflexivity | rewrite IH; reflexivity]. Qed.

Lemma truthy_append_r (a b : string) : Str.truthy b = true -> Str.truthy (a ++ b) = true.
Proof. destruct a; simpl; auto. Qed.

Lemma lacks_append (c : ascii) (a b : string) :
  lacks c (a ++ b) = lacks c a && lacks c b.
Proof.
  induction a as [| x a IH]; simpl; [reflexivity |].
  rewrite IH, andb_assoc. reflexivity.
Qed.

(** The pieces of [split]: one piece when the separator does not occur,
    at least two when it does. *)
Lemma split_shape (c : ascii) (s : string) :
  if lacks c s then Str.split c s = [s]
  else exists h r, Str.split c s = h :: r /\ r <> [].
Proof.
  induction s as [| x s IH]; simpl; [reflexivity |].
  destruct (Ascii.eqb x c) eqn:E; simpl.
  - exists "", (Str.split c s). split; [reflexivity |].
    destruct (lacks c s); [rewrite IH; discriminate |].
    destruct IH as [h [r [-> _]]]. discriminate.
  - destruct (lacks c s).
    + rewrite IH. reflexivity.
    + destruct IH as [h [r [-> Hr]]]. exists (String x h), r. auto.
Qed.

Lemma last_split_cons (c x : ascii) (t : string) :
  last (Str.split c (String x t)) ""
  = if negb (Ascii.eqb x c) && lacks c t then String x t
    else last (Str.split c t) "".
Proof.
  pose proof (split_shape c t) as H. simpl Str.split.
  destruct (Ascii.eqb x c) eqn:E; simpl negb; cbn [andb].
  - destruct (lacks c t).
    + rewrite H. reflexivity.
    + destruct H as [h [r [-> _]]]. reflexivity.
  - destruct (lacks c t).
    + rewrite H. reflexivity.
    + destruct H as [h [r [-> Hr]]]. destruct r; [congruence | reflexivity].
Qed.

Lemma last_split_empty (c : ascii) : last (Str.split c "") "" = "".
Proof. reflexivity. Qed.

(** What follows the last separator, when a name without separator is
    appended. *)
Lemma last_split_append (c : ascii) (name : string) :
  lacks c name = true ->
  forall z, last (Str.split c (z ++ name)) "" = last (Str.split c z) "" ++ name.
Proof.
  intros Hn. induction z as [| x z IH].
  - simpl. pose proof (split_shape c name) as H. rewrite Hn in H. rewrite H. reflexivity.
  - cbn [append]. rewrite !last_split_cons, lacks_append, Hn, andb_true_r.
    destruct (negb (Ascii.eqb x c) && lacks c z); [reflexivity | exact IH].
Qed.

Lemma last_split_sep (c : ascii) (z : string) :
  last (Str.split c (z ++ String c "")) "" = "".
Proof.
  induction z as [| x z IH].
  - simpl. rewrite Ascii.eqb_refl. reflexivity.
  - cbn [append]. rewrite last_split_cons, lacks_append. simpl lacks at 2.
    rewrite Ascii.eqb_refl. simpl. rewrite andb_false_r, andb_false_r. exact IH.
Qed.

Lemma opens_component_last (z : string) :
  opens_component z -> last (Str.split Path.sep z) "" = "".
Proof.
  intros [-> | [z0 ->]]; [reflexivity | apply last_split_sep].
Qed.

Lemma basename_append (z name : string) :
  opens_component z -> lacks Path.sep name = true ->
  Path.basename (z ++ name) = name.
Proof.
  intros Hz Hn. unfold Path.basename.
  rewrite (@last_split_append _ _ Hn), (@opens_component_last _ Hz). reflexivity.
Qed.

Lemma endswith_sep (a : string) :
  Str.endswith a "/" = true -> exists a0, a = a0 ++ "/".
Proof.
  unfold Str.endswith. change (String.length "/") with 1.
  induction a as [| x a IH]; [discriminate |].
  destruct a as [| y a]; intro H.
  - exists "". revert H. cbn.
    destruct (Ascii.eqb_spec x "/"%char) as [-> | Hne]; [reflexivity | discriminate].
  - destruct IH as [a0 Ha0].
    + change (String.length (String x (String y a)) - 1) with (S (String.length a)) in H.
      change (String.length (String y a) - 1) with (String.length a - 0).
      rewrite Nat.sub_0_r.
      apply andb_prop in H. destruct H as [_ H].
      apply andb_true_intro. split; [reflexivity | exact H].
    + exists (String x a0). cbn [append]. rewrite <- Ha0. reflexivity.
Qed.

Lemma entry_name_parts (name : string) :
  entry_name name = true ->
  Str.truthy name = true /\ lacks Path.sep name = true
  /\ name <> "" /\ name <> "." /\ name <> "..".
Proof.
  unfold entry_name. intro H.
  apply andb_prop in H. destruct H as [H H4].
  apply andb_prop in H. destruct H as [H H3].
  apply andb_prop in H. destruct H as [H1 H2].
  apply negb_true_iff, String.eqb_neq in H3, H4.
  repeat split; auto. destruct name; [discriminate | discriminate].
Qed.

Lemma not_absolute (name : string) :
  Str.truthy name = true -> lacks Path.sep name = true ->
  Str.startswith name "/" = false.
Proof.
  destruct name as [| x name]; [discriminate |]. intros _ H. simpl in H.
  apply andb_prop in H. destruct H as [H _]. apply negb_true_iff in H.
  unfold Str.startswith.
  change (String.prefix "/" (String x name))
    with (if ascii_dec "/"%char x then String.prefix "" name else false).
  destruct (ascii_dec "/"%char x) as [<- | Hne]; [discriminate H | reflexivity].
Qed.

(** [os.path.join] puts the name after something that opens a component. *)
Lemma join_entry (fp name : string) :
  Str.truthy name = true -> lacks Path.sep name = true ->
  exists z, Path.join fp name = z ++ name /\ opens_component z.
Proof.
  intros Ht Hl. unfold Path.join. rewrite (@not_absolute name Ht Hl).
  destruct (Str.truthy fp) eqn:T; cbn [negb orb].
  - destruct (Str.endswith fp "/") eqn:E.
    + exists fp. split; [reflexivity |]. right. apply endswith_sep, E.
    + exists (fp ++ "/"). split; [apply eq_sym, append_assoc | right; eauto].
  - destruct fp; [| discriminate]. exists "". split; [reflexivity | left; reflexivity].
Qed.

Lemma opens_component_append (a z : string) :
  opens_component a -> opens_component z -> opens_component (a ++ z).
Proof.
  intros Ha [-> | [z0 ->]].
  - rewrite append_nil_r. exact Ha.
  - right. exists (a ++ z0). apply eq_sym, append_assoc.
Qed.

Lemma opens_component_sep (a : string) : opens_component (a ++ "/").
Proof. right. exists a. reflexivity. Qed.

(** [os.path.abspath] of a joined entry is [normpath] of a string that ends
    in the name of the entry. *)
Lemma abspath_entry (cwd fp name : string) :
  Str.truthy name = true -> lacks Path.sep name = true ->
  exists z, Path.abspath cwd (Path.join fp name) = Path.normpath (z ++ name)
            /\ opens_component z.
Proof.
  intros Ht Hl. destruct (@join_entry fp name Ht Hl) as [y [-> Hy]].
  unfold Path.abspath. destruct (Str.startswith (y ++ name) "/") eqn:S.
  - exists y. auto.
  - unfold Path.join. rewrite S.
    destruct (Str.truthy cwd) eqn:T; cbn [negb orb].
    + destruct (Str.endswith cwd "/") eqn:E.
      * exists (cwd ++ y). split; [rewrite append_assoc; reflexivity |].
        apply opens_component_append; [right; apply endswith_sep, E | exact Hy].
      * exists ((cwd ++ "/") ++ y). split; [rewrite !append_assoc; reflexivity |].
        apply opens_component_append; [apply opens_component_sep | exact Hy].
    + destruct cwd; [| discriminate]. exists y. auto.
Qed.

Lemma split_nonempty (c : ascii) (s : string) : Str.split c s <> [].
Proof.
  pose proof (split_shape c s) as H. destruct (lacks c s).
  - rewrite H. discriminate.
  - destruct H as [h [r [-> _]]]. discriminate.
Qed.

Lemma split_append (c : ascii) (name : string) :
  lacks c name = true ->
  forall z, Str.split c (z ++ name)
            = (removelast (Str.split c z)
               ++ [(last (Str.split c z) "" ++ name)%string])%list.
Proof.
  intro Hn. induction z as [| x z IH].
  - simpl. pose proof (split_shape c name) as H. rewrite Hn in H. rewrite H. reflexivity.
  - cbn [append Str.split]. rewrite IH.
    pose proof (split_shape c z) as H.
    destruct (Ascii.eqb x c).
    + destruct (Str.split c z) as [| h r] eqn:E; [exfalso; eapply split_nonempty, E |].
      reflexivity.
    + destruct (lacks c z).
      * rewrite H. reflexivity.
      * destruct H as [h [r [-> Hr]]]. destruct r as [| r0 r]; [congruence |].
        reflexivity.
Qed.

Lemma norm_comps_snoc (i : nat) (name : string) :
  name <> "" -> name <> "." -> name <> ".." ->
  forall pre acc, exists acc',
    Path.norm_comps i (pre ++ [name]) acc = (rev acc' ++ [name])%list.
Proof.
  intros H0 H1 H2. induction pre as [| comp pre IH]; intro acc.
  - exists acc. simpl.
    apply String.eqb_neq in H0, H1, H2. rewrite H0, H1, H2. reflexivity.
  - cbn [app Path.norm_comps].
    destruct (String.eqb comp "" || String.eqb comp "."); [apply IH |].
    destruct (negb (String.eqb comp "..")
              || (i =? 0)%nat && match acc with [] => true | _ :: _ => false end
              || match acc with [] => false | top :: _ => String.eqb top ".." end);
      [apply IH |].
    destruct acc; apply IH.
Qed.

Lemma concat_snoc (name : string) (l : list string) :
  exists v, String.concat "/" (l ++ [name]) = v ++ name /\ opens_component v.
Proof.
  induction l as [| x l [v [IH Hv]]].
  - exists "". split; [reflexivity | left; reflexivity].
  - exists ((x ++ "/") ++ v). split.
    + cbn [app String.concat]. rewrite IH.
      destruct (l ++ [name])%list eqn:E; [destruct l; discriminate |].
      rewrite !append_assoc. reflexivity.
    + apply opens_component_append; [apply opens_component_sep | exact Hv].
Qed.

(** [os.path.normpath] keeps the name of an entry at the end. *)
Lemma normpath_entry (z name : string) :
  opens_component z -> entry_name name = true ->
  exists w, Path.normpath (z ++ name) = w ++ name /\ opens_component w.
Proof.
  intros Hz Hn. destruct (@entry_name_parts name Hn) as [Ht [Hl [H0 [H1 H2]]]].
  unfold Path.normpath. rewrite (@truthy_append_r z name Ht). cbn [negb].
  rewrite (@split_append Path.sep name Hl), (@opens_component_last z Hz). cbn [append].
  set (i := if Str.startswith (z ++ name) "/"
            then if Str.startswith (z ++ name) "//" && negb (Str.startswith (z ++ name) "///")
                 then 2 else 1
            else 0).
  destruct (@norm_comps_snoc i name H0 H1 H2 (removelast (Str.split Path.sep z)) [])
    as [acc' ->].
  unfold Str.join. destruct (concat_snoc name (rev acc')) as [v [-> Hv]].
  clearbody i. destruct i as [| [| i]].
  - rewrite (@truthy_append_r v name Ht). exists v. auto.
  - change (String "/" (v ++ name)) with (("/" ++ v) ++ name).
    rewrite (@truthy_append_r ("/" ++ v) name Ht). exists ("/" ++ v).
    split; [reflexivity |].
    apply (@opens_component_append "/" v); [apply (opens_component_sep "") | exact Hv].
  - change (String "/" (String "/" (v ++ name))) with (("//" ++ v) ++ name).
    rewrite (@truthy_append_r ("//" ++ v) name Ht). exists ("//" ++ v).
    split; [reflexivity |].
    apply (@opens_component_append "//" v); [apply (opens_component_sep "/") | exact Hv].
Qed.

Lemma basename_abspath_entry (cwd fp name : string) :
  entry_name name = true ->
  Path.basename (Path.abspath cwd (Path.join fp name)) = name.
Proof.
  intro Hn. destruct (@entry_name_parts name Hn) as [Ht [Hl _]].
  destruct (@abspath_entry cwd fp name Ht Hl) as [z [-> Hz]].
  destruct (@normpath_entry z name Hz Hn) as [w [-> Hw]].
  apply basename_append; assumption.
Qed.

(** X4: an entry named .git, node_modules or __pycache__ is rejected in
    every folder, at any depth, for every working directory and whatever the
    patterns are: the basename of its absolute path is its name. *)
Theorem blacklisted_names_are_rejected_everywhere
        (cwd fp name : string) (patterns : option (list string)) :
  In name blacklist ->
  should_ignore cwd name (Path.join fp name) (or_empty patterns) blacklist = true
  /\ kept cwd fp patterns name = false.
Proof.
  intro Hin.
  assert (Hb : blacklisted cwd (Path.join fp name) = true).
  { unfold blacklisted. apply existsb_exists. exists name. split; [exact Hin |].
    rewrite basename_abspath_entry.
    - rewrite String.eqb_refl. reflexivity.
    - simpl in Hin. destruct Hin as [<- | [<- | [<- | []]]]; reflexivity. }
  unfold kept. rewrite should_ignore_blacklisted, Hb, orb_true_r. auto.
Qed.

Lemma blacklisted_names_are_rejected_everywhere_witness :
  kept "/srv/build" "web/app" None "node_modules" = false.
Proof.
  apply (@blacklisted_names_are_rejected_everywhere "/srv/build" "web/app"
           "node_modules" None).
  simpl. tauto.
Defined.

(* ------------------------------------------------------------------ *)
(** ** The filter *)

Lemma should_ignore_incl
      (cwd name path : string) (patterns patterns' blacklist0 blacklist' : list string) :
  incl patterns patterns' ->
  incl blacklist0 blacklist' ->
  should_ignore cwd name path patterns blacklist0 = true ->
  should_ignore cwd name path patterns' blacklist' = true.
Proof.
  intros Hp Hb. unfold should_ignore.
  destruct (existsb _ patterns) eqn:E.
  - intros _. apply existsb_exists in E. destruct E as [p [Hin Hm]].
    replace (existsb (fun pattern => Re.re_match pattern name || Re.re_match pattern path)
                     patterns') with true; [reflexivity |].
    symmetry. apply existsb_exists. exists p. split; [apply Hp, Hin | exact Hm].
  - intro H. apply existsb_exists in H. destruct H as [bl [Hin Hm]].
    destruct (existsb _ patterns'); [reflexivity |].
    apply existsb_exists. exists bl. split; [apply Hb, Hin | exact Hm].
Qed.

(** X5: the filter only ever grows with its lists: what is rejected under
    some patterns and blacklist stays rejected when patterns or blacklist
    entries are added. *)
Theorem should_ignore_grows_with_its_lists
        (cwd name path : string) (patterns patterns' blacklist0 blacklist' : list string) :
  incl patterns patterns' ->
  incl blacklist0 blacklist' ->
  should_ignore cwd name path patterns blacklist0 = true ->
  should_ignore cwd name path patterns' blacklist' = true.
Proof. apply should_ignore_incl. Qed.

Lemma should_ignore_grows_with_its_lists_witness :
  should_ignore "/home/u" "notes.out" "proj/notes.out" ignore_patterns blacklist = true.
Proof.
  apply (@should_ignore_grows_with_its_lists "/home/u" "notes.out" "proj/notes.out"
           [".*\.out$"] ignore_patterns [] blacklist).
  - intros p [<- | []]. simpl. tauto.
  - intros p [].
  - vm_compute. reflexivity.
Defined.

(* ------------------------------------------------------------------ *)
(** ** The line counter and newlines *)

Lemma translate_newlines_plain (s : string) :
  lacks Str.cr s = true -> translate_newlines s = s.
Proof.
  induction s as [| c s IH]; [reflexivity |]. simpl. intro H.
  apply andb_prop in H. destruct H as [Hc Hs]. apply negb_true_iff in Hc.
  rewrite Hc, (IH Hs). reflexivity.
Qed.

Lemma translate_newlines_crlf (s : string) :
  lacks Str.cr s = true -> translate_newlines (to_crlf s) = s.
Proof.
  induction s as [| c s IH]; [reflexivity |]. simpl. intro H.
  apply andb_prop in H. destruct H as [Hc Hs]. apply negb_true_iff in Hc.
  destruct (Ascii.eqb c Str.newline) eqn:E.
  - apply Ascii.eqb_eq in E. subst c. simpl. rewrite (IH Hs). reflexivity.
  - simpl. rewrite Hc, (IH Hs). reflexivity.
Qed.

Lemma to_cr_head (s : string) :
  match to_cr s with
  | String d _ => Ascii.eqb d Str.newline = false
  | EmptyString => True
  end.
Proof.
  destruct s as [| c s]; simpl; [exact I |].
  destruct (Ascii.eqb c Str.newline) eqn:E; [reflexivity | exact E].
Qed.

Lemma translate_newlines_cr (s : string) :
  lacks Str.cr s = true -> translate_newlines (to_cr s) = s.
Proof.
  induction s as [| c s IH]; [reflexivity |]. simpl. intro H.
  apply andb_prop in H. destruct H as [Hc Hs]. apply negb_true_iff in Hc.
  destruct (Ascii.eqb c Str.newline) eqn:E.
  - apply Ascii.eqb_eq in E. subst c. cbn [translate_newlines].
    rewrite Ascii.eqb_refl. pose proof (to_cr_head s) as Hd.
    rewrite <- (IH Hs) at 2.
    destruct (to_cr s) as [| d t]; [reflexivity |]. rewrite Hd. reflexivity.
  - simpl. rewrite Hc, (IH Hs). reflexivity.
Qed.

(** X6: the count does not depend on how the lines are ended on disk: a
    text stored with carriage return and line feed, or with a lone carriage
    return, for each of its line feeds is read back as the same text and
    counted as the same number of lines. *)
Theorem line_count_ignores_newline_convention
        (guess_type : string -> option string) (text path : string) :
  lacks Str.cr text = true ->
  let count raw := outcome (count_lines_or_get_type guess_type (File (Text raw)) path) in
  translate_newlines (to_crlf text) = text
  /\ translate_newlines (to_cr text) = text
  /\ count (to_crlf text) = count text
  /\ count (to_cr text) = count text
  /\ count text = Ret (inl (List.length (readlines text))).
Proof.
  intro H. cbv beta zeta. rewrite !count_lines_text. cbn [outcome snd].
  rewrite (translate_newlines_crlf text H), (translate_newlines_cr text H),
    (translate_newlines_plain text H).
  repeat split.
Qed.

Lemma line_count_ignores_newline_convention_witness :
  outcome (count_lines_or_get_type no_guess
             (File (Text (to_crlf ("a" ++ Str.nl ++ "b" ++ Str.nl)))) "f.txt")
  = Ret (inl 2).
Proof.
  rewrite (proj1 (proj2 (proj2 (@line_count_ignores_newline_convention no_guess
                                  ("a" ++ Str.nl ++ "b" ++ Str.nl) "f.txt" eq_refl)))).
  reflexivity.
Defined.

Lemma translate_newlines_empty (raw : string) :
  translate_newlines raw = "" -> raw = "".
Proof.
  destruct raw as [| c raw]; [reflexivity |]. simpl.
  destruct (Ascii.eqb c Str.cr); discriminate.
Qed.

(** X7: the count is 0 for the empty file and for no other text file; and
    whatever is at the path, the counter makes one attempt to open it and
    nothing else, and a type string it returns is never empty. *)
Theorem line_count_zero_only_for_empty_file
        (guess_type : string -> option string) (here : node) (path : string) :
  (forall raw,
      outcome (count_lines_or_get_type guess_type (File (Text raw)) path) = Ret (inl 0)
      <-> raw = "")
  /\ trace (count_lines_or_get_type guess_type here path) = [Open path]
  /\ (forall file_type,
         outcome (count_lines_or_get_type guess_type here path) = Ret (inr file_type) ->
         Str.truthy file_type = true
         /\ (guess_type path = Some file_type \/ file_type = "unknown file type")).
Proof.
  split; [| split].
  - intro raw. rewrite count_lines_text. cbn [outcome snd]. split.
    + intros [= H]. apply translate_newlines_empty, readlines_nil.
      destruct (readlines (translate_newlines raw)); [reflexivity | discriminate].
    + intros ->. reflexivity.
  - apply count_lines_trace.
  - intros ty.
    assert (G : forall r : result (nat + string), r = Ret (inr match guess_type path with
                                       | Some t => if Str.truthy t then t
                                                   else "unknown file type"
                                       | None => "unknown file type"
                                       end) ->
                          r = Ret (inr ty) ->
                          Str.truthy ty = true
                          /\ (guess_type path = Some ty \/ ty = "unknown file type")).
    { intros r -> [= <-]. destruct (guess_type path) as [t |]; [| auto].
      destruct (Str.truthy t) eqn:T; auto. }
    destruct here as [[raw | e] | l | e].
    + rewrite count_lines_text. discriminate.
    + rewrite count_lines_error. destruct (catches_decode_or_isdir e); [| discriminate].
      apply G. reflexivity.
    + apply G. unfold count_lines_or_get_type. simpl. destruct (guess_type path); reflexivity.
    + apply G. unfold count_lines_or_get_type. simpl. destruct (guess_type path); reflexivity.
Qed.

Lemma line_count_zero_only_for_empty_file_witness :
  Str.truthy "unknown file type" = true.
Proof.
  apply (proj2 (proj2 (line_count_zero_only_for_empty_file no_guess
                         (File (ReadError (Exn UnicodeDecodeError "bad"))) "b.bin"))
           "unknown file type").
  reflexivity.
Defined.

(* ------------------------------------------------------------------ *)
(** ** More on the tree renderer *)

Lemma in_combine_exists {A B} (l1 : list A) (l2 : list B) (y : B) :
  List.length l2 <= List.length l1 -> In y l2 -> exists x, In (x, y) (combine l1 l2).
Proof.
  revert l2. induction l1 as [| a l1 IH]; intros [| b l2] Hlen Hin; simpl in *;
    try lia; try tauto.
  destruct Hin as [<- | Hin]; [exists a; auto |].
  destruct (IH l2 ltac:(lia) Hin) as [x Hx]. exists x. auto.
Qed.

Lemma shown_items_zipped refuses cwd guess_type patterns show fp entries name n :
  In (name, n) entries ->
  kept cwd fp patterns name = true ->
  exists pointer,
    In (pointer, as_item refuses cwd guess_type patterns show fp (name, n))
       (combine (pointers (List.length (shown_items refuses cwd guess_type patterns show fp entries)))
                (shown_items refuses cwd guess_type patterns show fp entries)).
Proof.
  intros Hin Hk. apply in_combine_exists; [apply pointers_length |].
  apply shown_items_in. exists (name, n). auto.
Qed.

Section RendererFacts.
Variable refuses : string -> option exn.
Variable cwd : string.
Variable guess_type : string -> option string.
Variable patterns : option (list string).

Lemma display_loop_returned_all fp prefix :
  forall zipped total0 total,
    outcome (display_loop refuses guess_type fp prefix true zipped total0) = Ret total ->
    forall pointer it, In (pointer, it) zipped ->
      if isdir (item_node it)
      then exists pre k, outcome (item_rec it pre) = Ret k
      else exists r, outcome (count_lines_or_get_type guess_type (item_node it)
                                (Path.join fp (item_name it))) = Ret r.
Proof.
  induction zipped as [| [pointer0 it0] rest IH]; intros total0 total Hrun pointer it Hin;
    [destruct Hin |].
  rewrite display_loop_cons in Hrun.
  destruct (isdir (item_node it0)) eqn:D.
  - written Hrun. rewrite outcome_bind in Hrun.
    destruct (outcome (item_rec it0 _)) as [k | e] eqn:E; [| discriminate].
    destruct Hin as [[= <- <-] | Hin]; [rewrite D; eauto |].
    eapply IH; eassumption.
  - rewrite outcome_bind in Hrun.
    destruct (outcome (count_lines_or_get_type guess_type (item_node it0)
                         (Path.join fp (item_name it0)))) as [[n | ty] | e] eqn:E;
      [| | discriminate]; written Hrun;
      (destruct Hin as [[= <- <-] | Hin]; [rewrite D; eauto | eapply IH; eassumption]).
Qed.

Lemma display_countable here :
  forall fp prefix total,
    outcome (display_tree_structure refuses cwd guess_type here fp patterns prefix true)
    = Ret total ->
    renderable cwd here fp patterns = true.
Proof.
  induction here as [r | e | entries IH] using node_ind; intros fp prefix total Hrun.
  - reflexivity.
  - discriminate Hrun.
  - rewrite display_dir, outcome_emit_bind in Hrun.
    simpl. apply forallb_forall. intros [name n] Hen.
    destruct (kept cwd fp patterns name) eqn:K; [| reflexivity].
    destruct (@shown_items_zipped refuses cwd guess_type patterns true fp entries name n Hen K)
      as [pointer Hz].
    pose proof (@display_loop_returned_all fp prefix _ _ _ Hrun _ _ Hz) as Hit.
    cbn [as_item item_node item_name item_rec fst snd] in Hit.
    rewrite Forall_forall in IH. specialize (IH _ Hen). cbn [snd] in IH.
    destruct n as [[raw | e] | sub | e]; cbn [isdir] in Hit.
    + reflexivity.
    + destruct Hit as [r Hr]. rewrite count_lines_error in Hr. simpl.
      destruct (catches_decode_or_isdir e); [reflexivity | discriminate Hr].
    + destruct Hit as [pre [k Hk]]. apply (IH _ _ _ Hk).
    + destruct Hit as [pre [k Hk]]. discriminate Hk.
Qed.

End RendererFacts.

Lemma renderable_returns refuses cwd guess_type patterns here fp prefix :
  writes_all refuses ->
  renderable cwd here fp patterns = true ->
  exists total,
    outcome (display_tree_structure refuses cwd guess_type here fp patterns prefix true)
    = Ret total.
Proof.
  intro W. destruct here as [r | entries | e]; intro H.
  - eexists. reflexivity.
  - apply display_returns; [exact W | exact H].
  - discriminate H.
Qed.

(** X8: with line counts shown the renderer, called on a directory,
    returns exactly when every directory it shows can be listed and every
    file it shows opens, or fails with one of the two errors the counter
    handles; otherwise it raises.  Called on what is no directory it always
    returns.  This is for a standard output that takes what is printed; on
    any standard output, the renderer returns only if the tree is like
    that, and raises if it is not. *)
Theorem display_returns_iff_all_countable
        (refuses : string -> option exn)
        (cwd : string) (guess_type : string -> option string)
        (patterns : option (list string)) (here : node) (fp prefix : string) :
  let run := display_tree_structure refuses cwd guess_type here fp patterns prefix true in
  (writes_all refuses ->
   (renderable cwd here fp patterns = true <-> exists total, outcome run = Ret total)
   /\ (renderable cwd here fp patterns = false <-> exists e, outcome run = Raise e))
  /\ ((exists total, outcome run = Ret total) -> renderable cwd here fp patterns = true)
  /\ (renderable cwd here fp patterns = false -> exists e, outcome run = Raise e)
  /\ (isdir here = true ->
      renderable cwd here fp patterns = all_countable cwd here fp patterns).
Proof.
  cbv zeta.
  assert (Hret : (exists total,
                     outcome (display_tree_structure refuses cwd guess_type here fp patterns
                                prefix true) = Ret total) ->
                 renderable cwd here fp patterns = true).
  { intros [total H]. eapply display_countable, H. }
  assert (Hno : renderable cwd here fp patterns = false ->
                exists e, outcome (display_tree_structure refuses cwd guess_type here fp
                                     patterns prefix true) = Raise e).
  { intro Hno.
    destruct (outcome (display_tree_structure refuses cwd guess_type here fp patterns prefix true))
      as [total | e] eqn:E; [| eauto].
    rewrite Hret in Hno by eauto. discriminate Hno. }
  split; [| split; [exact Hret | split; [exact Hno |]]].
  - intro W. split; [split; [| exact Hret] | split; [exact Hno |]].
    + apply renderable_returns, W.
    + intros [e He].
      destruct (renderable cwd here fp patterns) eqn:A; [| reflexivity].
      destruct (@renderable_returns refuses cwd guess_type patterns here fp prefix W A)
        as [total Ht].
      congruence.
  - destruct here; [discriminate | reflexivity | reflexivity].
Qed.

Lemma display_returns_iff_all_countable_witness :
  exists total,
    outcome (display_tree_structure never_refuses "/home/u" no_guess sample_tree "root"
               (Some ignore_patterns) "" true) = Ret total.
Proof.
  apply (proj1 (proj1 (proj1 (display_returns_iff_all_countable never_refuses "/home/u"
                                no_guess (Some ignore_patterns) sample_tree "root" "")
                         (fun _ => eq_refl)))).
  vm_compute. reflexivity.
Defined.

(* ------------------------------------------------------------------ *)
(** *** Without line counts *)

Lemma listed_app (t1 t2 : list event) :
  listed (t1 ++ t2) = (listed t1 ++ listed t2)%list.
Proof.
  induction t1 as [| [s | p | p] t1 IH]; simpl; rewrite ?IH; reflexivity.
Qed.

Section PlainRendererFacts.
Variable refuses : string -> option exn.
Variable cwd : string.
Variable guess_type : string -> option string.
Variable patterns : option (list string).

Lemma display_loop_plain fp prefix :
  forall zipped total0,
    (forall pointer it, In (pointer, it) zipped -> isdir (item_node it) = true ->
       forall pre, opened (trace (item_rec it pre)) = []
                   /\ forall k, outcome (item_rec it pre) = Ret k -> k = 0) ->
    opened (trace (display_loop refuses guess_type fp prefix false zipped total0)) = []
    /\ forall total,
        outcome (display_loop refuses guess_type fp prefix false zipped total0) = Ret total ->
        total = total0.
Proof.
  induction zipped as [| [pointer it] rest IH]; intros total0 Hsub.
  - split; [reflexivity |]. intros total [= <-]. reflexivity.
  - assert (Hrest : forall t,
               opened (trace (display_loop refuses guess_type fp prefix false rest t)) = []
               /\ forall total,
                   outcome (display_loop refuses guess_type fp prefix false rest t) = Ret total ->
                   total = t).
    { intro t. apply IH. intros p0 i0 Hi. apply (Hsub p0 i0). right. exact Hi. }
    rewrite display_loop_cons. destruct (isdir (item_node it)) eqn:D.
    + destruct (Hsub pointer it (or_introl eq_refl) D
                  (prefix ++ (if String.eqb pointer tee then bar else blank)))
        as [Ho Hk].
      rewrite print_bind.
      destruct (refuses _); cbn [trace outcome fst snd];
        [split; [reflexivity | discriminate] |].
      rewrite trace_bind, outcome_bind.
      cbn [opened]. rewrite opened_app, Ho. cbn [app].
      destruct (outcome (item_rec it _)) as [k | e]; [| split; [reflexivity | discriminate]].
      rewrite (Hk k eq_refl), Nat.add_0_r. apply Hrest.
    + rewrite print_bind.
      destruct (refuses _); cbn [trace outcome fst snd];
        [split; [reflexivity | discriminate] |].
      cbn [opened]. apply Hrest.
Qed.

Lemma display_plain here :
  forall fp prefix,
    opened (trace (display_tree_structure refuses cwd guess_type here fp patterns prefix false)) = []
    /\ forall total,
        outcome (display_tree_structure refuses cwd guess_type here fp patterns prefix false)
        = Ret total -> total = 0.
Proof.
  induction here as [r | e | entries IH] using node_ind; intros fp prefix.
  - split; [reflexivity |]. intros total [= <-]. reflexivity.
  - split; [reflexivity | discriminate].
  - rewrite display_dir, trace_emit_bind, outcome_emit_bind. cbn [opened].
    apply display_loop_plain.
    intros pointer it Hin _ pre.
    apply in_combine_r, shown_items_in in Hin.
    destruct Hin as [[name n] [Hen [-> _]]].
    rewrite Forall_forall in IH. apply (IH _ Hen).
Qed.

Hypothesis writes : writes_all refuses.

Lemma display_loop_plain_returns fp prefix :
  forall zipped total0,
    (forall pointer it, In (pointer, it) zipped -> isdir (item_node it) = true ->
       forall pre, exists k, outcome (item_rec it pre) = Ret k) ->
    exists total, outcome (display_loop refuses guess_type fp prefix false zipped total0) = Ret total.
Proof.
  induction zipped as [| [pointer it] rest IH]; intros total0 Hsub.
  - eexists. reflexivity.
  - assert (Hrest : forall t, exists total,
               outcome (display_loop refuses guess_type fp prefix false rest t) = Ret total).
    { intro t. apply IH. intros p0 i0 Hi. apply (Hsub p0 i0). right. exact Hi. }
    rewrite display_loop_cons. destruct (isdir (item_node it)) eqn:D.
    + rewrite outcome_print_bind, outcome_bind by apply writes.
      destruct (Hsub pointer it (or_introl eq_refl) D
                  (prefix ++ (if String.eqb pointer tee then bar else blank))) as [k ->].
      apply Hrest.
    + rewrite outcome_print_bind by apply writes. apply Hrest.
Qed.

Lemma display_plain_returns here :
  forall fp prefix,
    all_listable cwd here fp patterns = true ->
    exists total,
      outcome (display_tree_structure refuses cwd guess_type here fp patterns prefix false)
      = Ret total.
Proof.
  induction here as [r | e | entries IH] using node_ind; intros fp prefix Hok.
  - eexists. reflexivity.
  - discriminate Hok.
  - rewrite display_dir, outcome_emit_bind. apply display_loop_plain_returns.
    intros pointer it Hin _ pre.
    apply in_combine_r, shown_items_in in Hin.
    destruct Hin as [[name n] [Hen [-> Hk]]]. cbn [fst] in Hk.
    simpl in Hok. rewrite forallb_forall in Hok.
    specialize (Hok _ Hen). cbn beta iota in Hok. rewrite Hk in Hok.
    rewrite Forall_forall in IH. apply (IH _ Hen). exact Hok.
Qed.

End PlainRendererFacts.

(** X9: called without line counts (the default of the parameter), the
    renderer opens no file at all and can only return 0; it returns as soon
    as every directory it shows can be listed, whatever the files are,
    standard output taking what is printed. *)
Theorem display_without_counts_opens_nothing
        (refuses : string -> option exn)
        (cwd : string) (guess_type : string -> option string)
        (patterns : option (list string)) (here : node) (fp prefix : string) :
  let run := display_tree_structure refuses cwd guess_type here fp patterns prefix false in
  opened (trace run) = []
  /\ (forall total, outcome run = Ret total -> total = 0)
  /\ (writes_all refuses ->
      all_listable cwd here fp patterns = true -> outcome run = Ret 0).
Proof.
  cbv zeta. destruct (display_plain refuses cwd guess_type patterns here fp prefix) as [Ho Ht].
  split; [exact Ho |]. split; [exact Ht |].
  intros W Hok.
  destruct (@display_plain_returns refuses cwd guess_type patterns W here fp prefix Hok)
    as [total H].
  rewrite H. f_equal. apply Ht, H.
Qed.

Lemma display_without_counts_opens_nothing_witness :
  outcome (display_tree_structure never_refuses "/home/u" no_guess
             (Dir [("locked.txt", File (ReadError (Exn PermissionError "denied")))])
             "root" (Some ignore_patterns) "" false) = Ret 0.
Proof.
  apply (proj2 (proj2 (display_without_counts_opens_nothing never_refuses "/home/u" no_guess
                         (Some ignore_patterns)
                         (Dir [("locked.txt",
                                File (ReadError (Exn PermissionError "denied")))])
                         "root" ""))).
  - intro s. reflexivity.
  - vm_compute. reflexivity.
Defined.

(* ------------------------------------------------------------------ *)
(** *** The shape of the output *)

Lemma startswith_append (p x : string) : Str.startswith (p ++ x) p = true.
Proof.
  unfold Str.startswith. induction p as [| c p IH]; [destruct x; reflexivity |].
  cbn [append String.prefix].
  destruct (ascii_dec c c) as [_ | Hne]; [exact IH | congruence].
Qed.

Lemma startswith_shorter (s a b : string) :
  Str.startswith s (a ++ b) = true -> Str.startswith s a = true.
Proof.
  unfold Str.startswith. revert s. induction a as [| c a IH]; intros s H.
  - destruct s; reflexivity.
  - destruct s as [| d s]; [discriminate H |].
    cbn [append String.prefix] in *.
    destruct (ascii_dec c d); [apply IH, H | discriminate H].
Qed.

Lemma printed_bind {A B} (c : M A) (f : A -> M B) :
  printed (trace (bind c f))
  = (printed (trace c)
     ++ match outcome c with Ret a => printed (trace (f a)) | Raise _ => [] end)%list.
Proof.
  rewrite trace_bind, printed_app. destruct (outcome c); reflexivity.
Qed.

Lemma printed_count_lines guess_type here path :
  printed (trace (count_lines_or_get_type guess_type here path)) = [].
Proof. rewrite count_lines_trace. reflexivity. Qed.

Section ShapeFacts.
Variable refuses : string -> option exn.
Variable cwd : string.
Variable guess_type : string -> option string.
Variable patterns : option (list string).
Variable show : bool.

Lemma display_loop_prefixed fp prefix :
  forall zipped total0,
    (forall pointer it, In (pointer, it) zipped -> isdir (item_node it) = true ->
       forall pre line, In line (printed (trace (item_rec it pre))) ->
                        Str.startswith line pre = true) ->
    forall line,
      In line (printed (trace (display_loop refuses guess_type fp prefix show zipped total0))) ->
      Str.startswith line prefix = true.
Proof.
  induction zipped as [| [pointer it] rest IH]; intros total0 Hsub line Hin;
    [destruct Hin |].
  assert (Hrest : forall t,
             In line (printed (trace (display_loop refuses guess_type fp prefix show rest t))) ->
             Str.startswith line prefix = true).
  { intros t Ht. apply (IH t); [| exact Ht].
    intros p0 i0 Hi. apply (Hsub p0 i0). right. exact Hi. }
  rewrite display_loop_cons in Hin. destruct (isdir (item_node it)) eqn:D.
  - apply printed_print_bind_in in Hin.
    destruct Hin as [-> | Hin]; [apply startswith_append |].
    rewrite printed_bind in Hin. apply in_app_or in Hin. destruct Hin as [Hin | Hin].
    + eapply startswith_shorter, (Hsub pointer it (or_introl eq_refl) D), Hin.
    + destruct (outcome (item_rec it _)); [eauto | destruct Hin].
  - destruct show.
    + rewrite printed_bind, printed_count_lines in Hin. cbn [app] in Hin.
      destruct (outcome (count_lines_or_get_type guess_type _ _)) as [[n | ty] | e];
        [| | destruct Hin]; apply printed_print_bind_in in Hin;
        (destruct Hin as [-> | Hin]; [apply startswith_append | eauto]).
    + apply printed_print_bind_in in Hin.
      destruct Hin as [-> | Hin]; [apply startswith_append | eauto].
Qed.

Lemma display_prefixed here :
  forall fp prefix line,
    In line (printed (trace (display_tree_structure refuses cwd guess_type here fp patterns
                               prefix show))) ->
    Str.startswith line prefix = true.
Proof.
  induction here as [r | e | entries IH] using node_ind; intros fp prefix line Hin.
  - destruct Hin.
  - destruct Hin.
  - rewrite display_dir, trace_emit_bind in Hin. cbn [printed] in Hin.
    eapply display_loop_prefixed; [| exact Hin].
    intros pointer it Hz _ pre l Hl.
    apply in_combine_r, shown_items_in in Hz.
    destruct Hz as [[name n] [Hen [-> _]]].
    rewrite Forall_forall in IH. apply (IH _ Hen _ _ _ Hl).
Qed.

Lemma display_loop_lines fp prefix :
  forall zipped total0 total,
    outcome (display_loop refuses guess_type fp prefix show zipped total0) = Ret total ->
    (forall pointer it, In (pointer, it) zipped -> isdir (item_node it) = true ->
       forall pre k, outcome (item_rec it pre) = Ret k ->
         List.length (printed (trace (item_rec it pre)))
         = shown_entries cwd (item_node it) (Path.join fp (item_name it)) patterns) ->
    List.length (printed (trace (display_loop refuses guess_type fp prefix show zipped total0)))
    = list_sum (map (fun it => S (shown_entries cwd (item_node it)
                                    (Path.join fp (item_name it)) patterns))
                    (map snd zipped)).
Proof.
  induction zipped as [| [pointer it] rest IH]; intros total0 total Hrun Hsub;
    [reflexivity |].
  assert (Hrest : forall t,
             outcome (display_loop refuses guess_type fp prefix show rest t) = Ret total ->
             List.length (printed (trace (display_loop refuses guess_type fp prefix show rest t)))
             = list_sum (map (fun it => S (shown_entries cwd (item_node it)
                                             (Path.join fp (item_name it)) patterns))
                             (map snd rest))).
  { intros t Ht. apply (IH t total Ht).
    intros p0 i0 Hi. apply (Hsub p0 i0). right. exact Hi. }
  cbn [map snd list_sum fold_right].
  fold (list_sum (map (fun it => S (shown_entries cwd (item_node it)
                                      (Path.join fp (item_name it)) patterns))
                      (map snd rest))).
  rewrite display_loop_cons in *. destruct (isdir (item_node it)) eqn:D.
  - written Hrun. rewrite outcome_bind in Hrun.
    cbn [printed List.length]. rewrite printed_bind.
    destruct (outcome (item_rec it _)) as [k | e] eqn:E; [| discriminate].
    rewrite length_app, (Hsub pointer it (or_introl eq_refl) D _ _ E), (Hrest _ Hrun).
    reflexivity.
  - assert (Z : shown_entries cwd (item_node it) (Path.join fp (item_name it)) patterns = 0)
      by (destruct (item_node it); [reflexivity | discriminate D | discriminate D]).
    rewrite Z. destruct show.
    + rewrite outcome_bind in Hrun. rewrite printed_bind, printed_count_lines. cbn [app].
      destruct (outcome (count_lines_or_get_type guess_type _ _)) as [[n | ty] | e];
        [| | discriminate]; written Hrun;
        cbn [printed List.length]; rewrite (Hrest _ Hrun);
        reflexivity.
    + written Hrun.
      cbn [printed List.length]. rewrite (Hrest _ Hrun). reflexivity.
Qed.

Lemma shown_entries_dir fp entries :
  shown_entries cwd (Dir entries) fp patterns
  = list_sum (map (fun it => S (shown_entries cwd (item_node it)
                                  (Path.join fp (item_name it)) patterns))
                  (shown_items refuses cwd guess_type patterns show fp entries)).
Proof.
  unfold shown_items.
  rewrite (Permutation_list_sum
             (Permutation_map _ (filter_perm _ (sort_by_perm item_name _)))).
  simpl shown_entries.
  induction entries as [| [name n] t IH]; [reflexivity |].
  cbn [map filter list_sum fold_right]. rewrite as_item_name. cbn [fst].
  fold (list_sum (map (fun '(name0, n0) =>
                         if kept cwd fp patterns name0
                         then S (shown_entries cwd n0 (Path.join fp name0) patterns)
                         else 0) t)).
  rewrite IH. destruct (kept cwd fp patterns name); reflexivity.
Qed.

Lemma display_lines here :
  forall fp prefix total,
    outcome (display_tree_structure refuses cwd guess_type here fp patterns prefix show)
    = Ret total ->
    List.length (printed (trace (display_tree_structure refuses cwd guess_type here fp patterns
                                   prefix show)))
    = shown_entries cwd here fp patterns.
Proof.
  induction here as [r | e | entries IH] using node_ind; intros fp prefix total Hrun.
  - reflexivity.
  - discriminate Hrun.
  - rewrite display_dir, outcome_emit_bind in Hrun.
    rewrite display_dir, trace_emit_bind. cbn [printed].
    rewrite (@display_loop_lines fp prefix _ _ _ Hrun).
    + rewrite map_snd_combine by apply pointers_length.
      symmetry. apply shown_entries_dir.
    + intros pointer it Hz _ pre k Hk.
      apply in_combine_r, shown_items_in in Hz.
      destruct Hz as [[name n] [Hen [-> _]]].
      rewrite Forall_forall in IH. apply (IH _ Hen _ _ _ Hk).
Qed.

End ShapeFacts.

(** X10: every line the renderer prints begins with the prefix it was
    called with, so the lines of a subdirectory are indented under their
    directory and the top call (empty prefix) is not indented. *)
Theorem display_lines_begin_with_prefix
        (refuses : string -> option exn)
        (cwd : string) (guess_type : string -> option string)
        (patterns : option (list string)) (show : bool)
        (here : node) (fp prefix line : string) :
  In line (printed (trace (display_tree_structure refuses cwd guess_type here fp patterns
                             prefix show))) ->
  Str.startswith line prefix = true.
Proof. apply display_prefixed. Qed.

Lemma display_lines_begin_with_prefix_witness :
  Str.startswith (bar ++ corner ++ "m.py (2 lines)") bar = true.
Proof.
  apply (@display_lines_begin_with_prefix never_refuses "/home/u" no_guess
           (Some ignore_patterns) true
           (Dir [("m.py", File (Text ("p" ++ Str.nl ++ "q")))]) "root/src" bar).
  vm_compute. tauto.
Defined.

(** X11: when the renderer returns it has printed exactly one line for
    every entry, file or directory, that the filter keeps and that lies below
    no filtered directory, with or without line counts. *)
Theorem display_prints_one_line_per_kept_entry
        (refuses : string -> option exn)
        (cwd : string) (guess_type : string -> option string)
        (patterns : option (list string)) (show : bool)
        (here : node) (fp prefix : string) (total : nat) :
  outcome (display_tree_structure refuses cwd guess_type here fp patterns prefix show)
  = Ret total ->
  List.length (printed (trace (display_tree_structure refuses cwd guess_type here fp patterns
                                 prefix show)))
  = shown_entries cwd here fp patterns.
Proof. apply display_lines. Qed.

Lemma display_prints_one_line_per_kept_entry_witness :
  shown_entries "/home/u" sample_tree "root" (Some ignore_patterns) = 5.
Proof.
  rewrite <- (@display_prints_one_line_per_kept_entry never_refuses "/home/u" no_guess
                (Some ignore_patterns) true sample_tree "root" "" 5);
    vm_compute; reflexivity.
Defined.

(* ------------------------------------------------------------------ *)
(** *** The order of the entries and the connectors *)

Lemma StronglySorted_filter {A} (R : A -> A -> Prop) (f : A -> bool) (l : list A) :
  StronglySorted R l -> StronglySorted R (filter f l).
Proof.
  induction 1 as [| x l Hs IH Hall]; simpl; [constructor |].
  destruct (f x); [| exact IH]. constructor; [exact IH |].
  apply Forall_forall. intros y Hy. apply filter_In in Hy.
  rewrite Forall_forall in Hall. apply Hall. tauto.
Qed.

Lemma map_filter_key {A B} (g : A -> B) (f : B -> bool) (l : list A) :
  map g (filter (fun a => f (g a)) l) = filter f (map g l).
Proof.
  induction l as [| x l IH]; simpl; [reflexivity |].
  destruct (f (g x)); simpl; rewrite IH; reflexivity.
Qed.

(** X12: the entries of a directory go through the loop in ascending order
    of their names (compared character by character), and they are exactly
    the names of the listing that the filter keeps, each as often as listed. *)
Theorem display_goes_through_kept_names_in_order
        (refuses : string -> option exn)
        (cwd : string) (guess_type : string -> option string)
        (patterns : option (list string)) (show : bool)
        (entries : list (string * node)) (fp prefix : string) :
  let items := shown_items refuses cwd guess_type patterns show fp entries in
  display_tree_structure refuses cwd guess_type (Dir entries) fp patterns prefix show
  = (emit (Listdir fp) ;;
     display_loop refuses guess_type fp prefix show
       (combine (pointers (List.length items)) items) 0)
  /\ StronglySorted (fun a b => String.leb (item_name a) (item_name b) = true) items
  /\ Permutation (map item_name items)
                 (filter (kept cwd fp patterns) (map fst entries)).
Proof.
  cbv zeta. split; [apply display_dir |]. split.
  - unfold shown_items. apply StronglySorted_filter.
    apply (sort_by_sorted item_name).
  - unfold shown_items.
    rewrite (map_filter_key item_name (kept cwd fp patterns)).
    apply filter_perm.
    rewrite (Permutation_map item_name (sort_by_perm item_name _)), map_map.
    erewrite map_ext; [reflexivity |]. intro en. apply as_item_name.
Qed.

Lemma pointers_succ (n : nat) : pointers (S (S n)) = tee :: pointers (S n).
Proof. unfold pointers. simpl. rewrite Nat.sub_0_r. reflexivity. Qed.

(** X13: in the pairing of connectors and entries the last entry, and only
    it, gets the corner, every entry before it gets the tee (so the
    subdirectories before the last are continued with a bar, the last one
    with blanks); an empty directory pairs nothing. *)
Theorem pointers_mark_the_last_entry {A : Type} (items : list A) (d : A) :
  items <> [] ->
  combine (pointers (List.length items)) items
  = (map (fun it => (tee, it)) (removelast items) ++ [(corner, last items d)])%list
  /\ String.eqb corner tee = false
  /\ combine (pointers 0) (@nil A) = [].
Proof.
  intro Hne. split; [| split; reflexivity].
  induction items as [| x items IH]; [congruence |].
  destruct items as [| y items]; [reflexivity |].
  change (List.length (x :: y :: items)) with (S (S (List.length items))).
  rewrite pointers_succ.
  change (combine (tee :: pointers (S (List.length items))) (x :: y :: items))
    with ((tee, x) :: combine (pointers (List.length (y :: items))) (y :: items)).
  rewrite IH by discriminate. reflexivity.
Qed.

Lemma pointers_mark_the_last_entry_witness :
  combine (pointers 3) ["a"; "b"; "c"] = [(tee, "a"); (tee, "b"); (corner, "c")].
Proof.
  destruct (@pointers_mark_the_last_entry string ["a"; "b"; "c"] "") as [H _];
    [discriminate | exact H].
Defined.

(* ------------------------------------------------------------------ *)
(** *** Totals under more patterns *)

Section TotalsFacts.
Variable cwd : string.
Variable guess_type : string -> option string.

Lemma sum_of_counts_cons name n t fp patterns :
  sum_of_counts cwd guess_type (Dir ((name, n) :: t)) fp patterns
  = (if kept cwd fp patterns name
     then if isdir n
          then sum_of_counts cwd guess_type n (Path.join fp name) patterns
          else int_count guess_type (Path.join fp name, n)
     else 0)
    + sum_of_counts cwd guess_type (Dir t) fp patterns.
Proof.
  unfold sum_of_counts. cbn [shown_files flat_map].
  rewrite map_app, list_sum_app. f_equal.
  destruct (kept cwd fp patterns name); [| reflexivity].
  destruct (isdir n); [reflexivity | simpl; lia].
Qed.

Lemma kept_under_more patterns patterns' fp name :
  incl (or_empty patterns) (or_empty patterns') ->
  kept cwd fp patterns' name = true -> kept cwd fp patterns name = true.
Proof.
  intros Hincl. unfold kept. rewrite !negb_true_iff. intro H.
  destruct (should_ignore cwd name (Path.join fp name) (or_empty patterns) blacklist)
    eqn:E; [| reflexivity].
  rewrite (@should_ignore_incl cwd name (Path.join fp name)
             (or_empty patterns) (or_empty patterns') blacklist blacklist
             Hincl (incl_refl _) E) in H.
  discriminate.
Qed.

Lemma sum_of_counts_shrinks patterns patterns' :
  incl (or_empty patterns) (or_empty patterns') ->
  forall here fp,
    sum_of_counts cwd guess_type here fp patterns'
    <= sum_of_counts cwd guess_type here fp patterns.
Proof.
  intro Hincl. induction here as [r | e | entries IH] using node_ind; intro fp;
    [reflexivity | reflexivity |].
  induction entries as [| [name n] t IHt]; [reflexivity |].
  inversion IH as [| ? ? Hn Ht]; subst. cbn [snd] in Hn.
  rewrite !sum_of_counts_cons. specialize (IHt Ht).
  destruct (kept cwd fp patterns' name) eqn:K'.
  - rewrite (kept_under_more patterns patterns' fp name Hincl K').
    destruct (isdir n); [specialize (Hn (Path.join fp name)) |]; lia.
  - lia.
Qed.

End TotalsFacts.

(** X14: more patterns can only lower the total: when the renderer returns
    both under a pattern list and under a part of it (in particular under no
    patterns, as for --structure-all), the total for the longer list is at
    most the other one. *)
Theorem display_total_shrinks_with_patterns
        (refuses : string -> option exn)
        (cwd : string) (guess_type : string -> option string)
        (patterns patterns' : option (list string))
        (here : node) (fp prefix : string) (total total' : nat) :
  incl (or_empty patterns) (or_empty patterns') ->
  outcome (display_tree_structure refuses cwd guess_type here fp patterns prefix true)
  = Ret total ->
  outcome (display_tree_structure refuses cwd guess_type here fp patterns' prefix true)
  = Ret total' ->
  total' <= total.
Proof.
  intros Hincl H H'.
  rewrite (@display_total refuses cwd guess_type patterns here fp prefix total H),
    (@display_total refuses cwd guess_type patterns' here fp prefix total' H').
  apply sum_of_counts_shrinks, Hincl.
Qed.

Lemma display_total_shrinks_with_patterns_witness : 2 <= 5.
Proof.
  apply (@display_total_shrinks_with_patterns never_refuses "/home/u" no_guess None
           (Some [".*\.txt$"; ".*\.py$"])
           (Dir [("a.txt", File (Text ("x" ++ Str.nl ++ "y" ++ Str.nl)));
                 ("m.c", File (Text ("p" ++ Str.nl ++ "q")));
                 ("n.py", File (Text "r"))]) "root" "" 5 2).
  - intros p [].
  - vm_compute. reflexivity.
  - vm_compute. reflexivity.
Defined.

(* ------------------------------------------------------------------ *)
(** ** The tree and the dump side by side *)


Section CoverFacts.
Variable refuses : string -> option exn.
Variable islink : string -> bool.
Variable cwd : string.
Variable guess_type : string -> option string.
Variable patterns : option (list string).








End CoverFacts.



(* ------------------------------------------------------------------ *)
(** ** Symbolic links *)

Lemma dump_lists_no_link refuses islink cwd patterns here :
  forall root q,
    In (Listdir q) (trace (print_file_contents refuses islink cwd here root patterns)) ->
    q = root \/ islink q = false.
Proof.
  induction here as [r | e | entries IH] using node_ind; intros root q Hin.
  - rewrite print_file_contents_file in Hin. destruct Hin as [[= <-] | []]. auto.
  - destruct Hin as [[= <-] | []]. auto.
  - apply print_file_contents_trace_in in Hin.
    destruct Hin as [[= <-] | [[name [n [_ [_ [_ Hin]]]]] | [name [n [Hen [_ [_ [L Hin]]]]]]]].
    + auto.
    + apply dump_file_trace_in in Hin. destruct Hin as [[=] | [s [=]]].
    + rewrite Forall_forall in IH.
      destruct (IH _ Hen (Path.join root name) q Hin) as [-> | H]; auto.
Qed.

Section LinkFacts.
Variable refuses : string -> option exn.
Variable islink : string -> bool.
Variable cwd : string.
Variable patterns : option (list string).

Lemma without_links_isdir n p : isdir (without_linked_dirs islink n p) = isdir n.
Proof. destruct n; reflexivity. Qed.

Lemma without_links_file n p : isdir n = false -> without_linked_dirs islink n p = n.
Proof. destruct n; [reflexivity | discriminate | reflexivity]. Qed.

Lemma dump_without_links here :
  forall root,
    print_file_contents refuses islink cwd here root patterns
    = print_file_contents refuses no_links cwd (without_linked_dirs islink here root) root
        patterns.
Proof.
  induction here as [r | e | entries IH] using node_ind; intro root;
    [reflexivity | reflexivity |].
  cbn [without_linked_dirs]. rewrite !print_file_contents_dir. f_equal.
  assert (Hfiles :
            for_each (walked_files refuses islink cwd patterns root entries)
                     (dump_body refuses cwd patterns root)
            = for_each (walked_files refuses no_links cwd patterns root
                          (flat_map (fun '(name, n) =>
                                       if isdir n && islink (Path.join root name)
                                       then []
                                       else [(name, without_linked_dirs islink n
                                                      (Path.join root name))])
                                    entries))
                       (dump_body refuses cwd patterns root)).
  { unfold walked_files. clear IH.
    induction entries as [| [name n] t IHt]; [reflexivity |].
    cbn [map filter flat_map as_walked fst snd].
    destruct (isdir n) eqn:D; cbn [negb andb].
    - destruct (islink (Path.join root name)); cbn [app map filter as_walked fst snd];
        rewrite ?without_links_isdir, ?D; exact IHt.
    - cbn [app map filter as_walked fst snd]. rewrite without_links_isdir, D. cbn [negb].
      rewrite !for_each_cons, IHt. f_equal.
      unfold dump_body. cbn [fst snd]. rewrite without_links_file by exact D. reflexivity. }
  assert (Hdirs :
            for_each (entered_dirs refuses islink cwd patterns root entries) (fun w => snd w)
            = for_each (entered_dirs refuses no_links cwd patterns root
                          (flat_map (fun '(name, n) =>
                                       if isdir n && islink (Path.join root name)
                                       then []
                                       else [(name, without_linked_dirs islink n
                                                      (Path.join root name))])
                                    entries))
                       (fun w => snd w)).
  { unfold entered_dirs, walked_dirs. clear Hfiles.
    induction entries as [| [name n] t IHt]; [reflexivity |].
    inversion IH as [| ? ? Hn Ht]; subst. cbn [snd] in Hn.
    cbn [map filter flat_map as_walked fst snd].
    destruct (isdir n) eqn:D; cbn [negb andb filter fst snd].
    - destruct (kept cwd root patterns name) eqn:K; cbn [filter fst snd];
        destruct (islink (Path.join root name)) eqn:L;
        cbn [negb app map filter as_walked fst snd];
        rewrite ?without_links_isdir, ?D; cbn [filter fst snd]; rewrite ?K;
        cbn [filter fst snd no_links negb]; try exact (IHt Ht).
      rewrite !for_each_cons, (IHt Ht). cbn [snd]. f_equal. apply Hn.
    - cbn [app map filter as_walked fst snd]. rewrite without_links_isdir, D.
      exact (IHt Ht). }
  rewrite Hfiles, Hdirs. reflexivity.
Qed.

End LinkFacts.

(** X21: the dump stays out of the directories that are symbolic links:
    apart from the root it was called on, it lists no path that is a link,
    and all it does is what it would do on the tree without the linked
    directories. *)
Theorem dump_stays_out_of_linked_directories
        (refuses : string -> option exn) (islink : string -> bool)
        (cwd : string) (patterns : option (list string)) (here : node) (root : string) :
  let dumped := print_file_contents refuses islink cwd here root patterns in
  (forall q, In (Listdir q) (trace dumped) -> q = root \/ islink q = false)
  /\ dumped = print_file_contents refuses no_links cwd
                (without_linked_dirs islink here root) root patterns.
Proof.
  cbv zeta. split; [apply dump_lists_no_link | apply dump_without_links].
Qed.

Lemma dump_stays_out_of_linked_directories_witness :
  ~ In (Listdir "root/src")
       (trace (print_file_contents never_refuses src_is_link "/home/u" sample_tree "root"
                 (Some ignore_patterns))).
Proof.
  intro H.
  destruct (proj1 (dump_stays_out_of_linked_directories never_refuses src_is_link "/home/u"
                     (Some ignore_patterns) sample_tree "root") "root/src" H)
    as [E | E]; discriminate E.
Defined.


(* ------------------------------------------------------------------ *)
(** ** A folder the patterns swallow *)

Lemma startswith_longer (s p x : string) :
  Str.startswith s p = true -> Str.startswith (s ++ x) p = true.
Proof.
  unfold Str.startswith. revert s. induction p as [| c p IH]; intros s H.
  - destruct (s ++ x); reflexivity.
  - destruct s as [| d s]; [discriminate H |].
    cbn [append String.prefix] in *.
    destruct (ascii_dec c d); [apply IH, H | discriminate H].
Qed.

Lemma startswith_join (fp name p : string) :
  Str.startswith fp p = true ->
  Str.startswith name "/" = false ->
  Str.startswith (Path.join fp name) p = true.
Proof.
  intros Hp Hn. unfold Path.join. rewrite Hn.
  destruct (negb (Str.truthy fp) || Str.endswith fp "/"); apply startswith_longer, Hp.
Qed.

Lemma filter_nothing {A} (f : A -> bool) (l : list A) :
  (forall x, In x l -> f x = false) -> filter f l = [].
Proof.
  induction l as [| x l IH]; intro H; [reflexivity |]. simpl.
  rewrite (H x (or_introl eq_refl)). apply IH. intros y Hy. apply H. right. exact Hy.
Qed.

Lemma for_each_nothing {A} (l : list A) (body : A -> M unit) :
  (forall x, In x l -> body x = ret tt) -> for_each l body = ret tt.
Proof.
  induction l as [| x l IH]; intro H; [reflexivity |].
  rewrite for_each_cons, (H x (or_introl eq_refl)), bind_ret_l.
  apply IH. intros y Hy. apply H. right. exact Hy.
Qed.

(** X16: called on a folder whose path as given begins with ".terrafor",
    the script shows nothing: the path of every entry begins so too and
    matches the last pattern, so the renderer prints no entry and returns 0
    and the dump opens no file, whatever the folder holds. *)
Theorem terraform_folder_shows_nothing
        (refuses : string -> option exn) (islink : string -> bool)
        (cwd : string) (guess_type : string -> option string)
        (entries : list (string * node)) (fp prefix : string) (show : bool) :
  Str.startswith fp ".terrafor" = true ->
  (forall name n, In (name, n) entries -> Str.startswith name "/" = false) ->
  display_tree_structure refuses cwd guess_type (Dir entries) fp (Some ignore_patterns) prefix show
  = ([Listdir fp], Ret 0)
  /\ print_file_contents refuses islink cwd (Dir entries) fp (Some ignore_patterns)
     = ([Listdir fp], Ret tt).
Proof.
  intros Hfp Hnames.
  assert (K : forall name n, In (name, n) entries ->
                             kept cwd fp (Some ignore_patterns) name = false).
  { intros name n Hin. unfold kept. apply negb_false_iff.
    apply terrafor_prefix_ignored.
    right. apply startswith_join; [exact Hfp | eapply Hnames, Hin]. }
  split.
  - assert (S : shown_items refuses cwd guess_type (Some ignore_patterns) show fp entries = []).
    { unfold shown_items. apply filter_nothing. intros it Hit.
      apply sort_by_in, in_map_iff in Hit.
      destruct Hit as [[name n] [<- Hin]]. apply (K name n Hin). }
    rewrite display_dir, S. reflexivity.
  - rewrite print_file_contents_dir.
    assert (D : entered_dirs refuses islink cwd (Some ignore_patterns) fp entries = []).
    { unfold entered_dirs.
      replace (walked_dirs refuses islink cwd (Some ignore_patterns) fp entries)
        with (@nil walked); [reflexivity |].
      symmetry. unfold walked_dirs. apply filter_nothing. intros w Hw.
      apply filter_In in Hw. destruct Hw as [Hw _]. apply in_map_iff in Hw.
      destruct Hw as [[name n] [<- Hin]]. apply (K name n Hin). }
    rewrite D, for_each_nothing; [reflexivity |].
    intros w Hw.
    unfold walked_files in Hw. apply filter_In in Hw. destruct Hw as [Hw _].
    apply in_map_iff in Hw. destruct Hw as [[name n] [<- Hin]].
    rewrite dump_body_runs. cbn [as_walked fst snd].
    rewrite (K name n Hin). reflexivity.
Qed.

Lemma terraform_folder_shows_nothing_witness :
  display_tree_structure never_refuses "/home/u" no_guess
    (Dir [("main.tf", File (Text "x")); ("modules", Dir [("vpc.tf", File (Text "y"))])])
    ".terraform-live" (Some ignore_patterns) "" true
  = ([Listdir ".terraform-live"], Ret 0).
Proof.
  apply (@terraform_folder_shows_nothing never_refuses no_links "/home/u" no_guess
           [("main.tf", File (Text "x")); ("modules", Dir [("vpc.tf", File (Text "y"))])]
           ".terraform-live" "" true).
  - reflexivity.
  - intros name n [[= <- _] | [[= <- _] | []]]; reflexivity.
Defined.

(* ------------------------------------------------------------------ *)
(** ** More on the entry point *)

(** X19: with --structure alone, on a folder in which every shown
    directory lists and every shown file opens (or fails to decode), and
    with a standard output that takes what is printed, the script ends
    normally; it prints the heading, then the tree, and last the line
    "Total lines in readable files: N" where N is the sum of the counts of
    the shown files. *)
Theorem structure_mode_ends_with_the_total
        (refuses : string -> option exn) (islink : string -> bool)
        (cwd : string) (guess_type : string -> option string) (help_text : string)
        (fs : string -> node) (c : ascii) (p : string) :
  let path := String c p in
  let run := main refuses islink cwd guess_type help_text fs (Args (Some path) true false false) in
  writes_all refuses ->
  renderable cwd (fs path) path (Some ignore_patterns) = true ->
  snd run = Completed
  /\ fst run
     = (Print ("Directory structure (subject to ignore_patterns):" ++ Str.nl)
        :: trace (display_tree_structure refuses cwd guess_type (fs path) path
                    (Some ignore_patterns) "" true)
        ++ [Print (Str.nl ++ "Total lines in readable files: "
                   ++ Str.of_nat (sum_of_counts cwd guess_type (fs path) path
                                    (Some ignore_patterns)))])%list.
Proof.
  cbv zeta. intros W Hok.
  destruct (@renderable_returns refuses cwd guess_type (Some ignore_patterns)
              (fs (String c p)) (String c p) "" W Hok) as [total Ht].
  pose proof (@display_total refuses cwd guess_type (Some ignore_patterns)
                (fs (String c p)) (String c p) "" total Ht) as Hsum.
  unfold main. cbn [help_only folder_path structure structure_all andb].
  unfold tree_with_total.
  rewrite print_bind, W.
  rewrite (M_eta (display_tree_structure refuses cwd guess_type (fs (String c p)) (String c p)
                    (Some ignore_patterns) "" true)), Ht, <- Hsum.
  cbn [bind trace outcome fst snd]. rewrite print_alone, W.
  split; reflexivity.
Qed.

Lemma structure_mode_ends_with_the_total_witness :
  snd (main never_refuses no_links "/home/u" no_guess "usage" (fun _ => sample_tree)
         (Args (Some "root") true false false)) = Completed.
Proof.
  apply (@structure_mode_ends_with_the_total never_refuses no_links "/home/u" no_guess
           "usage" (fun _ => sample_tree) "r" "oot").
  - intro s. reflexivity.
  - vm_compute. reflexivity.
Defined.

(* ------------------------------------------------------------------ *)
(** ** The blacklist as a test on the beginning of the absolute path *)

Lemma split_app_sep (c : ascii) (x rest : string) :
  lacks c x = true -> Str.split c (x ++ String c rest) = x :: Str.split c rest.
Proof.
  induction x as [| a x IH]; intro H.
  - simpl. rewrite Ascii.eqb_refl. reflexivity.
  - simpl in H. apply andb_prop in H. destruct H as [Ha Hx]. apply negb_true_iff in Ha.
    cbn [append Str.split]. rewrite Ha, (IH Hx). reflexivity.
Qed.

Lemma concat_cons2 (x y : string) (t : list string) :
  String.concat "/" (x :: y :: t) = x ++ String "/" (String.concat "/" (y :: t)).
Proof. reflexivity. Qed.

(** Splitting what [join] made gives the components back. *)
Lemma split_concat (l : list string) :
  l <> [] -> Forall (fun x => lacks Path.sep x = true) l ->
  Str.split Path.sep (String.concat "/" l) = l.
Proof.
  unfold Path.sep. intros Hne Hall.
  induction Hall as [| x l Hx Hall IH]; [congruence |].
  destruct l as [| y t].
  - simpl. pose proof (split_shape "/"%char x) as H. rewrite Hx in H. exact H.
  - rewrite concat_cons2, (@split_app_sep "/"%char x (String.concat "/" (y :: t)) Hx),
      IH by discriminate.
    reflexivity.
Qed.

Lemma concat_snoc2 (l : list string) (x : string) :
  l <> [] -> String.concat "/" (l ++ [x]) = String.concat "/" l ++ "/" ++ x.
Proof.
  induction l as [| a l IH]; [congruence |]. intros _.
  destruct l as [| b l]; [reflexivity |].
  change ((a :: b :: l) ++ [x])%list with (a :: b :: (l ++ [x]))%list.
  rewrite !concat_cons2.
  change (b :: (l ++ [x]))%list with ((b :: l) ++ [x])%list.
  rewrite IH by discriminate. rewrite !append_assoc. reflexivity.
Qed.

Lemma norm_comps_clean (i : nat) (l : list string) :
  Forall (fun c => entry_name c = true \/ c = ".") l ->
  forall acc,
    Path.norm_comps i l acc
    = (rev acc ++ filter (fun c => negb (String.eqb c ".")) l)%list.
Proof.
  induction 1 as [| c l Hc Hall IH]; intro acc.
  - simpl. rewrite app_nil_r. reflexivity.
  - cbn [Path.norm_comps filter]. destruct Hc as [Hc | ->].
    + destruct (@entry_name_parts c Hc) as [_ [_ [H0 [H1 H2]]]].
      apply String.eqb_neq in H0, H1, H2. rewrite H0, H1, H2. cbn [orb negb].
      rewrite IH. cbn [rev]. rewrite <- app_assoc. reflexivity.
    + cbn [String.eqb Ascii.eqb Bool.eqb orb negb andb]. simpl. apply IH.
Qed.

Lemma filter_entry_names (l : list string) :
  Forall (fun c => entry_name c = true) l ->
  filter (fun c => negb (String.eqb c ".")) l = l.
Proof.
  induction 1 as [| c l Hc Hall IH]; [reflexivity |]. simpl.
  destruct (@entry_name_parts c Hc) as [_ [_ [_ [H1 _]]]].
  apply String.eqb_neq in H1. rewrite H1, IH. reflexivity.
Qed.

Lemma lacks_sep_component (c : string) :
  entry_name c = true \/ c = "." -> Str.truthy c = true /\ lacks Path.sep c = true.
Proof.
  intros [H | ->]; [| split; reflexivity].
  destruct (@entry_name_parts c H) as [Ht [Hl _]]. auto.
Qed.

Lemma concat_head (l : list string) :
  l <> [] -> Forall (fun c => entry_name c = true \/ c = ".") l ->
  Str.startswith (String.concat "/" l) "/" = false.
Proof.
  intros Hne Hall. destruct Hall as [| c l Hc Hall]; [congruence |].
  destruct (@lacks_sep_component c Hc) as [Ht Hl].
  destruct c as [| a c]; [discriminate Ht |].
  simpl in Hl. apply andb_prop in Hl. destruct Hl as [Ha _]. apply negb_true_iff in Ha.
  assert (E : exists rest, String.concat "/" (String a c :: l) = String a rest).
  { destruct l; simpl; eauto. }
  destruct E as [rest ->]. unfold Str.startswith.
  change (String.prefix "/" (String a rest))
    with (if ascii_dec "/"%char a then String.prefix "" rest else false).
  destruct (ascii_dec "/"%char a) as [<- | _]; [discriminate Ha | reflexivity].
Qed.

(** [os.path.normpath] on an absolute path made of entry names and dots. *)
Lemma normpath_clean (l : list string) :
  l <> [] -> Forall (fun c => entry_name c = true \/ c = ".") l ->
  Path.normpath ("/" ++ String.concat "/" l)
  = "/" ++ String.concat "/" (filter (fun c => negb (String.eqb c ".")) l).
Proof.
  intros Hne Hall. unfold Path.normpath.
  change (Str.truthy ("/" ++ String.concat "/" l)) with true. cbn [negb].
  assert (S1 : Str.startswith ("/" ++ String.concat "/" l) "/" = true).
  { unfold Str.startswith.
    change (String.prefix "/" ("/" ++ String.concat "/" l))
      with (String.prefix "" (String.concat "/" l)).
    destruct (String.concat "/" l); reflexivity. }
  rewrite S1.
  assert (S2 : Str.startswith ("/" ++ String.concat "/" l) "//" = false).
  { pose proof (@concat_head l Hne Hall) as H. unfold Str.startswith in *.
    change (String.prefix "//" ("/" ++ String.concat "/" l))
      with (String.prefix "/" (String.concat "/" l)).
    exact H. }
  rewrite S2. cbn [andb].
  change (Str.split Path.sep ("/" ++ String.concat "/" l))
    with ("" :: Str.split Path.sep (String.concat "/" l)).
  rewrite split_concat; [| exact Hne |].
  - cbn [Path.norm_comps String.eqb orb]. rewrite (@norm_comps_clean 1 l Hall).
    cbn [rev app]. unfold Str.join. reflexivity.
  - eapply Forall_impl; [| exact Hall]. intros c Hc. apply (@lacks_sep_component c Hc).
Qed.

Lemma not_endswith_sep (l : list string) :
  l <> [] -> Forall (fun c => entry_name c = true) l ->
  Str.endswith ("/" ++ String.concat "/" l) "/" = false.
Proof.
  intros Hne Hall.
  destruct (Str.endswith ("/" ++ String.concat "/" l) "/") eqn:E; [| reflexivity].
  exfalso. apply endswith_sep in E. destruct E as [a0 Ha0].
  assert (L : last (Str.split Path.sep ("/" ++ String.concat "/" l)) "" = "")
    by (rewrite Ha0; apply last_split_sep).
  change (Str.split Path.sep ("/" ++ String.concat "/" l))
    with ("" :: Str.split Path.sep (String.concat "/" l)) in L.
  rewrite split_concat in L; [| exact Hne |].
  - assert (In (last ("" :: l) "") l).
    { destruct l as [| x l]; [congruence |].
      change (last ("" :: x :: l) "") with (last (x :: l) "").
      clear. revert x. induction l as [| y l IH]; intro x; [left; reflexivity |].
      right. apply (IH y). }
    rewrite L in H. rewrite Forall_forall in Hall. specialize (Hall _ H). discriminate Hall.
  - eapply Forall_impl; [| exact Hall]. intros c Hc.
    destruct (@entry_name_parts c Hc) as [_ [Hl _]]. exact Hl.
Qed.

Lemma startswith_cancel (a b c : string) :
  Str.startswith (a ++ b) (a ++ c) = Str.startswith b c.
Proof.
  unfold Str.startswith. induction a as [| x a IH]; [reflexivity |].
  cbn [append String.prefix].
  destruct (ascii_dec x x) as [_ | Hne]; [exact IH | congruence].
Qed.

Section TopLevel.
Variable comps : list string.
Hypothesis comps_nonempty : comps <> [].
Hypothesis comps_names : Forall (fun c => entry_name c = true) comps.

Lemma abspath_under_cwd (rel : list string) (path : string) :
  rel <> [] -> Forall (fun c => entry_name c = true \/ c = ".") rel ->
  path = String.concat "/" rel ->
  Path.abspath ("/" ++ Str.join "/" comps) path
  = "/" ++ String.concat "/" (comps ++ filter (fun c => negb (String.eqb c ".")) rel).
Proof.
  intros Hne Hall ->. unfold Path.abspath, Str.join.
  rewrite (@concat_head rel Hne Hall). unfold Path.join. rewrite (@concat_head rel Hne Hall).
  change (Str.truthy ("/" ++ String.concat "/" comps)) with true.
  rewrite (@not_endswith_sep comps comps_nonempty comps_names). cbn [negb orb].
  assert (E : ("/" ++ String.concat "/" comps) ++ "/" ++ String.concat "/" rel
              = "/" ++ String.concat "/" (comps ++ rel)).
  { clear Hall. rewrite append_assoc. f_equal.
    induction comps as [| a l IH]; [congruence |].
    destruct l as [| b l].
    - destruct rel; [congruence | reflexivity].
    - change ((a :: b :: l) ++ rel)%list with (a :: b :: (l ++ rel))%list.
      rewrite !concat_cons2.
      change (b :: (l ++ rel))%list with ((b :: l) ++ rel)%list.
      rewrite <- IH; [| discriminate | ].
      + rewrite !append_assoc. reflexivity.
      + inversion comps_names; assumption. }
  rewrite E, normpath_clean.
  - rewrite filter_app, (@filter_entry_names comps comps_names). reflexivity.
  - destruct comps; [congruence | discriminate].
  - apply Forall_app. split; [| exact Hall].
    eapply Forall_impl; [| exact comps_names]. intros c Hc. left. exact Hc.
Qed.

End TopLevel.

(** X20: the blacklist is also a test on the beginning of the absolute
    path, with the blacklisted name taken below the working directory: run on
    "." from a working directory, the script rejects every top-level entry
    whose name merely begins with .git, node_modules or __pycache__ (a
    .github folder, say), under every pattern list. *)
Theorem blacklist_hides_top_level_lookalikes
        (comps : list string) (name bl : string) (patterns : option (list string)) :
  comps <> [] ->
  Forall (fun c => entry_name c = true) comps ->
  entry_name name = true ->
  In bl blacklist ->
  Str.startswith name bl = true ->
  let cwd := "/" ++ Str.join "/" comps in
  should_ignore cwd name (Path.join "." name) (or_empty patterns) blacklist = true
  /\ kept cwd "." patterns name = false.
Proof.
  intros Hne Hall Hname Hbl Hstart. cbv zeta.
  assert (Hbln : entry_name bl = true).
  { simpl in Hbl. destruct Hbl as [<- | [<- | [<- | []]]]; reflexivity. }
  destruct (@entry_name_parts name Hname) as [Ht [Hl [H0 [H1 H2]]]].
  assert (Hjoin : Path.join "." name = String.concat "/" ["."; name]).
  { unfold Path.join. rewrite (@not_absolute name Ht Hl). reflexivity. }
  assert (Hb : blacklisted ("/" ++ Str.join "/" comps) (Path.join "." name) = true).
  { unfold blacklisted. apply existsb_exists. exists bl. split; [exact Hbl |].
    apply orb_true_iff. right.
    rewrite (@abspath_under_cwd comps Hne Hall ["."; name] (Path.join "." name));
      [| discriminate
       | constructor; [right; reflexivity | constructor; [left; exact Hname | constructor]]
       | exact Hjoin].
    rewrite (@abspath_under_cwd comps Hne Hall [bl] bl);
      [| discriminate
       | constructor; [left; exact Hbln | constructor]
       | reflexivity].
    cbn [filter String.eqb Ascii.eqb Bool.eqb negb andb]. simpl filter.
    apply String.eqb_neq in H1. rewrite H1.
    destruct (@entry_name_parts bl Hbln) as [_ [_ [_ [B1 _]]]].
    apply String.eqb_neq in B1. rewrite B1. cbn [negb].
    rewrite !concat_snoc2 by exact Hne.
    rewrite !startswith_cancel. exact Hstart. }
  unfold kept. rewrite should_ignore_blacklisted, Hb, orb_true_r. auto.
Qed.

Lemma blacklist_hides_top_level_lookalikes_witness :
  kept "/home/u" "." None ".github" = false.
Proof.
  apply (@blacklist_hides_top_level_lookalikes ["home"; "u"] ".github" ".git" None).
  - discriminate.
  - repeat constructor.
  - reflexivity.
  - simpl. tauto.
  - reflexivity.
Defined.

(* ------------------------------------------------------------------ *)
(** ** Kept entries are shown *)

Lemma pointers_in (n : nat) (pointer : string) :
  In pointer (pointers n) -> pointer = tee \/ pointer = corner.
Proof.
  unfold pointers. intro H. apply in_app_or in H. destruct H as [H | [<- | []]].
  - left. eapply repeat_spec, H.
  - right. reflexivity.
Qed.

Lemma reaches_dir cwd patterns here fp n q :
  reaches cwd patterns here fp n q -> isdir n = true -> isdir here = true.
Proof. induction 1; [auto | reflexivity]. Qed.

Section ShownFacts.
Variable refuses : string -> option exn.
Variable cwd : string.
Variable guess_type : string -> option string.
Variable patterns : option (list string).

(** A loop that returned has written the line of each of its items, and
    has gone through each of its directories. *)
Lemma display_loop_shows fp prefix :
  forall zipped total0 total,
    outcome (display_loop refuses guess_type fp prefix true zipped total0) = Ret total ->
    forall pointer it, In (pointer, it) zipped ->
      (exists label,
          entry_label guess_type (Path.join fp (item_name it)) (item_name it) (item_node it)
          = Some label
          /\ In (Print (prefix ++ pointer ++ label))
                (trace (display_loop refuses guess_type fp prefix true zipped total0)))
      /\ (isdir (item_node it) = true ->
          exists k,
            outcome (item_rec it (prefix ++ (if String.eqb pointer tee then bar else blank)))
            = Ret k
            /\ incl (trace (item_rec it
                              (prefix ++ (if String.eqb pointer tee then bar else blank))))
                    (trace (display_loop refuses guess_type fp prefix true zipped total0))).
Proof.
  induction zipped as [| [pointer0 it0] rest IH];
    intros total0 total Hrun pointer it Hin; [destruct Hin |].
  rewrite display_loop_cons in *.
  unfold entry_label.
  destruct (isdir (item_node it0)) eqn:D.
  - written Hrun. rewrite outcome_bind in Hrun. rewrite trace_bind.
    destruct (outcome (item_rec it0 _)) as [k | e] eqn:E; [| discriminate].
    destruct Hin as [[= <- <-] | Hin].
    + rewrite D. split.
      * eexists. split; [reflexivity | left; reflexivity].
      * intros _. exists k. split; [exact E |].
        intros ev Hev. right. apply in_or_app. left. exact Hev.
    + destruct (IH _ _ Hrun _ _ Hin) as [[label [Hl Hp]] Hsub]. split.
      * exists label. split; [exact Hl |]. right. apply in_or_app. right. exact Hp.
      * intro Hd. destruct (Hsub Hd) as [k' [Hk' Hincl]]. exists k'. split; [exact Hk' |].
        intros ev Hev. right. apply in_or_app. right. apply Hincl, Hev.
  - rewrite outcome_bind in Hrun. rewrite trace_bind.
    destruct (outcome (count_lines_or_get_type guess_type (item_node it0) _))
      as [[n | ty] | e] eqn:E; [| | discriminate]; written Hrun;
      (destruct Hin as [[= <- <-] | Hin];
       [ rewrite D, E; split; [| discriminate];
         eexists; split; [reflexivity |]; apply in_or_app; right; left; reflexivity
       | destruct (IH _ _ Hrun _ _ Hin) as [[label [Hl Hp]] Hsub]; split;
         [ exists label; split; [exact Hl |]; apply in_or_app; right; right; exact Hp
         | intro Hd; destruct (Hsub Hd) as [k' [Hk' Hincl]]; exists k'; split; [exact Hk' |];
           intros ev Hev; apply in_or_app; right; right; apply Hincl, Hev ] ]).
Qed.

(** A run of the renderer that returned has written a line for every entry
    the filter keeps, in every directory it reaches through kept entries. *)
Lemma display_shows here fp n q :
  reaches cwd patterns here fp n q ->
  forall entries prefix total name c,
    n = Dir entries ->
    outcome (display_tree_structure refuses cwd guess_type here fp patterns prefix true)
    = Ret total ->
    In (name, c) entries ->
    kept cwd q patterns name = true ->
    exists indent pointer label,
      entry_label guess_type (Path.join q name) name c = Some label
      /\ In (Print (indent ++ pointer ++ label))
            (trace (display_tree_structure refuses cwd guess_type here fp patterns prefix true))
      /\ (pointer = tee \/ pointer = corner).
Proof.
  induction 1 as [n p | entries0 p name0 c0 n q Hin0 Hk0 Hreach IH];
    intros entries prefix total name c Hn Hrun Hin Hk.
  - subst n. rewrite display_dir, outcome_emit_bind in Hrun.
    rewrite display_dir, trace_emit_bind.
    destruct (@shown_items_zipped refuses cwd guess_type patterns true p entries name c Hin Hk)
      as [pointer Hz].
    destruct (@display_loop_shows p prefix _ _ _ Hrun _ _ Hz) as [[label [Hl Hp]] _].
    cbn [as_item item_name item_node fst snd] in Hl.
    exists prefix, pointer, label. split; [exact Hl |]. split; [right; exact Hp |].
    eapply pointers_in, in_combine_l, Hz.
  - rewrite display_dir, outcome_emit_bind in Hrun.
    rewrite display_dir, trace_emit_bind.
    destruct (@shown_items_zipped refuses cwd guess_type patterns true p entries0 name0 c0
                Hin0 Hk0) as [pointer0 Hz].
    destruct (@display_loop_shows p prefix _ _ _ Hrun _ _ Hz) as [_ Hsub].
    cbn [as_item item_name item_node item_rec fst snd] in Hsub.
    destruct Hsub as [k [Hk' Hincl]].
    { eapply reaches_dir; [exact Hreach |]. rewrite Hn. reflexivity. }
    destruct (IH entries _ _ name c Hn Hk' Hin Hk) as [indent [pointer [label [Hl [Hp Hptr]]]]].
    exists indent, pointer, label. split; [exact Hl |]. split; [| exact Hptr].
    right. apply Hincl, Hp.
Qed.

End ShownFacts.

(** C5: with [--structure-all] alone the renderer is called without
    patterns, so an entry is left out exactly when the blacklist test holds
    for its path, and an entry for which it holds is left out whatever the
    patterns are.  An entry for which it does not hold is shown: when the
    run ends normally, every entry the blacklist keeps, in every directory
    reached through such entries, has its line in the output, whether an
    ignore pattern matches it or not, and the output has one line for each
    of them, besides the heading and the total. *)
Theorem structure_all_applies_blacklist_only
        (refuses : string -> option exn) (islink : string -> bool)
        (cwd : string) (guess_type : string -> option string) (help_text : string)
        (fs : string -> node) (a : args) (c : ascii) (p : string) :
  folder_path a = Some (String c p) ->
  help_only a = false ->
  structure a = false ->
  structure_all a = true ->
  let root := String c p in
  let run := main refuses islink cwd guess_type help_text fs a in
  run
  = finish (print refuses ("Directory structure (no ignore_patterns applied):" ++ Str.nl) ;;
            tree_with_total refuses cwd guess_type (fs root) root None)
  /\ (forall folder name,
         kept cwd folder None name = negb (blacklisted cwd (Path.join folder name)))
  /\ (forall patterns folder name,
         blacklisted cwd (Path.join folder name) = true ->
         kept cwd folder patterns name = false)
  /\ (forall here folder prefix,
         display_tree_structure refuses cwd guess_type here folder None prefix true
         = display_tree_structure refuses cwd guess_type (prune cwd here folder None) folder
             None prefix true)
  /\ (snd run = Completed ->
      forall entries folder name n,
        reaches cwd None (fs root) root (Dir entries) folder ->
        In (name, n) entries ->
        blacklisted cwd (Path.join folder name) = false ->
        exists indent pointer label,
          entry_label guess_type (Path.join folder name) name n = Some label
          /\ In (Print (indent ++ pointer ++ label)) (fst run)
          /\ (pointer = tee \/ pointer = corner))
  /\ (snd run = Completed ->
      List.length (printed (fst run)) = 2 + shown_entries cwd (fs root) root None).
Proof.
  intros Hp Hh Hs Hsa. cbv zeta.
  assert (Hkept : forall folder name,
             kept cwd folder None name = negb (blacklisted cwd (Path.join folder name))).
  { intros. unfold kept. rewrite should_ignore_no_patterns. reflexivity. }
  assert (Hmain : main refuses islink cwd guess_type help_text fs a
                  = finish (print refuses
                              ("Directory structure (no ignore_patterns applied):" ++ Str.nl) ;;
                            tree_with_total refuses cwd guess_type (fs (String c p))
                              (String c p) None)).
  { unfold main. rewrite Hh, Hp, Hs, Hsa. reflexivity. }
  assert (Hrun : snd (main refuses islink cwd guess_type help_text fs a) = Completed ->
                 exists total,
                   outcome (display_tree_structure refuses cwd guess_type (fs (String c p))
                              (String c p) None "" true) = Ret total
                   /\ fst (main refuses islink cwd guess_type help_text fs a)
                      = (Print ("Directory structure (no ignore_patterns applied):" ++ Str.nl)
                         :: trace (display_tree_structure refuses cwd guess_type
                                     (fs (String c p)) (String c p) None "" true)
                         ++ [Print (Str.nl ++ "Total lines in readable files: "
                                    ++ Str.of_nat total)])%list).
  { rewrite Hmain. unfold tree_with_total. rewrite print_bind.
    destruct (refuses _); [discriminate |].
    rewrite (M_eta (display_tree_structure refuses cwd guess_type (fs (String c p))
                      (String c p) None "" true)).
    destruct (outcome (display_tree_structure refuses cwd guess_type (fs (String c p))
                         (String c p) None "" true)) as [total | e]; [| discriminate].
    cbn [bind trace outcome fst snd]. rewrite print_alone.
    destruct (refuses _); [discriminate |]. intros _. exists total. split; reflexivity. }
  split; [exact Hmain |]. split; [exact Hkept |]. split; [| split; [| split]].
  - intros patterns folder name H. unfold kept.
    rewrite should_ignore_blacklisted, H, orb_true_r. reflexivity.
  - intros. apply display_prune.
  - intros Hdone entries folder name n Hreach Hin Hbl.
    destruct (Hrun Hdone) as [total [Ht Htr]].
    destruct (@display_shows refuses cwd guess_type None _ _ _ _ Hreach entries "" total
                name n eq_refl Ht Hin) as [indent [pointer [label [Hl [Hpr Hptr]]]]].
    { rewrite Hkept, Hbl. reflexivity. }
    exists indent, pointer, label. split; [exact Hl |]. split; [| exact Hptr].
    rewrite Htr. right. apply in_or_app. left. exact Hpr.
  - intro Hdone. destruct (Hrun Hdone) as [total [Ht Htr]].
    rewrite Htr. cbn [printed List.length]. rewrite printed_app, length_app.
    rewrite (@display_lines refuses cwd guess_type None true _ _ _ _ Ht).
    cbn [printed List.length]. lia.
Qed.

Lemma structure_all_applies_blacklist_only_witness :
  exists indent pointer label,
    entry_label no_guess "root/src/z.pyc" "z.pyc" (File (Text "")) = Some label
    /\ In (Print (indent ++ pointer ++ label))
          (fst (main never_refuses no_links "/home/u" no_guess "usage" (fun _ => sample_tree)
                  (Args (Some "root") false true false)))
    /\ (pointer = tee \/ pointer = corner).
Proof.
  apply (proj1 (proj2 (proj2 (proj2 (proj2
           (@structure_all_applies_blacklist_only never_refuses no_links "/home/u" no_guess
              "usage" (fun _ => sample_tree) (Args (Some "root") false true false) "r" "oot"
              eq_refl eq_refl eq_refl eq_refl)))))
           eq_refl
           [("m.py", File (Text ("p" ++ Str.nl ++ "q"))); ("z.pyc", File (Text ""))]
           "root/src" "z.pyc" (File (Text ""))).
  - eapply (@reaches_below "/home/u" None _ "root" "src" _ _ _).
    + right. right. right. right. left. reflexivity.
    + reflexivity.
    + apply reaches_here.
  - right. left. reflexivity.
  - reflexivity.
Defined.
